(** * Shape-based low-thrust trajectory design: the exposins shaping leg

    A shallow embedding of [ExposinsShaping] together with the properties
    stated about it.  The methods are those of
    Tudat/Astrodynamics/ShapeBasedMethods/exposinsShapingWorking.cpp; the
    getters, the queries defined inline and the three-argument function
    object [TimeOfFlightFunction] are those of exposinsShaping.h.  The two
    files are not of one build: the constructor of the .cpp has twelve
    parameters where the header declares ten, and the .cpp builds its two
    function objects from four callables where the header declares a
    constructor of three.  Each file is embedded as it reads; the function
    objects that the .cpp constructs are taken as collaborators.

    Conventions of the embedding:
    - a C++ [double] is a real number of the Standard Library: rounding,
      infinities and NaN are outside the model.  The square root of the
      library is 0 on a negative number, where [std::sqrt] yields NaN: what
      is stated about the value of a square root is stated where its
      argument is not negative;
    - an [Eigen] vector is a list of reals, a matrix a list of rows;
    - a method that assigns members is a state transformer that may throw
      ([Action]); a method that only reads members is a function of the
      object, into [Outcome] when it may throw;
    - code of other translation units (Eigen, the quadrature, the root
      finder, the interpolator, the composite functions, the coordinate
      conversions, the physical constants) is gathered in the class
      [Collaborators], over which every property is stated; [standIn] is a
      small instance on which the methods can be run. *)

From Stdlib Require Import Reals List ZArith Lra Lia Sorted.
From Stdlib Require String.
Import ListNotations.
Import String.StringSyntax.
Delimit Scope string_scope with string.

Open Scope R_scope.

(** ** Numbers, vectors and matrices *)

Module std.

(** [std::pow] is only ever called with the exponents 2, 3 and 4. *)
Definition pow (x : R) (n : nat) : R := x ^ n.

Definition sqrt (x : R) : R := R_sqrt.sqrt x.

Definition copysign (magnitude sign : R) : R :=
  if Rlt_dec sign 0 then - Rabs magnitude else Rabs magnitude.

(** Smallest integer that is not below [x]. *)
Definition ceil (x : R) : Z := (1 - up (- x))%Z.

End std.

Definition VectorXd := list R.
Definition Vector3d := list R.
Definition Vector6d := list R.
Definition MatrixXd := list (list R).

(** [v( i )] and [v[ i ]]. *)
Definition coeff (v : VectorXd) (i : nat) : R := nth i v 0.

(** [v( i ) = x].  Eigen does not grow a vector on assignment: an index
    past the end leaves the list as it is. *)
Fixpoint assign (i : nat) (x : R) (v : VectorXd) : VectorXd :=
  match v, i with
  | [], _ => []
  | _ :: tl, O => x :: tl
  | hd :: tl, S j => hd :: assign j x tl
  end.

(** [v.resize( n )] followed by the loop that sets every entry to [x]. *)
Definition resizeAndFill (n : nat) (x : R) : VectorXd := repeat x n.

(** [v.segment( start, n )]. *)
Definition segment (start n : nat) (v : VectorXd) : VectorXd :=
  firstn n (skipn start v).

(** [v.segment( start, n ) = src]. *)
Definition assignSegment (start n : nat) (src v : VectorXd) : VectorXd :=
  firstn start v ++ firstn n src ++ skipn (start + n) v.

Definition scale (c : R) (v : VectorXd) : VectorXd := map (fun x => x * c) v.
Definition divide (v : VectorXd) (c : R) : VectorXd := map (fun x => x / c) v.

Fixpoint vectorAdd (u v : VectorXd) : VectorXd :=
  match u, v with
  | x :: u', y :: v' => (x + y) :: vectorAdd u' v'
  | _, _ => []
  end.

Fixpoint vectorSubtract (u v : VectorXd) : VectorXd :=
  match u, v with
  | x :: u', y :: v' => (x - y) :: vectorSubtract u' v'
  | _, _ => []
  end.

Fixpoint dot (u v : VectorXd) : R :=
  match u, v with
  | x :: u', y :: v' => x * y + dot u' v'
  | _, _ => 0
  end.

Definition norm (v : VectorXd) : R := std.sqrt (dot v v).

(** [v.normalized( )]. *)
Definition normalized (v : VectorXd) : VectorXd := divide v (norm v).

(** [MatrixXd::Zero( rows, cols )]. *)
Definition Zero (rows cols : nat) : MatrixXd := repeat (repeat 0 cols) rows.

(** [m( i, j )]. *)
Definition entry (m : MatrixXd) (i j : nat) : R := nth j (nth i m []) 0.

(** [m( i, j ) = x]. *)
Fixpoint assignEntry (i j : nat) (x : R) (m : MatrixXd) : MatrixXd :=
  match m, i with
  | [], _ => []
  | row :: tl, O => assign j x row :: tl
  | row :: tl, S k => row :: assignEntry k j x tl
  end.

(** [m * v] for a column vector [v]. *)
Definition matrixVector (m : MatrixXd) (v : VectorXd) : VectorXd :=
  map (fun row => dot row v) m.

(** Column [j] of a matrix. *)
Definition column (m : MatrixXd) (j : nat) : VectorXd :=
  map (fun row => nth j row 0) m.

(** [a * b] for two matrices, [cols] being the number of columns of [b]. *)
Definition matrixProduct (a b : MatrixXd) (cols : nat) : MatrixXd :=
  map (fun row => map (fun j => dot row (column b j)) (seq 0 cols)) a.

Definition Identity (n : nat) : MatrixXd :=
  map (fun i => map (fun j => if Nat.eqb i j then 1 else 0) (seq 0 n)) (seq 0 n).

(** A square matrix of size [n] is singular when it has no right inverse. *)
Definition singular (n : nat) (m : MatrixXd) : Prop :=
  ~ exists b : MatrixXd, matrixProduct m b n = Identity n.

(** ** Exceptions *)

Inductive exception : Type :=
| runtime_error (what : String.string).

Inductive Outcome (A : Type) : Type :=
| Returns (a : A)
| Throws (e : exception).

Arguments Returns {A} a.
Arguments Throws {A} e.

Definition andThen {A B : Type} (o : Outcome A) (k : A -> Outcome B) : Outcome B :=
  match o with
  | Returns a => k a
  | Throws e => Throws e
  end.

(** The message of the feasibility check in the time integrand. *)
Definition infeasibleTrajectory : exception :=
  runtime_error
    "Error, trajectory not curved toward the central body, and thus not feasible."%string.

(** ** Collaborators

    Everything below belongs to other translation units. *)

(** The interface of [CompositeRadialFunctionExposinsShaping] and
    [CompositeElevationFunctionExposinsShaping]
    (compositeFunctionExposinsShaping.h): the basis functions with their
    derivatives, and the composite function of a coefficient vector with its
    derivatives. *)
Record CompositeFunctionClass : Type := {
  componentCurrentValue : nat -> R -> R;
  componentFirstDerivative : nat -> R -> R;
  componentSecondDerivative : nat -> R -> R;
  compositeValue : VectorXd -> R -> R;
  compositeFirstDerivative : VectorXd -> R -> R;
  compositeSecondDerivative : VectorXd -> R -> R;
  compositeThirdDerivative : VectorXd -> R -> R
}.

(** A composite function object: the coefficient vector it was given last. *)
Record CompositeFunction : Type := {
  compositeFunctionCoefficients_ : VectorXd
}.

(** Modelled from the spec: the sizes of the two basis sets, declared in
    compositeFunctionExposinsShaping.h (7 terms for the radial function, 4 for
    the angular function). *)
Definition numberOfRadialComponents : nat := 7.
Definition numberOfElevationComponents : nat := 4.

(** Modelled from the spec: [resetCompositeFunctionCoefficients] of
    compositeFunctionExposinsShaping.h replaces the coefficient vector and
    fails if the input size does not match the basis size. *)
Definition resetCompositeFunctionCoefficients
    (basisSize : nat) (coefficients : VectorXd) (f : CompositeFunction)
  : Outcome CompositeFunction :=
  if Nat.eqb (length coefficients) basisSize
  then Returns {| compositeFunctionCoefficients_ := coefficients |}
  else Throws (runtime_error
                 "Error when resetting composite function coefficients, sizes are incompatible."%string).

(** [std::make_shared< Composite...FunctionExposinsShaping >( coefficients )]. *)
Definition makeCompositeFunction (coefficients : VectorXd) : CompositeFunction :=
  {| compositeFunctionCoefficients_ := coefficients |}.

(** Modelled from the spec: the root-finder settings of
    Tudat/Mathematics/RootFinders select a tolerance and an iteration cap. *)
Record RootFinderSettings : Type := {
  terminationTolerance : R;
  maximumNumberOfIterations : nat
}.

(** Modelled from the spec: a root finder of Tudat/Mathematics/RootFinders,
    seen from the function it searches.  It asks for the residual at a trial
    value and goes on from the answer, until it returns a root or gives up;
    its iteration cap makes every run finite. *)
Inductive RootFinderCore : Type :=
| Converged (root : R)
| GivesUp (e : exception)
| Trial (inputValue : R) (next : R -> RootFinderCore).

(** The body of an [evaluate] member of a function object that was built
    from the four callables of [iterateToMatchRequiredTimeOfFlight] or of
    [iterateToMatchRequiredTimeOfFlightExposins]: all it can do to the
    shaping object is to call them. *)
Inductive ObjectiveBody : Type :=
| Result (residual : R)
| Raise (e : exception)
| CallResetFreeCoefficient (x : R) (k : ObjectiveBody)
| CallSatisfyBoundaryConditions (k : ObjectiveBody)
| CallComputeTimeOfFlight (k : R -> ObjectiveBody)
| CallGetRequiredTimeOfFlight (k : R -> ObjectiveBody).

(** Modelled from the spec: [evaluate] of the four-argument function object
    that [iterateToMatchRequiredTimeOfFlight] constructs, which no file at
    hand defines.  On each iteration it sets the trial free coefficient,
    re-solves the boundary conditions to refresh all dependent coefficients,
    computes the time of flight, and returns the residual, required minus
    computed. *)
Definition evaluateWithBoundarySolve (inputValue : R) : ObjectiveBody :=
  CallResetFreeCoefficient inputValue
    (CallSatisfyBoundaryConditions
       (CallComputeTimeOfFlight (fun currentTimeOfFlight =>
        CallGetRequiredTimeOfFlight (fun required =>
        Result (required - currentTimeOfFlight))))).

(** [numerical_integrators::IntegratorSettings]: only the initial step is read. *)
Record IntegratorSettings : Type := {
  initialTimeStep_ : R
}.

(** [numerical_quadrature::GaussianQuadratureSettings( lowerBound, nodes )]. *)
Record GaussianQuadratureSettings : Type := {
  quadratureLowerBound : R;
  numberOfNodes : nat
}.

Definition OneDimensionalInterpolator : Type := R -> R.

Class Collaborators : Type := {
  (** physical_constants *)
  ASTRONOMICAL_UNIT : R;
  JULIAN_YEAR : R;
  (** coordinate_conversions *)
  convertCartesianToSphericalState : Vector6d -> Vector6d;
  convertSphericalToCartesianState : Vector6d -> Vector6d;
  (** compositeFunctionExposinsShaping.h *)
  CompositeRadialFunctionExposinsShaping : CompositeFunctionClass;
  CompositeElevationFunctionExposinsShaping : CompositeFunctionClass;
  (** [Eigen::MatrixXd::inverse( )]: returns a matrix for every input, it
      has no failure mode. *)
  inverse : MatrixXd -> MatrixXd;
  (** [Eigen::VectorXd::LinSpaced( size, low, high )] *)
  LinSpaced : Z -> R -> R -> VectorXd;
  (** The abscissae and weights of the Gaussian rule with the given number
      of nodes on the interval from the lower to the upper bound. *)
  gaussianQuadratureNodes : nat -> R -> R -> list (R * R);
  (** [root_finders::createRootFinder( settings, lowerBound, upperBound,
      initialGuess )], then [execute( function, initialGuess )]. *)
  createRootFinder : RootFinderSettings -> R -> R -> R -> R -> RootFinderCore;
  (** [evaluate] of the function object that
      [iterateToMatchRequiredTimeOfFlight] builds from four callables
      (lines 633-634); exposinsShaping.h declares a [TimeOfFlightFunction]
      of three callables, which this call does not fit. *)
  TimeOfFlightFunction_evaluate : R -> ObjectiveBody;
  (** [TimeOfFlightFunctionExposins::evaluate] *)
  TimeOfFlightFunctionExposins_evaluate : R -> ObjectiveBody;
  (** [interpolators::createOneDimensionalInterpolator( data,
      LagrangeInterpolatorSettings( order ) )] *)
  createOneDimensionalInterpolator :
    list (R * R) -> nat -> Outcome OneDimensionalInterpolator
}.

(** Modelled from the spec: the quadrature service of
    Tudat/Mathematics/NumericalQuadrature returns the weighted sum of the
    integrand at its nodes; an exception of the integrand leaves through it. *)
Fixpoint getQuadrature (integrand : R -> Outcome R) (nodes : list (R * R))
  : Outcome R :=
  match nodes with
  | [] => Returns 0
  | (abscissa, weight) :: rest =>
      andThen (integrand abscissa) (fun value =>
      andThen (getQuadrature integrand rest) (fun sum =>
      Returns (weight * value + sum)))
  end.

(** [std::map< double, double >]: [data[ key ] = value] keeps the keys
    sorted and replaces the value of a key that is already there. *)
Fixpoint mapAssign (key value : R) (data : list (R * R)) : list (R * R) :=
  match data with
  | [] => [(key, value)]
  | (k, v) :: rest =>
      if Rlt_dec key k then (key, value) :: (k, v) :: rest
      else if Rlt_dec k key then (k, v) :: mapAssign key value rest
      else (key, value) :: rest
  end.

(** ** The shaping object

    The members that exposinsShapingWorking.cpp reads and assigns.  The two
    coefficient vectors have the sizes that the constructor gives them with
    [resize( 7 )] and [resize( 4 )]; exposinsShaping.h declares the radial one
    as [Eigen::Vector4d], a vector of four entries that cannot be resized, and
    does not declare the other. *)

Record ExposinsShaping : Type := {
  numberOfRevolutions_ : Z;
  initialValueFreeCoefficient_ : R;
  rootFinderSettings_ : RootFinderSettings;
  lowerBoundFreeCoefficient_ : R;
  upperBoundFreeCoefficient_ : R;
  integratorSettings_ : IntegratorSettings;
  initialState_ : Vector6d;
  finalState_ : Vector6d;
  requiredTimeOfFlight_ : R;
  centralBodyGravitationalParameter_ : R;
  initialStateSphericalCoordinates_ : Vector6d;
  finalStateSphericalCoordinates_ : Vector6d;
  initialAzimuthAngle_ : R;
  finalAzimuthAngle_ : R;
  initialStateParametrizedByAzimuthAngle_ : Vector6d;
  finalStateParametrizedByAzimuthAngle_ : Vector6d;
  coefficientsRadialDistanceFunction_ : VectorXd;
  coefficientsElevationAngleFunction_ : VectorXd;
  radialDistanceCompositeFunction_ : CompositeFunction;
  elevationAngleCompositeFunction_ : CompositeFunction;
  quadratureSettings_ : GaussianQuadratureSettings;
  travelledAzimuthAngle_ : R;
  windingParameter_ : R;
  initialCylindricalRadius_ : R;
  finalCylindricalRadius_ : R;
  lowerBoundGamma_ : R;
  upperBoundGamma_ : R;
  requiredGamma_ : R;
  interpolator_ : option OneDimensionalInterpolator
}.

(** Assignment to one member; every other member keeps its value. *)

Definition set_initialValueFreeCoefficient_ (x : R) (s : ExposinsShaping)
  : ExposinsShaping :=
  {| numberOfRevolutions_ := numberOfRevolutions_ s; initialValueFreeCoefficient_ := x;
     rootFinderSettings_ := rootFinderSettings_ s;
     lowerBoundFreeCoefficient_ := lowerBoundFreeCoefficient_ s;
     upperBoundFreeCoefficient_ := upperBoundFreeCoefficient_ s;
     integratorSettings_ := integratorSettings_ s; initialState_ := initialState_ s;
     finalState_ := finalState_ s; requiredTimeOfFlight_ := requiredTimeOfFlight_ s;
     centralBodyGravitationalParameter_ := centralBodyGravitationalParameter_ s;
     initialStateSphericalCoordinates_ := initialStateSphericalCoordinates_ s;
     finalStateSphericalCoordinates_ := finalStateSphericalCoordinates_ s;
     initialAzimuthAngle_ := initialAzimuthAngle_ s;
     finalAzimuthAngle_ := finalAzimuthAngle_ s;
     initialStateParametrizedByAzimuthAngle_ := initialStateParametrizedByAzimuthAngle_ s;
     finalStateParametrizedByAzimuthAngle_ := finalStateParametrizedByAzimuthAngle_ s;
     coefficientsRadialDistanceFunction_ := coefficientsRadialDistanceFunction_ s;
     coefficientsElevationAngleFunction_ := coefficientsElevationAngleFunction_ s;
     radialDistanceCompositeFunction_ := radialDistanceCompositeFunction_ s;
     elevationAngleCompositeFunction_ := elevationAngleCompositeFunction_ s;
     quadratureSettings_ := quadratureSettings_ s;
     travelledAzimuthAngle_ := travelledAzimuthAngle_ s;
     windingParameter_ := windingParameter_ s;
     initialCylindricalRadius_ := initialCylindricalRadius_ s;
     finalCylindricalRadius_ := finalCylindricalRadius_ s;
     lowerBoundGamma_ := lowerBoundGamma_ s; upperBoundGamma_ := upperBoundGamma_ s;
     requiredGamma_ := requiredGamma_ s; interpolator_ := interpolator_ s |}.

Definition set_requiredGamma_ (x : R) (s : ExposinsShaping)
  : ExposinsShaping :=
  {| numberOfRevolutions_ := numberOfRevolutions_ s;
     initialValueFreeCoefficient_ := initialValueFreeCoefficient_ s;
     rootFinderSettings_ := rootFinderSettings_ s;
     lowerBoundFreeCoefficient_ := lowerBoundFreeCoefficient_ s;
     upperBoundFreeCoefficient_ := upperBoundFreeCoefficient_ s;
     integratorSettings_ := integratorSettings_ s; initialState_ := initialState_ s;
     finalState_ := finalState_ s; requiredTimeOfFlight_ := requiredTimeOfFlight_ s;
     centralBodyGravitationalParameter_ := centralBodyGravitationalParameter_ s;
     initialStateSphericalCoordinates_ := initialStateSphericalCoordinates_ s;
     finalStateSphericalCoordinates_ := finalStateSphericalCoordinates_ s;
     initialAzimuthAngle_ := initialAzimuthAngle_ s;
     finalAzimuthAngle_ := finalAzimuthAngle_ s;
     initialStateParametrizedByAzimuthAngle_ := initialStateParametrizedByAzimuthAngle_ s;
     finalStateParametrizedByAzimuthAngle_ := finalStateParametrizedByAzimuthAngle_ s;
     coefficientsRadialDistanceFunction_ := coefficientsRadialDistanceFunction_ s;
     coefficientsElevationAngleFunction_ := coefficientsElevationAngleFunction_ s;
     radialDistanceCompositeFunction_ := radialDistanceCompositeFunction_ s;
     elevationAngleCompositeFunction_ := elevationAngleCompositeFunction_ s;
     quadratureSettings_ := quadratureSettings_ s;
     travelledAzimuthAngle_ := travelledAzimuthAngle_ s;
     windingParameter_ := windingParameter_ s;
     initialCylindricalRadius_ := initialCylindricalRadius_ s;
     finalCylindricalRadius_ := finalCylindricalRadius_ s;
     lowerBoundGamma_ := lowerBoundGamma_ s; upperBoundGamma_ := upperBoundGamma_ s;
     requiredGamma_ := x; interpolator_ := interpolator_ s |}.

Definition set_coefficientsRadialDistanceFunction_ (x : VectorXd) (s : ExposinsShaping)
  : ExposinsShaping :=
  {| numberOfRevolutions_ := numberOfRevolutions_ s;
     initialValueFreeCoefficient_ := initialValueFreeCoefficient_ s;
     rootFinderSettings_ := rootFinderSettings_ s;
     lowerBoundFreeCoefficient_ := lowerBoundFreeCoefficient_ s;
     upperBoundFreeCoefficient_ := upperBoundFreeCoefficient_ s;
     integratorSettings_ := integratorSettings_ s; initialState_ := initialState_ s;
     finalState_ := finalState_ s; requiredTimeOfFlight_ := requiredTimeOfFlight_ s;
     centralBodyGravitationalParameter_ := centralBodyGravitationalParameter_ s;
     initialStateSphericalCoordinates_ := initialStateSphericalCoordinates_ s;
     finalStateSphericalCoordinates_ := finalStateSphericalCoordinates_ s;
     initialAzimuthAngle_ := initialAzimuthAngle_ s;
     finalAzimuthAngle_ := finalAzimuthAngle_ s;
     initialStateParametrizedByAzimuthAngle_ := initialStateParametrizedByAzimuthAngle_ s;
     finalStateParametrizedByAzimuthAngle_ := finalStateParametrizedByAzimuthAngle_ s;
     coefficientsRadialDistanceFunction_ := x;
     coefficientsElevationAngleFunction_ := coefficientsElevationAngleFunction_ s;
     radialDistanceCompositeFunction_ := radialDistanceCompositeFunction_ s;
     elevationAngleCompositeFunction_ := elevationAngleCompositeFunction_ s;
     quadratureSettings_ := quadratureSettings_ s;
     travelledAzimuthAngle_ := travelledAzimuthAngle_ s;
     windingParameter_ := windingParameter_ s;
     initialCylindricalRadius_ := initialCylindricalRadius_ s;
     finalCylindricalRadius_ := finalCylindricalRadius_ s;
     lowerBoundGamma_ := lowerBoundGamma_ s; upperBoundGamma_ := upperBoundGamma_ s;
     requiredGamma_ := requiredGamma_ s; interpolator_ := interpolator_ s |}.

Definition set_coefficientsElevationAngleFunction_ (x : VectorXd) (s : ExposinsShaping)
  : ExposinsShaping :=
  {| numberOfRevolutions_ := numberOfRevolutions_ s;
     initialValueFreeCoefficient_ := initialValueFreeCoefficient_ s;
     rootFinderSettings_ := rootFinderSettings_ s;
     lowerBoundFreeCoefficient_ := lowerBoundFreeCoefficient_ s;
     upperBoundFreeCoefficient_ := upperBoundFreeCoefficient_ s;
     integratorSettings_ := integratorSettings_ s; initialState_ := initialState_ s;
     finalState_ := finalState_ s; requiredTimeOfFlight_ := requiredTimeOfFlight_ s;
     centralBodyGravitationalParameter_ := centralBodyGravitationalParameter_ s;
     initialStateSphericalCoordinates_ := initialStateSphericalCoordinates_ s;
     finalStateSphericalCoordinates_ := finalStateSphericalCoordinates_ s;
     initialAzimuthAngle_ := initialAzimuthAngle_ s;
     finalAzimuthAngle_ := finalAzimuthAngle_ s;
     initialStateParametrizedByAzimuthAngle_ := initialStateParametrizedByAzimuthAngle_ s;
     finalStateParametrizedByAzimuthAngle_ := finalStateParametrizedByAzimuthAngle_ s;
     coefficientsRadialDistanceFunction_ := coefficientsRadialDistanceFunction_ s;
     coefficientsElevationAngleFunction_ := x;
     radialDistanceCompositeFunction_ := radialDistanceCompositeFunction_ s;
     elevationAngleCompositeFunction_ := elevationAngleCompositeFunction_ s;
     quadratureSettings_ := quadratureSettings_ s;
     travelledAzimuthAngle_ := travelledAzimuthAngle_ s;
     windingParameter_ := windingParameter_ s;
     initialCylindricalRadius_ := initialCylindricalRadius_ s;
     finalCylindricalRadius_ := finalCylindricalRadius_ s;
     lowerBoundGamma_ := lowerBoundGamma_ s; upperBoundGamma_ := upperBoundGamma_ s;
     requiredGamma_ := requiredGamma_ s; interpolator_ := interpolator_ s |}.

Definition set_radialDistanceCompositeFunction_ (x : CompositeFunction) (s : ExposinsShaping)
  : ExposinsShaping :=
  {| numberOfRevolutions_ := numberOfRevolutions_ s;
     initialValueFreeCoefficient_ := initialValueFreeCoefficient_ s;
     rootFinderSettings_ := rootFinderSettings_ s;
     lowerBoundFreeCoefficient_ := lowerBoundFreeCoefficient_ s;
     upperBoundFreeCoefficient_ := upperBoundFreeCoefficient_ s;
     integratorSettings_ := integratorSettings_ s; initialState_ := initialState_ s;
     finalState_ := finalState_ s; requiredTimeOfFlight_ := requiredTimeOfFlight_ s;
     centralBodyGravitationalParameter_ := centralBodyGravitationalParameter_ s;
     initialStateSphericalCoordinates_ := initialStateSphericalCoordinates_ s;
     finalStateSphericalCoordinates_ := finalStateSphericalCoordinates_ s;
     initialAzimuthAngle_ := initialAzimuthAngle_ s;
     finalAzimuthAngle_ := finalAzimuthAngle_ s;
     initialStateParametrizedByAzimuthAngle_ := initialStateParametrizedByAzimuthAngle_ s;
     finalStateParametrizedByAzimuthAngle_ := finalStateParametrizedByAzimuthAngle_ s;
     coefficientsRadialDistanceFunction_ := coefficientsRadialDistanceFunction_ s;
     coefficientsElevationAngleFunction_ := coefficientsElevationAngleFunction_ s;
     radialDistanceCompositeFunction_ := x;
     elevationAngleCompositeFunction_ := elevationAngleCompositeFunction_ s;
     quadratureSettings_ := quadratureSettings_ s;
     travelledAzimuthAngle_ := travelledAzimuthAngle_ s;
     windingParameter_ := windingParameter_ s;
     initialCylindricalRadius_ := initialCylindricalRadius_ s;
     finalCylindricalRadius_ := finalCylindricalRadius_ s;
     lowerBoundGamma_ := lowerBoundGamma_ s; upperBoundGamma_ := upperBoundGamma_ s;
     requiredGamma_ := requiredGamma_ s; interpolator_ := interpolator_ s |}.

Definition set_elevationAngleCompositeFunction_ (x : CompositeFunction) (s : ExposinsShaping)
  : ExposinsShaping :=
  {| numberOfRevolutions_ := numberOfRevolutions_ s;
     initialValueFreeCoefficient_ := initialValueFreeCoefficient_ s;
     rootFinderSettings_ := rootFinderSettings_ s;
     lowerBoundFreeCoefficient_ := lowerBoundFreeCoefficient_ s;
     upperBoundFreeCoefficient_ := upperBoundFreeCoefficient_ s;
     integratorSettings_ := integratorSettings_ s; initialState_ := initialState_ s;
     finalState_ := finalState_ s; requiredTimeOfFlight_ := requiredTimeOfFlight_ s;
     centralBodyGravitationalParameter_ := centralBodyGravitationalParameter_ s;
     initialStateSphericalCoordinates_ := initialStateSphericalCoordinates_ s;
     finalStateSphericalCoordinates_ := finalStateSphericalCoordinates_ s;
     initialAzimuthAngle_ := initialAzimuthAngle_ s;
     finalAzimuthAngle_ := finalAzimuthAngle_ s;
     initialStateParametrizedByAzimuthAngle_ := initialStateParametrizedByAzimuthAngle_ s;
     finalStateParametrizedByAzimuthAngle_ := finalStateParametrizedByAzimuthAngle_ s;
     coefficientsRadialDistanceFunction_ := coefficientsRadialDistanceFunction_ s;
     coefficientsElevationAngleFunction_ := coefficientsElevationAngleFunction_ s;
     radialDistanceCompositeFunction_ := radialDistanceCompositeFunction_ s;
     elevationAngleCompositeFunction_ := x; quadratureSettings_ := quadratureSettings_ s;
     travelledAzimuthAngle_ := travelledAzimuthAngle_ s;
     windingParameter_ := windingParameter_ s;
     initialCylindricalRadius_ := initialCylindricalRadius_ s;
     finalCylindricalRadius_ := finalCylindricalRadius_ s;
     lowerBoundGamma_ := lowerBoundGamma_ s; upperBoundGamma_ := upperBoundGamma_ s;
     requiredGamma_ := requiredGamma_ s; interpolator_ := interpolator_ s |}.

Definition set_quadratureSettings_ (x : GaussianQuadratureSettings) (s : ExposinsShaping)
  : ExposinsShaping :=
  {| numberOfRevolutions_ := numberOfRevolutions_ s;
     initialValueFreeCoefficient_ := initialValueFreeCoefficient_ s;
     rootFinderSettings_ := rootFinderSettings_ s;
     lowerBoundFreeCoefficient_ := lowerBoundFreeCoefficient_ s;
     upperBoundFreeCoefficient_ := upperBoundFreeCoefficient_ s;
     integratorSettings_ := integratorSettings_ s; initialState_ := initialState_ s;
     finalState_ := finalState_ s; requiredTimeOfFlight_ := requiredTimeOfFlight_ s;
     centralBodyGravitationalParameter_ := centralBodyGravitationalParameter_ s;
     initialStateSphericalCoordinates_ := initialStateSphericalCoordinates_ s;
     finalStateSphericalCoordinates_ := finalStateSphericalCoordinates_ s;
     initialAzimuthAngle_ := initialAzimuthAngle_ s;
     finalAzimuthAngle_ := finalAzimuthAngle_ s;
     initialStateParametrizedByAzimuthAngle_ := initialStateParametrizedByAzimuthAngle_ s;
     finalStateParametrizedByAzimuthAngle_ := finalStateParametrizedByAzimuthAngle_ s;
     coefficientsRadialDistanceFunction_ := coefficientsRadialDistanceFunction_ s;
     coefficientsElevationAngleFunction_ := coefficientsElevationAngleFunction_ s;
     radialDistanceCompositeFunction_ := radialDistanceCompositeFunction_ s;
     elevationAngleCompositeFunction_ := elevationAngleCompositeFunction_ s;
     quadratureSettings_ := x; travelledAzimuthAngle_ := travelledAzimuthAngle_ s;
     windingParameter_ := windingParameter_ s;
     initialCylindricalRadius_ := initialCylindricalRadius_ s;
     finalCylindricalRadius_ := finalCylindricalRadius_ s;
     lowerBoundGamma_ := lowerBoundGamma_ s; upperBoundGamma_ := upperBoundGamma_ s;
     requiredGamma_ := requiredGamma_ s; interpolator_ := interpolator_ s |}.

Definition set_travelledAzimuthAngle_ (x : R) (s : ExposinsShaping)
  : ExposinsShaping :=
  {| numberOfRevolutions_ := numberOfRevolutions_ s;
     initialValueFreeCoefficient_ := initialValueFreeCoefficient_ s;
     rootFinderSettings_ := rootFinderSettings_ s;
     lowerBoundFreeCoefficient_ := lowerBoundFreeCoefficient_ s;
     upperBoundFreeCoefficient_ := upperBoundFreeCoefficient_ s;
     integratorSettings_ := integratorSettings_ s; initialState_ := initialState_ s;
     finalState_ := finalState_ s; requiredTimeOfFlight_ := requiredTimeOfFlight_ s;
     centralBodyGravitationalParameter_ := centralBodyGravitationalParameter_ s;
     initialStateSphericalCoordinates_ := initialStateSphericalCoordinates_ s;
     finalStateSphericalCoordinates_ := finalStateSphericalCoordinates_ s;
     initialAzimuthAngle_ := initialAzimuthAngle_ s;
     finalAzimuthAngle_ := finalAzimuthAngle_ s;
     initialStateParametrizedByAzimuthAngle_ := initialStateParametrizedByAzimuthAngle_ s;
     finalStateParametrizedByAzimuthAngle_ := finalStateParametrizedByAzimuthAngle_ s;
     coefficientsRadialDistanceFunction_ := coefficientsRadialDistanceFunction_ s;
     coefficientsElevationAngleFunction_ := coefficientsElevationAngleFunction_ s;
     radialDistanceCompositeFunction_ := radialDistanceCompositeFunction_ s;
     elevationAngleCompositeFunction_ := elevationAngleCompositeFunction_ s;
     quadratureSettings_ := quadratureSettings_ s; travelledAzimuthAngle_ := x;
     windingParameter_ := windingParameter_ s;
     initialCylindricalRadius_ := initialCylindricalRadius_ s;
     finalCylindricalRadius_ := finalCylindricalRadius_ s;
     lowerBoundGamma_ := lowerBoundGamma_ s; upperBoundGamma_ := upperBoundGamma_ s;
     requiredGamma_ := requiredGamma_ s; interpolator_ := interpolator_ s |}.

Definition set_windingParameter_ (x : R) (s : ExposinsShaping)
  : ExposinsShaping :=
  {| numberOfRevolutions_ := numberOfRevolutions_ s;
     initialValueFreeCoefficient_ := initialValueFreeCoefficient_ s;
     rootFinderSettings_ := rootFinderSettings_ s;
     lowerBoundFreeCoefficient_ := lowerBoundFreeCoefficient_ s;
     upperBoundFreeCoefficient_ := upperBoundFreeCoefficient_ s;
     integratorSettings_ := integratorSettings_ s; initialState_ := initialState_ s;
     finalState_ := finalState_ s; requiredTimeOfFlight_ := requiredTimeOfFlight_ s;
     centralBodyGravitationalParameter_ := centralBodyGravitationalParameter_ s;
     initialStateSphericalCoordinates_ := initialStateSphericalCoordinates_ s;
     finalStateSphericalCoordinates_ := finalStateSphericalCoordinates_ s;
     initialAzimuthAngle_ := initialAzimuthAngle_ s;
     finalAzimuthAngle_ := finalAzimuthAngle_ s;
     initialStateParametrizedByAzimuthAngle_ := initialStateParametrizedByAzimuthAngle_ s;
     finalStateParametrizedByAzimuthAngle_ := finalStateParametrizedByAzimuthAngle_ s;
     coefficientsRadialDistanceFunction_ := coefficientsRadialDistanceFunction_ s;
     coefficientsElevationAngleFunction_ := coefficientsElevationAngleFunction_ s;
     radialDistanceCompositeFunction_ := radialDistanceCompositeFunction_ s;
     elevationAngleCompositeFunction_ := elevationAngleCompositeFunction_ s;
     quadratureSettings_ := quadratureSettings_ s;
     travelledAzimuthAngle_ := travelledAzimuthAngle_ s; windingParameter_ := x;
     initialCylindricalRadius_ := initialCylindricalRadius_ s;
     finalCylindricalRadius_ := finalCylindricalRadius_ s;
     lowerBoundGamma_ := lowerBoundGamma_ s; upperBoundGamma_ := upperBoundGamma_ s;
     requiredGamma_ := requiredGamma_ s; interpolator_ := interpolator_ s |}.

Definition set_initialCylindricalRadius_ (x : R) (s : ExposinsShaping)
  : ExposinsShaping :=
  {| numberOfRevolutions_ := numberOfRevolutions_ s;
     initialValueFreeCoefficient_ := initialValueFreeCoefficient_ s;
     rootFinderSettings_ := rootFinderSettings_ s;
     lowerBoundFreeCoefficient_ := lowerBoundFreeCoefficient_ s;
     upperBoundFreeCoefficient_ := upperBoundFreeCoefficient_ s;
     integratorSettings_ := integratorSettings_ s; initialState_ := initialState_ s;
     finalState_ := finalState_ s; requiredTimeOfFlight_ := requiredTimeOfFlight_ s;
     centralBodyGravitationalParameter_ := centralBodyGravitationalParameter_ s;
     initialStateSphericalCoordinates_ := initialStateSphericalCoordinates_ s;
     finalStateSphericalCoordinates_ := finalStateSphericalCoordinates_ s;
     initialAzimuthAngle_ := initialAzimuthAngle_ s;
     finalAzimuthAngle_ := finalAzimuthAngle_ s;
     initialStateParametrizedByAzimuthAngle_ := initialStateParametrizedByAzimuthAngle_ s;
     finalStateParametrizedByAzimuthAngle_ := finalStateParametrizedByAzimuthAngle_ s;
     coefficientsRadialDistanceFunction_ := coefficientsRadialDistanceFunction_ s;
     coefficientsElevationAngleFunction_ := coefficientsElevationAngleFunction_ s;
     radialDistanceCompositeFunction_ := radialDistanceCompositeFunction_ s;
     elevationAngleCompositeFunction_ := elevationAngleCompositeFunction_ s;
     quadratureSettings_ := quadratureSettings_ s;
     travelledAzimuthAngle_ := travelledAzimuthAngle_ s;
     windingParameter_ := windingParameter_ s; initialCylindricalRadius_ := x;
     finalCylindricalRadius_ := finalCylindricalRadius_ s;
     lowerBoundGamma_ := lowerBoundGamma_ s; upperBoundGamma_ := upperBoundGamma_ s;
     requiredGamma_ := requiredGamma_ s; interpolator_ := interpolator_ s |}.

Definition set_finalCylindricalRadius_ (x : R) (s : ExposinsShaping)
  : ExposinsShaping :=
  {| numberOfRevolutions_ := numberOfRevolutions_ s;
     initialValueFreeCoefficient_ := initialValueFreeCoefficient_ s;
     rootFinderSettings_ := rootFinderSettings_ s;
     lowerBoundFreeCoefficient_ := lowerBoundFreeCoefficient_ s;
     upperBoundFreeCoefficient_ := upperBoundFreeCoefficient_ s;
     integratorSettings_ := integratorSettings_ s; initialState_ := initialState_ s;
     finalState_ := finalState_ s; requiredTimeOfFlight_ := requiredTimeOfFlight_ s;
     centralBodyGravitationalParameter_ := centralBodyGravitationalParameter_ s;
     initialStateSphericalCoordinates_ := initialStateSphericalCoordinates_ s;
     finalStateSphericalCoordinates_ := finalStateSphericalCoordinates_ s;
     initialAzimuthAngle_ := initialAzimuthAngle_ s;
     finalAzimuthAngle_ := finalAzimuthAngle_ s;
     initialStateParametrizedByAzimuthAngle_ := initialStateParametrizedByAzimuthAngle_ s;
     finalStateParametrizedByAzimuthAngle_ := finalStateParametrizedByAzimuthAngle_ s;
     coefficientsRadialDistanceFunction_ := coefficientsRadialDistanceFunction_ s;
     coefficientsElevationAngleFunction_ := coefficientsElevationAngleFunction_ s;
     radialDistanceCompositeFunction_ := radialDistanceCompositeFunction_ s;
     elevationAngleCompositeFunction_ := elevationAngleCompositeFunction_ s;
     quadratureSettings_ := quadratureSettings_ s;
     travelledAzimuthAngle_ := travelledAzimuthAngle_ s;
     windingParameter_ := windingParameter_ s;
     initialCylindricalRadius_ := initialCylindricalRadius_ s;
     finalCylindricalRadius_ := x; lowerBoundGamma_ := lowerBoundGamma_ s;
     upperBoundGamma_ := upperBoundGamma_ s; requiredGamma_ := requiredGamma_ s;
     interpolator_ := interpolator_ s |}.

Definition set_lowerBoundGamma_ (x : R) (s : ExposinsShaping)
  : ExposinsShaping :=
  {| numberOfRevolutions_ := numberOfRevolutions_ s;
     initialValueFreeCoefficient_ := initialValueFreeCoefficient_ s;
     rootFinderSettings_ := rootFinderSettings_ s;
     lowerBoundFreeCoefficient_ := lowerBoundFreeCoefficient_ s;
     upperBoundFreeCoefficient_ := upperBoundFreeCoefficient_ s;
     integratorSettings_ := integratorSettings_ s; initialState_ := initialState_ s;
     finalState_ := finalState_ s; requiredTimeOfFlight_ := requiredTimeOfFlight_ s;
     centralBodyGravitationalParameter_ := centralBodyGravitationalParameter_ s;
     initialStateSphericalCoordinates_ := initialStateSphericalCoordinates_ s;
     finalStateSphericalCoordinates_ := finalStateSphericalCoordinates_ s;
     initialAzimuthAngle_ := initialAzimuthAngle_ s;
     finalAzimuthAngle_ := finalAzimuthAngle_ s;
     initialStateParametrizedByAzimuthAngle_ := initialStateParametrizedByAzimuthAngle_ s;
     finalStateParametrizedByAzimuthAngle_ := finalStateParametrizedByAzimuthAngle_ s;
     coefficientsRadialDistanceFunction_ := coefficientsRadialDistanceFunction_ s;
     coefficientsElevationAngleFunction_ := coefficientsElevationAngleFunction_ s;
     radialDistanceCompositeFunction_ := radialDistanceCompositeFunction_ s;
     elevationAngleCompositeFunction_ := elevationAngleCompositeFunction_ s;
     quadratureSettings_ := quadratureSettings_ s;
     travelledAzimuthAngle_ := travelledAzimuthAngle_ s;
     windingParameter_ := windingParameter_ s;
     initialCylindricalRadius_ := initialCylindricalRadius_ s;
     finalCylindricalRadius_ := finalCylindricalRadius_ s; lowerBoundGamma_ := x;
     upperBoundGamma_ := upperBoundGamma_ s; requiredGamma_ := requiredGamma_ s;
     interpolator_ := interpolator_ s |}.

Definition set_upperBoundGamma_ (x : R) (s : ExposinsShaping)
  : ExposinsShaping :=
  {| numberOfRevolutions_ := numberOfRevolutions_ s;
     initialValueFreeCoefficient_ := initialValueFreeCoefficient_ s;
     rootFinderSettings_ := rootFinderSettings_ s;
     lowerBoundFreeCoefficient_ := lowerBoundFreeCoefficient_ s;
     upperBoundFreeCoefficient_ := upperBoundFreeCoefficient_ s;
     integratorSettings_ := integratorSettings_ s; initialState_ := initialState_ s;
     finalState_ := finalState_ s; requiredTimeOfFlight_ := requiredTimeOfFlight_ s;
     centralBodyGravitationalParameter_ := centralBodyGravitationalParameter_ s;
     initialStateSphericalCoordinates_ := initialStateSphericalCoordinates_ s;
     finalStateSphericalCoordinates_ := finalStateSphericalCoordinates_ s;
     initialAzimuthAngle_ := initialAzimuthAngle_ s;
     finalAzimuthAngle_ := finalAzimuthAngle_ s;
     initialStateParametrizedByAzimuthAngle_ := initialStateParametrizedByAzimuthAngle_ s;
     finalStateParametrizedByAzimuthAngle_ := finalStateParametrizedByAzimuthAngle_ s;
     coefficientsRadialDistanceFunction_ := coefficientsRadialDistanceFunction_ s;
     coefficientsElevationAngleFunction_ := coefficientsElevationAngleFunction_ s;
     radialDistanceCompositeFunction_ := radialDistanceCompositeFunction_ s;
     elevationAngleCompositeFunction_ := elevationAngleCompositeFunction_ s;
     quadratureSettings_ := quadratureSettings_ s;
     travelledAzimuthAngle_ := travelledAzimuthAngle_ s;
     windingParameter_ := windingParameter_ s;
     initialCylindricalRadius_ := initialCylindricalRadius_ s;
     finalCylindricalRadius_ := finalCylindricalRadius_ s;
     lowerBoundGamma_ := lowerBoundGamma_ s; upperBoundGamma_ := x;
     requiredGamma_ := requiredGamma_ s; interpolator_ := interpolator_ s |}.

Definition set_interpolator_ (x : option OneDimensionalInterpolator) (s : ExposinsShaping)
  : ExposinsShaping :=
  {| numberOfRevolutions_ := numberOfRevolutions_ s;
     initialValueFreeCoefficient_ := initialValueFreeCoefficient_ s;
     rootFinderSettings_ := rootFinderSettings_ s;
     lowerBoundFreeCoefficient_ := lowerBoundFreeCoefficient_ s;
     upperBoundFreeCoefficient_ := upperBoundFreeCoefficient_ s;
     integratorSettings_ := integratorSettings_ s; initialState_ := initialState_ s;
     finalState_ := finalState_ s; requiredTimeOfFlight_ := requiredTimeOfFlight_ s;
     centralBodyGravitationalParameter_ := centralBodyGravitationalParameter_ s;
     initialStateSphericalCoordinates_ := initialStateSphericalCoordinates_ s;
     finalStateSphericalCoordinates_ := finalStateSphericalCoordinates_ s;
     initialAzimuthAngle_ := initialAzimuthAngle_ s;
     finalAzimuthAngle_ := finalAzimuthAngle_ s;
     initialStateParametrizedByAzimuthAngle_ := initialStateParametrizedByAzimuthAngle_ s;
     finalStateParametrizedByAzimuthAngle_ := finalStateParametrizedByAzimuthAngle_ s;
     coefficientsRadialDistanceFunction_ := coefficientsRadialDistanceFunction_ s;
     coefficientsElevationAngleFunction_ := coefficientsElevationAngleFunction_ s;
     radialDistanceCompositeFunction_ := radialDistanceCompositeFunction_ s;
     elevationAngleCompositeFunction_ := elevationAngleCompositeFunction_ s;
     quadratureSettings_ := quadratureSettings_ s;
     travelledAzimuthAngle_ := travelledAzimuthAngle_ s;
     windingParameter_ := windingParameter_ s;
     initialCylindricalRadius_ := initialCylindricalRadius_ s;
     finalCylindricalRadius_ := finalCylindricalRadius_ s;
     lowerBoundGamma_ := lowerBoundGamma_ s; upperBoundGamma_ := upperBoundGamma_ s;
     requiredGamma_ := requiredGamma_ s; interpolator_ := x |}.

(** ** Actions: methods that assign members and may throw *)

Definition Action (A : Type) : Type :=
  ExposinsShaping -> Outcome (A * ExposinsShaping).

Definition ret {A : Type} (a : A) : Action A := fun s => Returns (a, s).

Definition bind {A B : Type} (m : Action A) (k : A -> Action B) : Action B :=
  fun s =>
    match m s with
    | Returns (a, s') => k a s'
    | Throws e => Throws e
    end.

Definition throw {A : Type} (e : exception) : Action A := fun _ => Throws e.

(** A member function that reads the object and may throw. *)
Definition query {A : Type} (f : ExposinsShaping -> Outcome A) : Action A :=
  fun s =>
    match f s with
    | Returns a => Returns (a, s)
    | Throws e => Throws e
    end.

(** A member function that only assigns members. *)
Definition modify (f : ExposinsShaping -> ExposinsShaping) : Action unit :=
  fun s => Returns (tt, f s).

Declare Scope action_scope.
Delimit Scope action_scope with action.
Notation "x <- m ;; k" := (bind m (fun x => k))
  (at level 61, m at next level, right associativity) : action_scope.
Notation "m ;; k" := (bind m (fun _ => k))
  (at level 61, right associativity) : action_scope.
Open Scope action_scope.

(** [for ( int i = 0 ; i < n ; i++ ) body] on a local variable. *)
Definition forLoop {S : Type} (n : nat) (body : nat -> S -> S) (init : S) : S :=
  fold_left (fun acc i => body i acc) (seq 0 n) init.

Section Methods.

Context {collaborators : Collaborators}.

(** ** Calls on the two composite functions *)

Definition radialFunction := CompositeRadialFunctionExposinsShaping.
Definition elevationFunction := CompositeElevationFunctionExposinsShaping.

(** [function->evaluateCompositeFunction( angle )] and its derivatives, on
    the coefficients the object holds. *)
Definition evaluateCompositeFunction
    (class : CompositeFunctionClass) (f : CompositeFunction) (angle : R) : R :=
  compositeValue class (compositeFunctionCoefficients_ f) angle.

Definition evaluateCompositeFunctionFirstDerivative
    (class : CompositeFunctionClass) (f : CompositeFunction) (angle : R) : R :=
  compositeFirstDerivative class (compositeFunctionCoefficients_ f) angle.

Definition evaluateCompositeFunctionSecondDerivative
    (class : CompositeFunctionClass) (f : CompositeFunction) (angle : R) : R :=
  compositeSecondDerivative class (compositeFunctionCoefficients_ f) angle.

Definition evaluateCompositeFunctionThirdDerivative
    (class : CompositeFunctionClass) (f : CompositeFunction) (angle : R) : R :=
  compositeThirdDerivative class (compositeFunctionCoefficients_ f) angle.

(** ** Boundary conditions *)

(** The matrix that [computeInverseMatrixBoundaryConditions] assembles
    before it inverts it. *)
Definition matrixBoundaryConditions (initialValueAlpha finalValueAlpha : R)
    (s : ExposinsShaping) : MatrixXd :=
  let radial :=
    forLoop 6 (fun i m =>
      let index := if Nat.leb 2 i then (i + 1)%nat else i in
      let m := assignEntry 0 i
                 (componentCurrentValue radialFunction index (initialAzimuthAngle_ s)) m in
      let m := assignEntry 1 i
                 (componentCurrentValue radialFunction index (finalAzimuthAngle_ s)) m in
      let m := assignEntry 2 i
                 (componentFirstDerivative radialFunction index (initialAzimuthAngle_ s)) m in
      let m := assignEntry 3 i
                 (componentFirstDerivative radialFunction index (finalAzimuthAngle_ s)) m in
      let m := assignEntry 4 i
                 (- std.pow (coeff (initialStateSphericalCoordinates_ s) 0) 2
                  * componentSecondDerivative radialFunction index (initialAzimuthAngle_ s)) m in
      assignEntry 5 i
        (- std.pow (coeff (finalStateSphericalCoordinates_ s) 0) 2
         * componentSecondDerivative radialFunction index (finalAzimuthAngle_ s)) m)
      (Zero 10 10) in
  forLoop 4 (fun i m =>
    let m := assignEntry 4 (i + 6)
               (initialValueAlpha
                * componentSecondDerivative elevationFunction i (initialAzimuthAngle_ s)) m in
    let m := assignEntry 5 (i + 6)
               (finalValueAlpha
                * componentSecondDerivative elevationFunction i (finalAzimuthAngle_ s)) m in
    let m := assignEntry 6 (i + 6)
               (componentCurrentValue elevationFunction i (initialAzimuthAngle_ s)) m in
    let m := assignEntry 7 (i + 6)
               (componentCurrentValue elevationFunction i (finalAzimuthAngle_ s)) m in
    let m := assignEntry 8 (i + 6)
               (componentFirstDerivative elevationFunction i (initialAzimuthAngle_ s)) m in
    assignEntry 9 (i + 6)
      (componentFirstDerivative elevationFunction i (finalAzimuthAngle_ s)) m)
    radial.

Definition computeInitialAlphaValue (s : ExposinsShaping) : R :=
  let state := initialStateParametrizedByAzimuthAngle_ s in
  - (coeff state 3 * coeff state 5 / coeff state 0)
  / (std.pow (coeff state 5 / coeff state 0) 2 + std.pow (cos (coeff state 2)) 2).

Definition computeFinalAlphaValue (s : ExposinsShaping) : R :=
  let state := finalStateParametrizedByAzimuthAngle_ s in
  - (coeff state 3 * coeff state 5 / coeff state 0)
  / (std.pow (coeff state 5 / coeff state 0) 2 + std.pow (cos (coeff state 2)) 2).

Definition computeInverseMatrixBoundaryConditions (s : ExposinsShaping) : MatrixXd :=
  let initialValueAlpha := computeInitialAlphaValue s in
  let finalValueAlpha := computeFinalAlphaValue s in
  inverse (matrixBoundaryConditions initialValueAlpha finalValueAlpha s).

Definition boundariesConstant
    (stateParametrizedByAzimuthAngle stateSphericalCoordinates : Vector6d)
    (centralBodyGravitationalParameter : R) : R :=
  let radialDistance := coeff stateParametrizedByAzimuthAngle 0 in
  let elevationAngle := coeff stateParametrizedByAzimuthAngle 2 in
  let derivativeRadialDistance := coeff stateParametrizedByAzimuthAngle 3 in
  let derivativeElevationAngle :=
    coeff stateParametrizedByAzimuthAngle 5 / coeff stateParametrizedByAzimuthAngle 0 in
  let derivativeOfTimeWrtAzimuthAngle :=
    (coeff stateParametrizedByAzimuthAngle 0 * cos (coeff stateParametrizedByAzimuthAngle 2))
    / coeff stateSphericalCoordinates 4 in
  - centralBodyGravitationalParameter * std.pow derivativeOfTimeWrtAzimuthAngle 2
    / std.pow radialDistance 2
  + 2 * std.pow derivativeRadialDistance 2 / radialDistance
  + radialDistance * (std.pow derivativeElevationAngle 2 + std.pow (cos elevationAngle) 2)
  - derivativeRadialDistance * derivativeElevationAngle
    * (sin elevationAngle * cos elevationAngle)
    / (std.pow derivativeElevationAngle 2 + std.pow (cos elevationAngle) 2).

Definition computeInitialValueBoundariesConstant (s : ExposinsShaping) : R :=
  boundariesConstant (initialStateParametrizedByAzimuthAngle_ s)
    (initialStateSphericalCoordinates_ s) (centralBodyGravitationalParameter_ s).

Definition computeFinalValueBoundariesConstant (s : ExposinsShaping) : R :=
  boundariesConstant (finalStateParametrizedByAzimuthAngle_ s)
    (finalStateSphericalCoordinates_ s) (centralBodyGravitationalParameter_ s).

(** The local [vectorBoundaryValues] of [satisfyBoundaryConditions]. *)
Definition vectorBoundaryValues (s : ExposinsShaping) : VectorXd :=
  let initial := initialStateParametrizedByAzimuthAngle_ s in
  let final := finalStateParametrizedByAzimuthAngle_ s in
  [ 1 / coeff initial 0;
    1 / coeff final 0;
    - coeff initial 3 / std.pow (coeff initial 0) 2;
    - coeff final 3 / std.pow (coeff final 0) 2;
    computeInitialValueBoundariesConstant s
      - 2 * std.pow (coeff initial 3) 2 / coeff initial 0;
    computeFinalValueBoundariesConstant s
      - 2 * std.pow (coeff final 3) 2 / coeff final 0;
    coeff initial 2;
    coeff final 2;
    coeff initial 5 / coeff initial 0;
    coeff final 5 / coeff final 0 ].

(** The local [vectorSecondComponentContribution] before it is multiplied by
    the free coefficient: the column of basis term 2 of the radial function. *)
Definition freeCoefficientColumn (s : ExposinsShaping) : VectorXd :=
  let initial := initialStateParametrizedByAzimuthAngle_ s in
  let final := finalStateParametrizedByAzimuthAngle_ s in
  [ componentCurrentValue radialFunction 2 (initialAzimuthAngle_ s);
    componentCurrentValue radialFunction 2 (finalAzimuthAngle_ s);
    componentFirstDerivative radialFunction 2 (initialAzimuthAngle_ s);
    componentFirstDerivative radialFunction 2 (finalAzimuthAngle_ s);
    - std.pow (coeff initial 0) 2
      * componentSecondDerivative radialFunction 2 (initialAzimuthAngle_ s);
    - std.pow (coeff final 0) 2
      * componentSecondDerivative radialFunction 2 (finalAzimuthAngle_ s);
    0; 0; 0; 0 ].

(** The local [compositeFunctionCoefficients] of [satisfyBoundaryConditions]. *)
Definition compositeFunctionCoefficients (s : ExposinsShaping) : VectorXd :=
  let vectorSecondComponentContribution :=
    scale (initialValueFreeCoefficient_ s) (freeCoefficientColumn s) in
  let inverseMatrixBoundaryConditions_ := computeInverseMatrixBoundaryConditions s in
  matrixVector inverseMatrixBoundaryConditions_
    (vectorSubtract (vectorBoundaryValues s) vectorSecondComponentContribution).

Definition satisfyBoundaryConditions : Action unit :=
  fun s =>
    let coefficients := compositeFunctionCoefficients s in
    let radialCoefficients :=
      forLoop 6 (fun i v =>
        if Nat.ltb i 2 then assign i (coeff coefficients i) v
        else assign (i + 1) (coeff coefficients i) v)
        (coefficientsRadialDistanceFunction_ s) in
    let radialCoefficients := assign 2 (initialValueFreeCoefficient_ s) radialCoefficients in
    let elevationCoefficients :=
      forLoop 4 (fun i v => assign i (coeff coefficients (i + 6)) v)
        (coefficientsElevationAngleFunction_ s) in
    let s := set_coefficientsRadialDistanceFunction_ radialCoefficients s in
    let s := set_coefficientsElevationAngleFunction_ elevationCoefficients s in
    andThen (resetCompositeFunctionCoefficients numberOfRadialComponents
               (coefficientsRadialDistanceFunction_ s) (radialDistanceCompositeFunction_ s))
      (fun radial =>
    let s := set_radialDistanceCompositeFunction_ radial s in
    andThen (resetCompositeFunctionCoefficients numberOfElevationComponents
               (coefficientsElevationAngleFunction_ s) (elevationAngleCompositeFunction_ s))
      (fun elevation =>
    let s := set_elevationAngleCompositeFunction_ elevation s in
    Returns (tt, s))).

(** ** Time equation and quadratures *)

Definition computeScalarFunctionTimeEquation (s : ExposinsShaping) (currentAzimuthAngle : R) : R :=
  let radialFunctionValue :=
    evaluateCompositeFunction radialFunction (radialDistanceCompositeFunction_ s) currentAzimuthAngle in
  let firstDerivativeRadialFunction :=
    evaluateCompositeFunctionFirstDerivative radialFunction (radialDistanceCompositeFunction_ s) currentAzimuthAngle in
  let secondDerivativeRadialFunction :=
    evaluateCompositeFunctionSecondDerivative radialFunction (radialDistanceCompositeFunction_ s) currentAzimuthAngle in
  let elevationFunctionValue :=
    evaluateCompositeFunction elevationFunction (elevationAngleCompositeFunction_ s) currentAzimuthAngle in
  let firstDerivativeElevationFunction :=
    evaluateCompositeFunctionFirstDerivative elevationFunction (elevationAngleCompositeFunction_ s) currentAzimuthAngle in
  let secondDerivativeElevationFunction :=
    evaluateCompositeFunctionSecondDerivative elevationFunction (elevationAngleCompositeFunction_ s) currentAzimuthAngle in
  - secondDerivativeRadialFunction
  + 2 * std.pow firstDerivativeRadialFunction 2 / radialFunctionValue
  + firstDerivativeRadialFunction * firstDerivativeElevationFunction
    * (secondDerivativeElevationFunction - sin elevationFunctionValue * cos elevationFunctionValue)
    / (std.pow firstDerivativeElevationFunction 2 + std.pow (cos elevationFunctionValue) 2)
  + radialFunctionValue
    * (std.pow firstDerivativeElevationFunction 2 + std.pow (cos elevationFunctionValue) 2).

Definition computeDerivativeScalarFunctionTimeEquation (s : ExposinsShaping) (currentAzimuthAngle : R) : R :=
  let radialFunctionValue :=
    evaluateCompositeFunction radialFunction (radialDistanceCompositeFunction_ s) currentAzimuthAngle in
  let firstDerivativeRadialFunction :=
    evaluateCompositeFunctionFirstDerivative radialFunction (radialDistanceCompositeFunction_ s) currentAzimuthAngle in
  let secondDerivativeRadialFunction :=
    evaluateCompositeFunctionSecondDerivative radialFunction (radialDistanceCompositeFunction_ s) currentAzimuthAngle in
  let thirdDerivativeRadialFunction :=
    evaluateCompositeFunctionThirdDerivative radialFunction (radialDistanceCompositeFunction_ s) currentAzimuthAngle in
  let elevationFunctionValue :=
    evaluateCompositeFunction elevationFunction (elevationAngleCompositeFunction_ s) currentAzimuthAngle in
  let firstDerivativeElevationFunction :=
    evaluateCompositeFunctionFirstDerivative elevationFunction (elevationAngleCompositeFunction_ s) currentAzimuthAngle in
  let secondDerivativeElevationFunction :=
    evaluateCompositeFunctionSecondDerivative elevationFunction (elevationAngleCompositeFunction_ s) currentAzimuthAngle in
  let thirdDerivativeElevationFunction :=
    evaluateCompositeFunctionThirdDerivative elevationFunction (elevationAngleCompositeFunction_ s) currentAzimuthAngle in
  let F1 := std.pow firstDerivativeElevationFunction 2 + std.pow (cos elevationFunctionValue) 2 in
  let F2 := secondDerivativeElevationFunction - sin (2 * elevationFunctionValue) / 2 in
  let F3 := cos (2 * elevationFunctionValue) + 2 * std.pow firstDerivativeElevationFunction 2 + 1 in
  let F4 := 2 * secondDerivativeElevationFunction - sin (2 * elevationFunctionValue) in
  F1 * firstDerivativeRadialFunction - thirdDerivativeRadialFunction
  - 2 * std.pow firstDerivativeRadialFunction 3 / std.pow radialFunctionValue 2
  + 4 * firstDerivativeRadialFunction * secondDerivativeRadialFunction / radialFunctionValue
  + F4 * firstDerivativeElevationFunction * radialFunctionValue
  + 2 * firstDerivativeElevationFunction * firstDerivativeRadialFunction
    * (thirdDerivativeElevationFunction
       - firstDerivativeElevationFunction * cos (2 * elevationFunctionValue)) / F3
  + F2 * firstDerivativeElevationFunction * secondDerivativeRadialFunction / F1
  + F2 * firstDerivativeRadialFunction * secondDerivativeElevationFunction / F1
  - 4 * F4 * F2 * std.pow firstDerivativeElevationFunction 2 * firstDerivativeRadialFunction
    / std.pow F3 2.

(** The lambda [derivativeTimeFunction] that [computeNormalizedTimeOfFlight],
    [computeCurrentTimeFromAzimuthAngle] and [convertIndependentVariableToTime]
    each define, with the same body. *)
Definition derivativeTimeFunction (s : ExposinsShaping) (currentAzimuthAngle : R) : Outcome R :=
  let scalarFunctionTimeEquation := computeScalarFunctionTimeEquation s currentAzimuthAngle in
  if Rlt_dec scalarFunctionTimeEquation 0
  then Throws infeasibleTrajectory
  else Returns
         (std.sqrt (computeScalarFunctionTimeEquation s currentAzimuthAngle
                    * std.pow (evaluateCompositeFunction radialFunction
                                 (radialDistanceCompositeFunction_ s) currentAzimuthAngle) 2
                    / centralBodyGravitationalParameter_ s)).

(** [createQuadrature( integrand, quadratureSettings_, upperBound )] followed
    by [getQuadrature( )]. *)
Definition integrate (s : ExposinsShaping) (integrand : R -> Outcome R) (upperBound : R)
  : Outcome R :=
  getQuadrature integrand
    (gaussianQuadratureNodes (numberOfNodes (quadratureSettings_ s))
       (quadratureLowerBound (quadratureSettings_ s)) upperBound).

Definition convertIndependentVariableToTime (s : ExposinsShaping) (independentVariable : R)
  : Outcome R :=
  integrate s (derivativeTimeFunction s) independentVariable.

Definition computeNormalizedTimeOfFlight (s : ExposinsShaping) : Outcome R :=
  integrate s (derivativeTimeFunction s) (finalAzimuthAngle_ s).

Definition computeCurrentTimeFromAzimuthAngle (s : ExposinsShaping) (currentAzimuthAngle : R)
  : Outcome R :=
  integrate s (derivativeTimeFunction s) currentAzimuthAngle.

Definition computeTimeOfFlight (s : ExposinsShaping) : Outcome R :=
  andThen (computeNormalizedTimeOfFlight s) (fun normalized =>
  Returns (normalized * JULIAN_YEAR)).

Definition convertTimeToIndependentVariable (s : ExposinsShaping) (time : R) : option R :=
  option_map (fun interpolate => interpolate time) (interpolator_ s).

(** ** The exponential sinusoid *)

(** The parameters that [computeBaseTimeOfFlightFunction],
    [computeCurrentNormalizedThrustAccelerationMagnitude] and
    [computeFirstDerivativeAzimuthAngleWrtTimeExposins] each recompute. *)
Definition dynamicRangeParameter (s : ExposinsShaping) : R :=
  let windTravelProduct := windingParameter_ s * travelledAzimuthAngle_ s in
  let logRadiiFraction := ln (initialCylindricalRadius_ s / finalCylindricalRadius_ s) in
  let dynamicRangeValue :=
    std.sqrt (std.pow ((logRadiiFraction
                        + (tan (requiredGamma_ s) / windingParameter_ s) * sin windTravelProduct)
                       / (1 - cos windTravelProduct)) 2
              + std.pow (tan (requiredGamma_ s)) 2 / std.pow (windingParameter_ s) 2) in
  let dynamicRangeSign :=
    logRadiiFraction + (tan (requiredGamma_ s) / windingParameter_ s) * sin windTravelProduct in
  std.copysign dynamicRangeValue dynamicRangeSign.

Definition phaseAngle (s : ExposinsShaping) : R :=
  acos (tan (requiredGamma_ s) / (windingParameter_ s * dynamicRangeParameter s)).

Definition scalingFactor (s : ExposinsShaping) : R :=
  initialCylindricalRadius_ s / exp (dynamicRangeParameter s * sin (phaseAngle s)).

Definition computeBaseTimeOfFlightFunction (s : ExposinsShaping) (currentAzimuthAngle : R) : R :=
  let dynamicRangeParameter := dynamicRangeParameter s in
  let phaseAngle := phaseAngle s in
  let scalingFactor := scalingFactor s in
  let cosineValue := cos (windingParameter_ s * currentAzimuthAngle) in
  let sineValue := sin (windingParameter_ s * currentAzimuthAngle + phaseAngle) in
  let flightAngle := atan (dynamicRangeParameter * windingParameter_ s * cosineValue) in
  let radiusValue := scalingFactor * exp (dynamicRangeParameter * sineValue) in
  std.sqrt (std.pow radiusValue 3
            * (std.pow (tan flightAngle) 2
               + dynamicRangeParameter * std.pow (windingParameter_ s) 2 * sineValue + 1)
            / centralBodyGravitationalParameter_ s).

Definition computeNormalizedTimeOfFlightExposins (s : ExposinsShaping) : Outcome R :=
  integrate s (fun currentAzimuthAngle =>
                 Returns (computeBaseTimeOfFlightFunction s currentAzimuthAngle))
    (travelledAzimuthAngle_ s).

Definition computeCurrentNormalizedThrustAccelerationMagnitude
    (s : ExposinsShaping) (currentAzimuthAngle : R) : R :=
  let dynamicRangeParameter := dynamicRangeParameter s in
  let phaseAngle := phaseAngle s in
  let scalingFactor := scalingFactor s in
  let flightAngle :=
    atan (dynamicRangeParameter * windingParameter_ s
          * cos (windingParameter_ s * currentAzimuthAngle + phaseAngle)) in
  let tanGamma :=
    dynamicRangeParameter * windingParameter_ s
    * cos (windingParameter_ s * currentAzimuthAngle + phaseAngle) in
  let k1k22s :=
    dynamicRangeParameter * std.pow (windingParameter_ s) 2
    * sin (windingParameter_ s * currentAzimuthAngle + phaseAngle) in
  let currentRadius :=
    scalingFactor
    * exp (dynamicRangeParameter * sin (windingParameter_ s * currentAzimuthAngle + phaseAngle))
    * ASTRONOMICAL_UNIT in
  let centralBodyGravitationalParameter :=
    centralBodyGravitationalParameter_ s / std.pow JULIAN_YEAR 2
    * std.pow ASTRONOMICAL_UNIT 3 in
  let C1 := tanGamma / (2 * cos flightAngle) in
  let C2 := 1 in
  let C3 := std.pow tanGamma 2 + k1k22s + 1 in
  let C4 :=
    std.pow (windingParameter_ s) 2
    * (1 - 2 * dynamicRangeParameter
           * sin (windingParameter_ s * currentAzimuthAngle + phaseAngle)) in
  let C5 := std.pow C3 2 in
  let C6 := centralBodyGravitationalParameter / std.pow currentRadius 2 in
  (C1 * (C2 / C3 - C4 / C5)) * C6.

Definition computeFirstDerivativeAzimuthAngleWrtTimeExposins
    (s : ExposinsShaping) (currentAzimuthAngle : R) : R :=
  let dynamicRangeParameter := dynamicRangeParameter s in
  let phaseAngle := phaseAngle s in
  let scalingFactor := scalingFactor s in
  let tanGamma :=
    dynamicRangeParameter * windingParameter_ s
    * cos (windingParameter_ s * currentAzimuthAngle + phaseAngle) in
  let k1k22s :=
    dynamicRangeParameter * std.pow (windingParameter_ s) 2
    * sin (windingParameter_ s * currentAzimuthAngle + phaseAngle) in
  let currentRadius :=
    scalingFactor
    * exp (dynamicRangeParameter * sin (windingParameter_ s * currentAzimuthAngle + phaseAngle))
    * ASTRONOMICAL_UNIT in
  let centralBodyGravitationalParameter :=
    centralBodyGravitationalParameter_ s / std.pow JULIAN_YEAR 2
    * std.pow ASTRONOMICAL_UNIT 3 in
  std.sqrt ((centralBodyGravitationalParameter / std.pow currentRadius 3) * 1
            / (std.pow tanGamma 2 + k1k22s + 1)).

Definition computeDeltaVExposins (s : ExposinsShaping) : Outcome R :=
  integrate s (fun currentAzimuthAngle =>
                 Returns (computeCurrentNormalizedThrustAccelerationMagnitude s currentAzimuthAngle
                          / computeFirstDerivativeAzimuthAngleWrtTimeExposins s currentAzimuthAngle))
    (travelledAzimuthAngle_ s).

(** ** Kinematics and thrust *)

(** [c * v] for a scalar [c]. *)
Definition scalarTimes (c : R) (v : VectorXd) : VectorXd := map (fun x => c * x) v.

(** A [Vector6d] local whose two halves are assigned one after the other. *)
Definition fromSegments (first second : Vector3d) : Vector6d :=
  assignSegment 3 3 second (assignSegment 0 3 first (repeat 0 6%nat)).

Definition computePositionVectorInSphericalCoordinates
    (s : ExposinsShaping) (currentAzimuthAngle : R) : Vector3d :=
  [ evaluateCompositeFunction radialFunction (radialDistanceCompositeFunction_ s) currentAzimuthAngle;
    currentAzimuthAngle;
    evaluateCompositeFunction elevationFunction (elevationAngleCompositeFunction_ s) currentAzimuthAngle ].

Definition computeFirstDerivativeAzimuthAngleWrtTime
    (s : ExposinsShaping) (currentAzimuthAngle : R) : R :=
  let scalarFunctionTimeEquation := computeScalarFunctionTimeEquation s currentAzimuthAngle in
  let radialDistance :=
    evaluateCompositeFunction radialFunction (radialDistanceCompositeFunction_ s) currentAzimuthAngle in
  std.sqrt (centralBodyGravitationalParameter_ s
            / (scalarFunctionTimeEquation * std.pow radialDistance 2)).

Definition computeSecondDerivativeAzimuthAngleWrtTime
    (s : ExposinsShaping) (currentAzimuthAngle : R) : R :=
  let firstDerivativeAzimuthAngle := computeFirstDerivativeAzimuthAngleWrtTime s currentAzimuthAngle in
  let scalarFunctionTimeEquation := computeScalarFunctionTimeEquation s currentAzimuthAngle in
  let derivativeScalarFunctionTimeEquation :=
    computeDerivativeScalarFunctionTimeEquation s currentAzimuthAngle in
  let radialDistance :=
    evaluateCompositeFunction radialFunction (radialDistanceCompositeFunction_ s) currentAzimuthAngle in
  let firstDerivativeRadialDistance :=
    evaluateCompositeFunctionFirstDerivative radialFunction (radialDistanceCompositeFunction_ s) currentAzimuthAngle in
  - std.pow firstDerivativeAzimuthAngle 2
  * (derivativeScalarFunctionTimeEquation / (2 * scalarFunctionTimeEquation)
     + firstDerivativeRadialDistance / radialDistance).

Definition computeCurrentVelocityParametrizedByAzimuthAngle
    (s : ExposinsShaping) (currentAzimuthAngle : R) : Vector3d :=
  let radialDistance :=
    evaluateCompositeFunction radialFunction (radialDistanceCompositeFunction_ s) currentAzimuthAngle in
  let derivativeRadialDistance :=
    evaluateCompositeFunctionFirstDerivative radialFunction (radialDistanceCompositeFunction_ s) currentAzimuthAngle in
  let elevationAngle :=
    evaluateCompositeFunction elevationFunction (elevationAngleCompositeFunction_ s) currentAzimuthAngle in
  let derivativeElevationAngle :=
    evaluateCompositeFunctionFirstDerivative elevationFunction (elevationAngleCompositeFunction_ s) currentAzimuthAngle in
  [ derivativeRadialDistance;
    radialDistance * cos elevationAngle;
    radialDistance * derivativeElevationAngle ].

Definition computeVelocityVectorInSphericalCoordinates
    (s : ExposinsShaping) (currentAzimuthAngle : R) : Vector3d :=
  let derivativeAzimuthAngle := computeFirstDerivativeAzimuthAngleWrtTime s currentAzimuthAngle in
  scalarTimes derivativeAzimuthAngle
    (computeCurrentVelocityParametrizedByAzimuthAngle s currentAzimuthAngle).

Definition computeStateVectorInSphericalCoordinates
    (s : ExposinsShaping) (currentAzimuthAngle : R) : Vector6d :=
  fromSegments (computePositionVectorInSphericalCoordinates s currentAzimuthAngle)
    (computeVelocityVectorInSphericalCoordinates s currentAzimuthAngle).

Definition computeNormalizedStateVector
    (s : ExposinsShaping) (currentAzimuthAngle : R) : Vector6d :=
  convertSphericalToCartesianState
    (computeStateVectorInSphericalCoordinates s currentAzimuthAngle).

Definition computeCurrentStateVector
    (s : ExposinsShaping) (currentAzimuthAngle : R) : Vector6d :=
  fromSegments
    (scale ASTRONOMICAL_UNIT
       (segment 0 3 (computeNormalizedStateVector s currentAzimuthAngle)))
    (divide
       (scale ASTRONOMICAL_UNIT
          (segment 3 3 (computeNormalizedStateVector s currentAzimuthAngle)))
       JULIAN_YEAR).

Definition computeCurrentAccelerationParametrizedByAzimuthAngle
    (s : ExposinsShaping) (currentAzimuthAngle : R) : Vector3d :=
  let radialDistance :=
    evaluateCompositeFunction radialFunction (radialDistanceCompositeFunction_ s) currentAzimuthAngle in
  let firstDerivativeRadialDistance :=
    evaluateCompositeFunctionFirstDerivative radialFunction (radialDistanceCompositeFunction_ s) currentAzimuthAngle in
  let secondDerivativeRadialDistance :=
    evaluateCompositeFunctionSecondDerivative radialFunction (radialDistanceCompositeFunction_ s) currentAzimuthAngle in
  let elevationAngle :=
    evaluateCompositeFunction elevationFunction (elevationAngleCompositeFunction_ s) currentAzimuthAngle in
  let firstDerivativeElevationAngle :=
    evaluateCompositeFunctionFirstDerivative elevationFunction (elevationAngleCompositeFunction_ s) currentAzimuthAngle in
  let secondDerivativeElevationAngle :=
    evaluateCompositeFunctionSecondDerivative elevationFunction (elevationAngleCompositeFunction_ s) currentAzimuthAngle in
  [ secondDerivativeRadialDistance
    - radialDistance * (std.pow firstDerivativeElevationAngle 2 + std.pow (cos elevationAngle) 2);
    2 * firstDerivativeRadialDistance * cos elevationAngle
    - 2 * radialDistance * firstDerivativeElevationAngle * sin elevationAngle;
    2 * firstDerivativeRadialDistance * firstDerivativeElevationAngle
    + radialDistance * (secondDerivativeElevationAngle + sin elevationAngle * cos elevationAngle) ].

Definition computeThrustAccelerationInSphericalCoordinates
    (s : ExposinsShaping) (currentAzimuthAngle : R) : Vector3d :=
  let radialDistance :=
    evaluateCompositeFunction radialFunction (radialDistanceCompositeFunction_ s) currentAzimuthAngle in
  let firstDerivativeAzimuthAngleWrtTime :=
    computeFirstDerivativeAzimuthAngleWrtTime s currentAzimuthAngle in
  let secondDerivativeAzimuthAngleWrtTime :=
    computeSecondDerivativeAzimuthAngleWrtTime s currentAzimuthAngle in
  let velocityParametrizedByAzimuthAngle :=
    computeCurrentVelocityParametrizedByAzimuthAngle s currentAzimuthAngle in
  let accelerationParametrizedByAzimuthAngle :=
    computeCurrentAccelerationParametrizedByAzimuthAngle s currentAzimuthAngle in
  vectorAdd
    (vectorAdd
       (scalarTimes (std.pow firstDerivativeAzimuthAngleWrtTime 2)
          accelerationParametrizedByAzimuthAngle)
       (scalarTimes secondDerivativeAzimuthAngleWrtTime velocityParametrizedByAzimuthAngle))
    (scalarTimes (centralBodyGravitationalParameter_ s / std.pow radialDistance 3)
       [ radialDistance; 0; 0 ]).

Definition computeNormalizedThrustAccelerationVector
    (s : ExposinsShaping) (currentAzimuthAngle : R) : Vector3d :=
  let sphericalStateToBeConverted :=
    fromSegments (computePositionVectorInSphericalCoordinates s currentAzimuthAngle)
      (computeThrustAccelerationInSphericalCoordinates s currentAzimuthAngle) in
  segment 3 3 (convertSphericalToCartesianState sphericalStateToBeConverted).

Definition computeCurrentThrustAccelerationVector
    (s : ExposinsShaping) (currentAzimuthAngle : R) : Vector3d :=
  divide
    (scale ASTRONOMICAL_UNIT (computeNormalizedThrustAccelerationVector s currentAzimuthAngle))
    (std.pow JULIAN_YEAR 2).

Definition computeCurrentThrustAccelerationMagnitude
    (s : ExposinsShaping) (currentAzimuthAngle : R) : R :=
  norm (computeNormalizedThrustAccelerationVector s currentAzimuthAngle) * ASTRONOMICAL_UNIT
  / std.pow JULIAN_YEAR 2.

Definition computeCurrentThrustAccelerationDirection
    (s : ExposinsShaping) (currentAzimuthAngle : R) : Vector3d :=
  normalized (computeNormalizedThrustAccelerationVector s currentAzimuthAngle).

(** The lambda [derivativeFunctionDeltaV] of [computeDeltaV]. *)
Definition derivativeFunctionDeltaV (s : ExposinsShaping) (currentAzimuthAngle : R) : Outcome R :=
  let thrustAcceleration :=
    norm (computeThrustAccelerationInSphericalCoordinates s currentAzimuthAngle)
    * std.sqrt (computeScalarFunctionTimeEquation s currentAzimuthAngle
                * std.pow (evaluateCompositeFunction radialFunction
                             (radialDistanceCompositeFunction_ s) currentAzimuthAngle) 2
                / centralBodyGravitationalParameter_ s) in
  Returns thrustAcceleration.

Definition computeDeltaV (s : ExposinsShaping) : Outcome R :=
  andThen (integrate s (derivativeFunctionDeltaV s) (finalAzimuthAngle_ s)) (fun quadrature =>
  Returns (quadrature * ASTRONOMICAL_UNIT / JULIAN_YEAR)).

(** ** The objective of the root finder *)

(** [struct TimeOfFlightFunction] of exposinsShaping.h: its four private
    members.  The constructor of the header stores three of them and leaves
    [satisfyBoundaryConditionsFunction_] as it is given here. *)
Record TimeOfFlightFunction : Type := {
  resetFreeCoefficientFunction_ : R -> Action unit;
  satisfyBoundaryConditionsFunction_ : Action unit;
  computeTimeOfFlightFunction_ : Action R;
  getRequiredTimeOfFlightfunction_ : Action R
}.

(** [TimeOfFlightFunction::evaluate] of exposinsShaping.h. *)
Definition evaluate (f : TimeOfFlightFunction) (inputValue : R) : Action R :=
  resetFreeCoefficientFunction_ f inputValue ;;
  currentTimeOfFlight <- computeTimeOfFlightFunction_ f ;;
  required <- getRequiredTimeOfFlightfunction_ f ;;
  ret (required - currentTimeOfFlight).

(** Modelled from the spec: [resetValueFreeCoefficient], bound in
    [iterateToMatchRequiredTimeOfFlight] and defined in no file at hand,
    sets the trial free coefficient, as [resetRequiredGamma] of the header
    does for gamma. *)
Definition resetValueFreeCoefficient (freeCoefficient : R) : Action unit :=
  modify (set_initialValueFreeCoefficient_ freeCoefficient).

Definition resetRequiredGamma (requiredGamma : R) : Action unit :=
  modify (set_requiredGamma_ requiredGamma).

Definition getNormalizedRequiredTimeOfFlight (s : ExposinsShaping) : R :=
  requiredTimeOfFlight_ s.

(** [rootFinder->execute( function, initialGuess )]: the root finder asks,
    the function answers on the shaping object. *)
Fixpoint execute (rootFinder : RootFinderCore) (function : R -> Action R) : Action R :=
  match rootFinder with
  | Converged root => ret root
  | GivesUp e => throw e
  | Trial inputValue next =>
      residual <- function inputValue ;;
      execute (next residual) function
  end.

(** A body that can only call the four callables it was built from. *)
Fixpoint runObjectiveBody (f : TimeOfFlightFunction) (body : ObjectiveBody) : Action R :=
  match body with
  | Result residual => ret residual
  | Raise e => throw e
  | CallResetFreeCoefficient x k =>
      resetFreeCoefficientFunction_ f x ;; runObjectiveBody f k
  | CallSatisfyBoundaryConditions k =>
      satisfyBoundaryConditionsFunction_ f ;; runObjectiveBody f k
  | CallComputeTimeOfFlight k =>
      timeOfFlight <- computeTimeOfFlightFunction_ f ;; runObjectiveBody f (k timeOfFlight)
  | CallGetRequiredTimeOfFlight k =>
      required <- getRequiredTimeOfFlightfunction_ f ;; runObjectiveBody f (k required)
  end.

(** The four member functions that [iterateToMatchRequiredTimeOfFlight]
    binds (lines 628-631), in the order in which it passes them on. *)
Definition timeOfFlightFunction : TimeOfFlightFunction :=
  {| resetFreeCoefficientFunction_ := resetValueFreeCoefficient;
     satisfyBoundaryConditionsFunction_ := satisfyBoundaryConditions;
     computeTimeOfFlightFunction_ := query computeNormalizedTimeOfFlight;
     getRequiredTimeOfFlightfunction_ :=
       query (fun s => Returns (getNormalizedRequiredTimeOfFlight s)) |}.

(** The function that the root finder of the first loop searches: [evaluate]
    of the object built from the four callables. *)
Definition objectiveOfTheFirstLoop (inputValue : R) : Action R :=
  runObjectiveBody timeOfFlightFunction (TimeOfFlightFunction_evaluate inputValue).

Definition iterateToMatchRequiredTimeOfFlight
    (rootFinderSettings : RootFinderSettings) (lowerBound upperBound initialGuess : R)
  : Action unit :=
  let rootFinder := createRootFinder rootFinderSettings lowerBound upperBound initialGuess in
  updatedFreeCoefficient <- execute (rootFinder initialGuess) objectiveOfTheFirstLoop ;;
  ret tt.

(** The function object that [iterateToMatchRequiredTimeOfFlightExposins]
    builds from its four bound member functions. *)
Definition timeOfFlightFunctionExposins : TimeOfFlightFunction :=
  {| resetFreeCoefficientFunction_ := resetRequiredGamma;
     satisfyBoundaryConditionsFunction_ := satisfyBoundaryConditions;
     computeTimeOfFlightFunction_ := query computeNormalizedTimeOfFlightExposins;
     getRequiredTimeOfFlightfunction_ :=
       query (fun s => Returns (getNormalizedRequiredTimeOfFlight s)) |}.

Definition iterateToMatchRequiredTimeOfFlightExposins
    (rootFinderSettings : RootFinderSettings) (lowerBound upperBound initialGuess : R)
  : Action unit :=
  let rootFinder := createRootFinder rootFinderSettings lowerBound upperBound initialGuess in
  updatedRequiredGamma <-
    execute (rootFinder initialGuess)
      (fun inputValue =>
         runObjectiveBody timeOfFlightFunctionExposins
           (TimeOfFlightFunctionExposins_evaluate inputValue)) ;;
  ret tt.

(** ** The constructor *)

(** The azimuth angle of a spherical state, brought to a non-negative value. *)
Definition wrapAzimuthAngle (sphericalState : Vector6d) : Vector6d :=
  if Rlt_dec (coeff sphericalState 1) 0
  then assign 1 (coeff sphericalState 1 + 2 * PI) sphericalState
  else sphericalState.

(** The final value of the azimuth angle, from the two wrapped spherical
    states and the number of revolutions. *)
Definition computeFinalAzimuthAngle
    (initialStateSphericalCoordinates finalStateSphericalCoordinates : Vector6d)
    (numberOfRevolutions : Z) : R :=
  if Rlt_dec (coeff finalStateSphericalCoordinates 1
              - coeff initialStateSphericalCoordinates 1) 0
  then coeff finalStateSphericalCoordinates 1 + 2 * PI * (IZR numberOfRevolutions + 1)
  else coeff finalStateSphericalCoordinates 1 + 2 * PI * IZR numberOfRevolutions.

(** A boundary state with the azimuth angle as independent variable. *)
Definition parametrizeByAzimuthAngle (sphericalState : Vector6d) : Vector6d :=
  let derivativeAzimuthAngle :=
    coeff sphericalState 4 / (coeff sphericalState 0 * cos (coeff sphericalState 2)) in
  [ coeff sphericalState 0;
    coeff sphericalState 1;
    coeff sphericalState 2;
    coeff sphericalState 3 / derivativeAzimuthAngle;
    coeff sphericalState 4 / derivativeAzimuthAngle;
    coeff sphericalState 5 / derivativeAzimuthAngle ].

(** The two bounds on gamma, [sign] being [-1] for the lower and [1] for the
    upper one. *)
Definition boundGamma (sign : R) (s : ExposinsShaping) : R :=
  let logRadiiFraction := ln (initialCylindricalRadius_ s / finalCylindricalRadius_ s) in
  atan (windingParameter_ s / 2
        * (- logRadiiFraction
             * (1 / tan ((windingParameter_ s * travelledAzimuthAngle_ s) / 2))
           + sign
             * std.sqrt ((2 * (1 - cos (windingParameter_ s * travelledAzimuthAngle_ s)))
                         / std.pow (windingParameter_ s) 4
                         - std.pow logRadiiFraction 2))).

(** The loop that fills [dataToInterpolate]. *)
Fixpoint computeAssociatedEpochs (s : ExposinsShaping) (azimuthAngles : list R)
    (dataToInterpolate : list (R * R)) : Outcome (list (R * R)) :=
  match azimuthAngles with
  | [] => Returns dataToInterpolate
  | angle :: rest =>
      andThen (computeCurrentTimeFromAzimuthAngle s angle) (fun time =>
      computeAssociatedEpochs s rest (mapAssign (time * JULIAN_YEAR) angle dataToInterpolate))
  end.

(** The end of the constructor: the table from time to azimuth angle. *)
Definition createInterpolator (initialStepSize : R) : Action unit :=
  fun s =>
    andThen (computeNormalizedTimeOfFlight s) (fun timeOfFlight =>
    let azimuthAnglesToComputeAssociatedEpochs :=
      LinSpaced (std.ceil (timeOfFlight * JULIAN_YEAR / initialStepSize))
        (initialAzimuthAngle_ s) (finalAzimuthAngle_ s) in
    andThen (computeAssociatedEpochs s azimuthAnglesToComputeAssociatedEpochs [])
      (fun dataToInterpolate =>
    andThen (createOneDimensionalInterpolator dataToInterpolate 10) (fun interpolator =>
    Returns (tt, set_interpolator_ (Some interpolator) s)))).

(** A member that the constructor has not assigned yet.  Nothing reads it
    before its assignment. *)
Definition unassigned : R := 0.

(** The members as they are when the constructor first calls a method
    (line 140 of exposinsShapingWorking.cpp). *)
Definition initialise
    (initialState finalState : Vector6d) (requiredTimeOfFlight : R) (numberOfRevolutions : Z)
    (centralBodyGravitationalParameter initialValueFreeCoefficient : R)
    (rootFinderSettings : RootFinderSettings)
    (lowerBoundFreeCoefficient upperBoundFreeCoefficient : R)
    (integratorSettings : IntegratorSettings) : ExposinsShaping :=
  let initialState_ :=
    fromSegments (divide (segment 0 3 initialState) ASTRONOMICAL_UNIT)
      (divide (scale JULIAN_YEAR (segment 3 3 initialState)) ASTRONOMICAL_UNIT) in
  let finalState_ :=
    fromSegments (divide (segment 0 3 finalState) ASTRONOMICAL_UNIT)
      (divide (scale JULIAN_YEAR (segment 3 3 finalState)) ASTRONOMICAL_UNIT) in
  let initialStateSphericalCoordinates_ :=
    wrapAzimuthAngle (convertCartesianToSphericalState initialState_) in
  let finalStateSphericalCoordinates_ :=
    wrapAzimuthAngle (convertCartesianToSphericalState finalState_) in
  let initialAzimuthAngle_ := coeff initialStateSphericalCoordinates_ 1 in
  let coefficientsRadialDistanceFunction_ := resizeAndFill 7 1 in
  let coefficientsElevationAngleFunction_ := resizeAndFill 4 1 in
  {| numberOfRevolutions_ := numberOfRevolutions;
     initialValueFreeCoefficient_ := initialValueFreeCoefficient;
     rootFinderSettings_ := rootFinderSettings;
     lowerBoundFreeCoefficient_ := lowerBoundFreeCoefficient;
     upperBoundFreeCoefficient_ := upperBoundFreeCoefficient;
     integratorSettings_ := integratorSettings;
     initialState_ := initialState_;
     finalState_ := finalState_;
     requiredTimeOfFlight_ := requiredTimeOfFlight / JULIAN_YEAR;
     centralBodyGravitationalParameter_ :=
       centralBodyGravitationalParameter * std.pow JULIAN_YEAR 2
       / std.pow ASTRONOMICAL_UNIT 3;
     initialStateSphericalCoordinates_ := initialStateSphericalCoordinates_;
     finalStateSphericalCoordinates_ := finalStateSphericalCoordinates_;
     initialAzimuthAngle_ := initialAzimuthAngle_;
     finalAzimuthAngle_ :=
       computeFinalAzimuthAngle initialStateSphericalCoordinates_
         finalStateSphericalCoordinates_ numberOfRevolutions;
     initialStateParametrizedByAzimuthAngle_ :=
       parametrizeByAzimuthAngle initialStateSphericalCoordinates_;
     finalStateParametrizedByAzimuthAngle_ :=
       parametrizeByAzimuthAngle finalStateSphericalCoordinates_;
     coefficientsRadialDistanceFunction_ := coefficientsRadialDistanceFunction_;
     coefficientsElevationAngleFunction_ := coefficientsElevationAngleFunction_;
     radialDistanceCompositeFunction_ :=
       makeCompositeFunction coefficientsRadialDistanceFunction_;
     elevationAngleCompositeFunction_ :=
       makeCompositeFunction coefficientsElevationAngleFunction_;
     quadratureSettings_ :=
       {| quadratureLowerBound := initialAzimuthAngle_; numberOfNodes := 16 |};
     travelledAzimuthAngle_ := unassigned;
     windingParameter_ := unassigned;
     initialCylindricalRadius_ := unassigned;
     finalCylindricalRadius_ := unassigned;
     lowerBoundGamma_ := unassigned;
     upperBoundGamma_ := unassigned;
     requiredGamma_ := unassigned;
     interpolator_ := None |}.

(** The rest of the constructor, from line 140 on.  The lines that print to
    [std::cout] assign nothing and are left out. *)
Definition completeConstruction (initialStepSize : R) : Action unit :=
  fun s =>
    (iterateToMatchRequiredTimeOfFlight (rootFinderSettings_ s)
       (lowerBoundFreeCoefficient_ s) (upperBoundFreeCoefficient_ s)
       (initialValueFreeCoefficient_ s) ;;
     modify (set_travelledAzimuthAngle_ (PI / 2 + 2 * PI * 2)) ;;
     modify (set_windingParameter_ (8333333333 / 100000000000)) ;;
     modify (set_initialCylindricalRadius_ 1) ;;
     modify (set_finalCylindricalRadius_ (15 / 10)) ;;
     modify (fun s => set_lowerBoundGamma_ (boundGamma (-1) s) s) ;;
     modify (fun s => set_upperBoundGamma_ (boundGamma 1 s) s) ;;
     modify (fun s => set_requiredGamma_ ((lowerBoundGamma_ s + upperBoundGamma_ s) / 2) s) ;;
     modify (set_requiredGamma_ (- 80 * PI / 180)) ;;
     modify (set_requiredGamma_ 0) ;;
     modify (set_quadratureSettings_ {| quadratureLowerBound := 0; numberOfNodes := 16 |}) ;;
     (fun s => iterateToMatchRequiredTimeOfFlightExposins (rootFinderSettings_ s)
                 (lowerBoundGamma_ s) (upperBoundGamma_ s) (requiredGamma_ s) s) ;;
     modify (set_requiredGamma_ (- 25 * PI / 180)) ;;
     modify (fun s => set_quadratureSettings_
                        {| quadratureLowerBound := initialAzimuthAngle_ s;
                           numberOfNodes := 16 |} s) ;;
     createInterpolator initialStepSize) s.

(** [ExposinsShaping::ExposinsShaping].  The gravitational parameter of the
    central body, which the constructor retrieves from the body map, is an
    argument here. *)
Definition construct
    (initialState finalState : Vector6d) (requiredTimeOfFlight : R) (numberOfRevolutions : Z)
    (centralBodyGravitationalParameter initialValueFreeCoefficient : R)
    (rootFinderSettings : RootFinderSettings)
    (lowerBoundFreeCoefficient upperBoundFreeCoefficient : R)
    (integratorSettings : IntegratorSettings) : Outcome ExposinsShaping :=
  andThen
    (completeConstruction (initialTimeStep_ integratorSettings)
       (initialise initialState finalState requiredTimeOfFlight numberOfRevolutions
          centralBodyGravitationalParameter initialValueFreeCoefficient rootFinderSettings
          lowerBoundFreeCoefficient upperBoundFreeCoefficient integratorSettings))
    (fun result => Returns (snd result)).

(** ** Getters of the header *)

Definition getInitialAzimuthAngle (s : ExposinsShaping) : R := initialAzimuthAngle_ s.
Definition getFinalAzimuthAngle (s : ExposinsShaping) : R := finalAzimuthAngle_ s.
Definition getTravelledAzimuthAngle (s : ExposinsShaping) : R := travelledAzimuthAngle_ s.
Definition getRequiredGamma (s : ExposinsShaping) : R := requiredGamma_ s.
Definition getRadialDistanceFunctionCoefficients (s : ExposinsShaping) : VectorXd :=
  coefficientsRadialDistanceFunction_ s.

End Methods.

(** ** The queries as member functions

    [computeCurrentStateVector], [computeDeltaV] and the member functions
    they call are not declared [const].  Here they are written as actions,
    statement by statement: the value of a member is read with [member], a
    call of a member function is the action of this function, and a call on
    one of the two composite function objects, whose class is a
    collaborator, returns the value of the function for the coefficients
    that the object holds.  Operands of one expression are evaluated from
    left to right. *)

Module Method.
Section Method.

Context {collaborators : Collaborators}.

(** The value of a member. *)
Definition member {A : Type} (get : ExposinsShaping -> A) : Action A :=
  fun s => Returns (get s, s).

(** [radialDistanceCompositeFunction_->evaluation( angle )]. *)
Definition onRadialFunction
    (evaluation : CompositeFunctionClass -> CompositeFunction -> R -> R) (angle : R)
  : Action R :=
  object <- member radialDistanceCompositeFunction_ ;;
  ret (evaluation radialFunction object angle).

(** [elevationAngleCompositeFunction_->evaluation( angle )]. *)
Definition onElevationFunction
    (evaluation : CompositeFunctionClass -> CompositeFunction -> R -> R) (angle : R)
  : Action R :=
  object <- member elevationAngleCompositeFunction_ ;;
  ret (evaluation elevationFunction object angle).

Definition computeScalarFunctionTimeEquation (currentAzimuthAngle : R) : Action R :=
  radialFunctionValue <- onRadialFunction evaluateCompositeFunction currentAzimuthAngle ;;
  firstDerivativeRadialFunction <-
    onRadialFunction evaluateCompositeFunctionFirstDerivative currentAzimuthAngle ;;
  secondDerivativeRadialFunction <-
    onRadialFunction evaluateCompositeFunctionSecondDerivative currentAzimuthAngle ;;
  elevationFunctionValue <- onElevationFunction evaluateCompositeFunction currentAzimuthAngle ;;
  firstDerivativeElevationFunction <-
    onElevationFunction evaluateCompositeFunctionFirstDerivative currentAzimuthAngle ;;
  secondDerivativeElevationFunction <-
    onElevationFunction evaluateCompositeFunctionSecondDerivative currentAzimuthAngle ;;
  ret (- secondDerivativeRadialFunction
       + 2 * std.pow firstDerivativeRadialFunction 2 / radialFunctionValue
       + firstDerivativeRadialFunction * firstDerivativeElevationFunction
         * (secondDerivativeElevationFunction
            - sin elevationFunctionValue * cos elevationFunctionValue)
         / (std.pow firstDerivativeElevationFunction 2
            + std.pow (cos elevationFunctionValue) 2)
       + radialFunctionValue
         * (std.pow firstDerivativeElevationFunction 2
            + std.pow (cos elevationFunctionValue) 2)).

Definition computeDerivativeScalarFunctionTimeEquation (currentAzimuthAngle : R)
  : Action R :=
  radialFunctionValue <- onRadialFunction evaluateCompositeFunction currentAzimuthAngle ;;
  firstDerivativeRadialFunction <-
    onRadialFunction evaluateCompositeFunctionFirstDerivative currentAzimuthAngle ;;
  secondDerivativeRadialFunction <-
    onRadialFunction evaluateCompositeFunctionSecondDerivative currentAzimuthAngle ;;
  thirdDerivativeRadialFunction <-
    onRadialFunction evaluateCompositeFunctionThirdDerivative currentAzimuthAngle ;;
  elevationFunctionValue <- onElevationFunction evaluateCompositeFunction currentAzimuthAngle ;;
  firstDerivativeElevationFunction <-
    onElevationFunction evaluateCompositeFunctionFirstDerivative currentAzimuthAngle ;;
  secondDerivativeElevationFunction <-
    onElevationFunction evaluateCompositeFunctionSecondDerivative currentAzimuthAngle ;;
  thirdDerivativeElevationFunction <-
    onElevationFunction evaluateCompositeFunctionThirdDerivative currentAzimuthAngle ;;
  let F1 := std.pow firstDerivativeElevationFunction 2 + std.pow (cos elevationFunctionValue) 2 in
  let F2 := secondDerivativeElevationFunction - sin (2 * elevationFunctionValue) / 2 in
  let F3 := cos (2 * elevationFunctionValue) + 2 * std.pow firstDerivativeElevationFunction 2 + 1 in
  let F4 := 2 * secondDerivativeElevationFunction - sin (2 * elevationFunctionValue) in
  ret (F1 * firstDerivativeRadialFunction - thirdDerivativeRadialFunction
       - 2 * std.pow firstDerivativeRadialFunction 3 / std.pow radialFunctionValue 2
       + 4 * firstDerivativeRadialFunction * secondDerivativeRadialFunction
         / radialFunctionValue
       + F4 * firstDerivativeElevationFunction * radialFunctionValue
       + 2 * firstDerivativeElevationFunction * firstDerivativeRadialFunction
         * (thirdDerivativeElevationFunction
            - firstDerivativeElevationFunction * cos (2 * elevationFunctionValue)) / F3
       + F2 * firstDerivativeElevationFunction * secondDerivativeRadialFunction / F1
       + F2 * firstDerivativeRadialFunction * secondDerivativeElevationFunction / F1
       - 4 * F4 * F2 * std.pow firstDerivativeElevationFunction 2
         * firstDerivativeRadialFunction / std.pow F3 2).

Definition computePositionVectorInSphericalCoordinates (currentAzimuthAngle : R)
  : Action Vector3d :=
  radialDistance <- onRadialFunction evaluateCompositeFunction currentAzimuthAngle ;;
  elevationAngle <- onElevationFunction evaluateCompositeFunction currentAzimuthAngle ;;
  ret [ radialDistance; currentAzimuthAngle; elevationAngle ].

Definition computeFirstDerivativeAzimuthAngleWrtTime (currentAzimuthAngle : R) : Action R :=
  scalarFunctionTimeEquation <- computeScalarFunctionTimeEquation currentAzimuthAngle ;;
  radialDistance <- onRadialFunction evaluateCompositeFunction currentAzimuthAngle ;;
  gravitationalParameter <- member centralBodyGravitationalParameter_ ;;
  ret (std.sqrt (gravitationalParameter
                 / (scalarFunctionTimeEquation * std.pow radialDistance 2))).

Definition computeSecondDerivativeAzimuthAngleWrtTime (currentAzimuthAngle : R) : Action R :=
  firstDerivativeAzimuthAngle <- computeFirstDerivativeAzimuthAngleWrtTime currentAzimuthAngle ;;
  scalarFunctionTimeEquation <- computeScalarFunctionTimeEquation currentAzimuthAngle ;;
  derivativeScalarFunctionTimeEquation <-
    computeDerivativeScalarFunctionTimeEquation currentAzimuthAngle ;;
  radialDistance <- onRadialFunction evaluateCompositeFunction currentAzimuthAngle ;;
  firstDerivativeRadialDistance <-
    onRadialFunction evaluateCompositeFunctionFirstDerivative currentAzimuthAngle ;;
  ret (- std.pow firstDerivativeAzimuthAngle 2
       * (derivativeScalarFunctionTimeEquation / (2 * scalarFunctionTimeEquation)
          + firstDerivativeRadialDistance / radialDistance)).

Definition computeCurrentVelocityParametrizedByAzimuthAngle (currentAzimuthAngle : R)
  : Action Vector3d :=
  radialDistance <- onRadialFunction evaluateCompositeFunction currentAzimuthAngle ;;
  derivativeRadialDistance <-
    onRadialFunction evaluateCompositeFunctionFirstDerivative currentAzimuthAngle ;;
  elevationAngle <- onElevationFunction evaluateCompositeFunction currentAzimuthAngle ;;
  derivativeElevationAngle <-
    onElevationFunction evaluateCompositeFunctionFirstDerivative currentAzimuthAngle ;;
  ret [ derivativeRadialDistance;
        radialDistance * cos elevationAngle;
        radialDistance * derivativeElevationAngle ].

Definition computeVelocityVectorInSphericalCoordinates (currentAzimuthAngle : R)
  : Action Vector3d :=
  derivativeAzimuthAngle <- computeFirstDerivativeAzimuthAngleWrtTime currentAzimuthAngle ;;
  velocity <- computeCurrentVelocityParametrizedByAzimuthAngle currentAzimuthAngle ;;
  ret (scalarTimes derivativeAzimuthAngle velocity).

Definition computeStateVectorInSphericalCoordinates (currentAzimuthAngle : R)
  : Action Vector6d :=
  position <- computePositionVectorInSphericalCoordinates currentAzimuthAngle ;;
  velocity <- computeVelocityVectorInSphericalCoordinates currentAzimuthAngle ;;
  ret (fromSegments position velocity).

Definition computeNormalizedStateVector (currentAzimuthAngle : R) : Action Vector6d :=
  sphericalState <- computeStateVectorInSphericalCoordinates currentAzimuthAngle ;;
  ret (convertSphericalToCartesianState sphericalState).

Definition computeCurrentStateVector (currentAzimuthAngle : R) : Action Vector6d :=
  forPosition <- computeNormalizedStateVector currentAzimuthAngle ;;
  forVelocity <- computeNormalizedStateVector currentAzimuthAngle ;;
  ret (fromSegments
         (scale ASTRONOMICAL_UNIT (segment 0 3 forPosition))
         (divide (scale ASTRONOMICAL_UNIT (segment 3 3 forVelocity)) JULIAN_YEAR)).

Definition computeCurrentAccelerationParametrizedByAzimuthAngle (currentAzimuthAngle : R)
  : Action Vector3d :=
  radialDistance <- onRadialFunction evaluateCompositeFunction currentAzimuthAngle ;;
  firstDerivativeRadialDistance <-
    onRadialFunction evaluateCompositeFunctionFirstDerivative currentAzimuthAngle ;;
  secondDerivativeRadialDistance <-
    onRadialFunction evaluateCompositeFunctionSecondDerivative currentAzimuthAngle ;;
  elevationAngle <- onElevationFunction evaluateCompositeFunction currentAzimuthAngle ;;
  firstDerivativeElevationAngle <-
    onElevationFunction evaluateCompositeFunctionFirstDerivative currentAzimuthAngle ;;
  secondDerivativeElevationAngle <-
    onElevationFunction evaluateCompositeFunctionSecondDerivative currentAzimuthAngle ;;
  ret [ secondDerivativeRadialDistance
        - radialDistance
          * (std.pow firstDerivativeElevationAngle 2 + std.pow (cos elevationAngle) 2);
        2 * firstDerivativeRadialDistance * cos elevationAngle
        - 2 * radialDistance * firstDerivativeElevationAngle * sin elevationAngle;
        2 * firstDerivativeRadialDistance * firstDerivativeElevationAngle
        + radialDistance
          * (secondDerivativeElevationAngle + sin elevationAngle * cos elevationAngle) ].

Definition computeThrustAccelerationInSphericalCoordinates (currentAzimuthAngle : R)
  : Action Vector3d :=
  radialDistance <- onRadialFunction evaluateCompositeFunction currentAzimuthAngle ;;
  firstDerivativeAzimuthAngleWrtTime <-
    computeFirstDerivativeAzimuthAngleWrtTime currentAzimuthAngle ;;
  secondDerivativeAzimuthAngleWrtTime <-
    computeSecondDerivativeAzimuthAngleWrtTime currentAzimuthAngle ;;
  velocityParametrizedByAzimuthAngle <-
    computeCurrentVelocityParametrizedByAzimuthAngle currentAzimuthAngle ;;
  accelerationParametrizedByAzimuthAngle <-
    computeCurrentAccelerationParametrizedByAzimuthAngle currentAzimuthAngle ;;
  gravitationalParameter <- member centralBodyGravitationalParameter_ ;;
  ret (vectorAdd
         (vectorAdd
            (scalarTimes (std.pow firstDerivativeAzimuthAngleWrtTime 2)
               accelerationParametrizedByAzimuthAngle)
            (scalarTimes secondDerivativeAzimuthAngleWrtTime
               velocityParametrizedByAzimuthAngle))
         (scalarTimes (gravitationalParameter / std.pow radialDistance 3)
            [ radialDistance; 0; 0 ])).

(** The lambda [derivativeFunctionDeltaV] of [computeDeltaV]; it captures
    [this] and calls the member functions on the object itself. *)
Definition derivativeFunctionDeltaV (currentAzimuthAngle : R) : Action R :=
  thrustAccelerationVector <-
    computeThrustAccelerationInSphericalCoordinates currentAzimuthAngle ;;
  scalarFunctionTimeEquation <- computeScalarFunctionTimeEquation currentAzimuthAngle ;;
  radialDistance <- onRadialFunction evaluateCompositeFunction currentAzimuthAngle ;;
  gravitationalParameter <- member centralBodyGravitationalParameter_ ;;
  ret (norm thrustAccelerationVector
       * std.sqrt (scalarFunctionTimeEquation * std.pow radialDistance 2
                   / gravitationalParameter)).

(** The quadrature service, with an integrand that is called on the object
    at each node. *)
Fixpoint getQuadrature (integrand : R -> Action R) (nodes : list (R * R)) : Action R :=
  match nodes with
  | [] => ret 0
  | (abscissa, weight) :: rest =>
      value <- integrand abscissa ;;
      sum <- getQuadrature integrand rest ;;
      ret (weight * value + sum)
  end.

Definition computeDeltaV : Action R :=
  settings <- member quadratureSettings_ ;;
  upperBound <- member finalAzimuthAngle_ ;;
  quadrature <-
    getQuadrature derivativeFunctionDeltaV
      (gaussianQuadratureNodes (numberOfNodes settings) (quadratureLowerBound settings)
         upperBound) ;;
  ret (quadrature * ASTRONOMICAL_UNIT / JULIAN_YEAR).

End Method.
End Method.

(** ** A stand-in for the collaborators

    Small enough to run the methods on concrete objects: states on the
    x-axis; a radial function of value 1 whose second derivative is the free
    coefficient minus 1, so that the radicand of the time equation is 2
    minus the free coefficient; a flat elevation function; an inversion
    routine that returns its argument; the midpoint rule; a root finder that
    tries its initial guess once and accepts it; for both loops, an
    objective that resets, satisfies the boundary conditions, computes and
    subtracts. *)

Definition unitRadialFunction : CompositeFunctionClass :=
  {| componentCurrentValue := fun _ _ => 1;
     componentFirstDerivative := fun _ _ => 0;
     componentSecondDerivative := fun _ _ => 0;
     compositeValue := fun _ _ => 1;
     compositeFirstDerivative := fun _ _ => 0;
     compositeSecondDerivative := fun coefficients _ => coeff coefficients 2 - 1;
     compositeThirdDerivative := fun _ _ => 0 |}.

Definition flatElevationFunction : CompositeFunctionClass :=
  {| componentCurrentValue := fun _ _ => 1;
     componentFirstDerivative := fun _ _ => 0;
     componentSecondDerivative := fun _ _ => 0;
     compositeValue := fun _ _ => 0;
     compositeFirstDerivative := fun _ _ => 0;
     compositeSecondDerivative := fun _ _ => 0;
     compositeThirdDerivative := fun _ _ => 0 |}.

Definition standIn : Collaborators :=
  {| ASTRONOMICAL_UNIT := 149597870691;
     JULIAN_YEAR := 31557600;
     convertCartesianToSphericalState := fun cartesianState => assign 1 0 cartesianState;
     convertSphericalToCartesianState := fun sphericalState => sphericalState;
     CompositeRadialFunctionExposinsShaping := unitRadialFunction;
     CompositeElevationFunctionExposinsShaping := flatElevationFunction;
     inverse := fun m => m;
     LinSpaced := fun _ low high => [low; high];
     gaussianQuadratureNodes := fun _ low high => [((low + high) / 2, high - low)];
     createRootFinder :=
       fun _ _ _ _ initialGuess => Trial initialGuess (fun _ => Converged initialGuess);
     TimeOfFlightFunction_evaluate := evaluateWithBoundarySolve;
     TimeOfFlightFunctionExposins_evaluate :=
       fun inputValue =>
         CallResetFreeCoefficient inputValue
           (CallSatisfyBoundaryConditions
              (CallComputeTimeOfFlight (fun timeOfFlight =>
               CallGetRequiredTimeOfFlight (fun required =>
               Result (required - timeOfFlight)))));
     createOneDimensionalInterpolator := fun _ _ => Returns (fun time => time) |}.

(** A departure and an arrival state on the x-axis, in metres and metres per
    second. *)
Definition departureState : Vector6d := [149597870691; 0; 0; 0; 29785; 0].
Definition arrivalState : Vector6d := [224396806036; 0; 0; 0; 24320; 0].

Definition someRootFinderSettings : RootFinderSettings :=
  {| terminationTolerance := 1 / 1000000; maximumNumberOfIterations := 30 |}.

Definition someIntegratorSettings : IntegratorSettings :=
  {| initialTimeStep_ := 86400 |}.

(** The object at the first method call of the constructor, for the two
    states above and [numberOfRevolutions] revolutions. *)
Definition exampleObject (numberOfRevolutions : Z) : ExposinsShaping :=
  @initialise standIn departureState arrivalState 63115200 numberOfRevolutions
    132712440018000000000 0 someRootFinderSettings (-1) 1 someIntegratorSettings.


(** Under the stand-in, an object is feasible at every angle when its free
    coefficient, in the object and in the radial function, is at most 2. *)
Definition standInFeasible (s : ExposinsShaping) : Prop :=
  length (coefficientsRadialDistanceFunction_ s) = 7%nat
  /\ length (coefficientsElevationAngleFunction_ s) = 4%nat
  /\ coeff (compositeFunctionCoefficients_ (radialDistanceCompositeFunction_ s)) 2 <= 2
  /\ initialValueFreeCoefficient_ s <= 2.

(** ** Vocabulary of the properties *)

(** If [m] is run on an object with [P] and returns, the object has [Q]. *)
Definition triple {A : Type}
    (P : ExposinsShaping -> Prop) (m : Action A) (Q : ExposinsShaping -> Prop) : Prop :=
  forall s a s', P s -> m s = Returns (a, s') -> Q s'.

Definition preserves {A : Type} (P : ExposinsShaping -> Prop) (m : Action A) : Prop :=
  triple P m P.

(** If [m] is run on an object with [P], it returns and the object has [Q]. *)
Definition returning {A : Type}
    (P : ExposinsShaping -> Prop) (m : Action A) (Q : ExposinsShaping -> Prop) : Prop :=
  forall s, P s -> exists a s', m s = Returns (a, s') /\ Q s'.

(** The coefficient vectors of the object and of its two composite
    functions have the sizes of the two basis sets. *)
Definition coefficientSizesMatch (s : ExposinsShaping) : Prop :=
  length (coefficientsRadialDistanceFunction_ s) = 7%nat /\
  length (coefficientsElevationAngleFunction_ s) = 4%nat /\
  length (compositeFunctionCoefficients_ (radialDistanceCompositeFunction_ s))
  = numberOfRadialComponents /\
  length (compositeFunctionCoefficients_ (elevationAngleCompositeFunction_ s))
  = numberOfElevationComponents.

(** The object [s] has the azimuth angles and the spherical boundary states
    of [s0]. *)
Definition sameBoundaryAngles (s0 s : ExposinsShaping) : Prop :=
  initialAzimuthAngle_ s = initialAzimuthAngle_ s0 /\
  finalAzimuthAngle_ s = finalAzimuthAngle_ s0 /\
  initialStateSphericalCoordinates_ s = initialStateSphericalCoordinates_ s0 /\
  finalStateSphericalCoordinates_ s = finalStateSphericalCoordinates_ s0.

(** The matrix of the boundary conditions of an object, as
    [computeInverseMatrixBoundaryConditions] assembles it. *)
Definition boundaryMatrixOf {collaborators : Collaborators} (s : ExposinsShaping)
  : MatrixXd :=
  matrixBoundaryConditions (computeInitialAlphaValue s) (computeFinalAlphaValue s) s.


(** Two calls of the same method, one after the other. *)
Definition twice {A : Type} (m : Action A) : Action (A * A) :=
  first <- m ;; second <- m ;; ret (first, second).

(** An action put together from reads of members, returned values and
    calls of such actions: it has no statement that assigns a member. *)
Inductive ReadOnly : forall {A : Type}, Action A -> Prop :=
| ReadOnly_member {A : Type} (get : ExposinsShaping -> A) : ReadOnly (Method.member get)
| ReadOnly_ret {A : Type} (a : A) : ReadOnly (ret a)
| ReadOnly_bind {A B : Type} (m : Action A) (k : A -> Action B) :
    ReadOnly m -> (forall a, ReadOnly (k a)) -> ReadOnly (bind m k).

(** [P] does not depend on the members that the constructor assigns after
    its first method call, nor on the free coefficient. *)
Definition independentOfSetup (P : ExposinsShaping -> Prop) : Prop :=
  (forall x s, P s -> P (set_initialValueFreeCoefficient_ x s)) /\
  (forall x s, P s -> P (set_windingParameter_ x s)) /\
  (forall x s, P s -> P (set_initialCylindricalRadius_ x s)) /\
  (forall x s, P s -> P (set_finalCylindricalRadius_ x s)) /\
  (forall x s, P s -> P (set_lowerBoundGamma_ x s)) /\
  (forall x s, P s -> P (set_upperBoundGamma_ x s)) /\
  (forall x s, P s -> P (set_requiredGamma_ x s)) /\
  (forall x s, P s -> P (set_quadratureSettings_ x s)) /\
  (forall x s, P s -> P (set_interpolator_ x s)).

(** [P] does not depend on the coefficients of the two shape functions. *)
Definition independentOfCoefficients (P : ExposinsShaping -> Prop) : Prop :=
  (forall x s, P s -> P (set_coefficientsRadialDistanceFunction_ x s)) /\
  (forall x s, P s -> P (set_coefficientsElevationAngleFunction_ x s)) /\
  (forall x s, P s -> P (set_radialDistanceCompositeFunction_ x s)) /\
  (forall x s, P s -> P (set_elevationAngleCompositeFunction_ x s)).

(** The azimuth angle that the coordinate conversion returns lies in the
    range of [std::atan2]. *)
Definition azimuthFromAtan2 (collaborators : Collaborators) : Prop :=
  forall cartesianState : Vector6d,
    - PI < coeff (convertCartesianToSphericalState cartesianState) 1 <= PI.

(** What the constructor meets in its collaborators when the leg sweeps no
    angle: the weights of the quadrature rule vanish on an interval of
    length 0, [LinSpaced] returns an empty vector for a size of 0, and the
    interpolator factory throws on an empty table. *)
Definition refusesAnEmptyLeg (collaborators : Collaborators) : Prop :=
  (forall (nodes : nat) (bound abscissa weight : R),
     In (abscissa, weight) (gaussianQuadratureNodes nodes bound bound) -> weight = 0)
  /\ (forall low high : R, LinSpaced 0 low high = [])
  /\ (forall order : nat, exists e, createOneDimensionalInterpolator [] order = Throws e).

(** ** Vocabulary of the further properties *)

(** The nodes of the quadrature rule of an object, from the lower bound of
    its quadrature settings to [upperBound]. *)
Definition quadratureNodes {collaborators : Collaborators}
    (s : ExposinsShaping) (upperBound : R) : list (R * R) :=
  gaussianQuadratureNodes (numberOfNodes (quadratureSettings_ s))
    (quadratureLowerBound (quadratureSettings_ s)) upperBound.

(** The ten dependent coefficients as the two coefficient vectors of an
    object hold them: the six radial ones around the free coefficient, then
    the four of the elevation function. *)
Definition dependentCoefficients (s : ExposinsShaping) : VectorXd :=
  let radial := coefficientsRadialDistanceFunction_ s in
  let elevation := coefficientsElevationAngleFunction_ s in
  [ coeff radial 0; coeff radial 1; coeff radial 3; coeff radial 4; coeff radial 5;
    coeff radial 6;
    coeff elevation 0; coeff elevation 1; coeff elevation 2; coeff elevation 3 ].

(** [f 0 + f 1 + ... + f (n - 1)]. *)
Fixpoint sumUpTo (f : nat -> R) (n : nat) : R :=
  match n with
  | O => 0
  | S m => f O + sumUpTo (fun k => f (S k)) m
  end.

(** The azimuth angles at which the constructor computes the epochs of its
    interpolation table, for a time of flight in Julian years. *)
Definition azimuthAnglesToComputeAssociatedEpochs {collaborators : Collaborators}
    (s : ExposinsShaping) (timeOfFlight initialStepSize : R) : VectorXd :=
  LinSpaced (std.ceil (timeOfFlight * JULIAN_YEAR / initialStepSize))
    (initialAzimuthAngle_ s) (finalAzimuthAngle_ s).

(** ** A second stand-in, in normalized units

    One astronomical unit and one Julian year are 1, the boundary states are
    given in spherical coordinates, and the basis terms are straight lines
    that take the values 1 and 0 at the azimuth angles 0 and 1, so that the
    boundary matrix of an object between these two angles is the identity
    and the inversion routine, which returns its argument, inverts it.  The
    shape itself is a circle of radius 1 whose elevation angle has second
    derivative 1; the root finders accept their initial guess without a
    trial, and the interpolator looks its argument up in the table. *)

Definition hatRadialFunction : CompositeFunctionClass :=
  {| componentCurrentValue := fun index angle =>
       match index with
       | 0%nat => 1 - angle
       | 1%nat => angle
       | _ => 0
       end;
     componentFirstDerivative := fun index angle =>
       match index with
       | 3%nat => 1 - angle
       | 4%nat => angle
       | _ => 0
       end;
     componentSecondDerivative := fun index angle =>
       match index with
       | 5%nat => angle - 1
       | 6%nat => - angle
       | _ => 0
       end;
     compositeValue := fun _ _ => 1;
     compositeFirstDerivative := fun _ _ => 0;
     compositeSecondDerivative := fun _ _ => 0;
     compositeThirdDerivative := fun _ _ => 0 |}.

Definition hatElevationFunction : CompositeFunctionClass :=
  {| componentCurrentValue := fun index angle =>
       match index with
       | 0%nat => 1 - angle
       | 1%nat => angle
       | _ => 0
       end;
     componentFirstDerivative := fun index angle =>
       match index with
       | 2%nat => 1 - angle
       | 3%nat => angle
       | _ => 0
       end;
     componentSecondDerivative := fun _ _ => 0;
     compositeValue := fun _ _ => 0;
     compositeFirstDerivative := fun _ _ => 0;
     compositeSecondDerivative := fun _ _ => 1;
     compositeThirdDerivative := fun _ _ => 0 |}.

(** An interpolator that returns the value of the table at an epoch of the
    table, and 0 elsewhere. *)
Definition tableLookup (data : list (R * R)) : OneDimensionalInterpolator :=
  fun time =>
    match find (fun entry => if Req_dec_T (fst entry) time then true else false) data with
    | Some entry => snd entry
    | None => 0
    end.

Definition hatBasis : Collaborators :=
  {| ASTRONOMICAL_UNIT := 1;
     JULIAN_YEAR := 1;
     convertCartesianToSphericalState := fun state => state;
     convertSphericalToCartesianState := fun state => state;
     CompositeRadialFunctionExposinsShaping := hatRadialFunction;
     CompositeElevationFunctionExposinsShaping := hatElevationFunction;
     inverse := fun m => m;
     LinSpaced := fun _ low high => [low; high];
     gaussianQuadratureNodes := fun _ low high => [((low + high) / 2, high - low)];
     createRootFinder := fun _ _ _ _ initialGuess => Converged initialGuess;
     TimeOfFlightFunction_evaluate := evaluateWithBoundarySolve;
     TimeOfFlightFunctionExposins_evaluate := fun _ => Result 0;
     createOneDimensionalInterpolator := fun data _ => Returns (tableLookup data) |}.

(** Two states on the unit circle, at the azimuth angles 0 and 1, with the
    circular velocity of a gravitational parameter of 4. *)
Definition stateAtAzimuthZero : Vector6d := [1; 0; 0; 0; 2; 0].
Definition stateAtAzimuthOne : Vector6d := [1; 1; 0; 0; 2; 0].

(** The object at the first method call of the constructor, for these two
    states and no revolution. *)
Definition hatObject : ExposinsShaping :=
  @initialise hatBasis stateAtAzimuthZero stateAtAzimuthOne 1 0 4 0
    someRootFinderSettings (-1) 1 someIntegratorSettings.

(** ** A third stand-in, which refuses a leg that sweeps no angle

    The second stand-in with a coordinate conversion that keeps the azimuth
    angle of a state in the range of [std::atan2], a grid that is empty for
    a size of 0 or less, and an interpolator factory that throws on an empty
    table. *)

Definition keepAzimuthInRange (state : Vector6d) : Vector6d :=
  if Rlt_dec (- PI) (coeff state 1)
  then if Rle_dec (coeff state 1) PI then state else assign 1 0 state
  else assign 1 0 state.

Definition strictBasis : Collaborators :=
  {| ASTRONOMICAL_UNIT := 1;
     JULIAN_YEAR := 1;
     convertCartesianToSphericalState := keepAzimuthInRange;
     convertSphericalToCartesianState := fun state => state;
     CompositeRadialFunctionExposinsShaping := hatRadialFunction;
     CompositeElevationFunctionExposinsShaping := hatElevationFunction;
     inverse := fun m => m;
     LinSpaced := fun size low high => if (size <=? 0)%Z then [] else [low; high];
     gaussianQuadratureNodes := fun _ low high => [((low + high) / 2, high - low)];
     createRootFinder := fun _ _ _ _ initialGuess => Converged initialGuess;
     TimeOfFlightFunction_evaluate := evaluateWithBoundarySolve;
     TimeOfFlightFunctionExposins_evaluate := fun _ => Result 0;
     createOneDimensionalInterpolator := fun data _ =>
       match data with
       | [] => Throws (runtime_error "Error, no data to interpolate."%string)
       | _ :: _ => Returns (tableLookup data)
       end |}.

(** A leg that sweeps an angle, around a body that attracts. *)
Definition strictLeg (s : ExposinsShaping) : Prop :=
  initialAzimuthAngle_ s < finalAzimuthAngle_ s
  /\ 0 < centralBodyGravitationalParameter_ s.

(** * Properties *)

(** ** Vectors *)

Lemma length_assign (i : nat) (x : R) (v : VectorXd) :
  length (assign i x v) = length v.
Proof.
  revert i; induction v as [|hd tl IH]; intros [|j]; simpl; auto.
Qed.

Lemma andThen_Returns {A B : Type} (o : Outcome A) (k : A -> Outcome B) (b : B) :
  andThen o k = Returns b -> exists a, o = Returns a /\ k a = Returns b.
Proof.
  destruct o as [a|e]; simpl; intros H; [exists a; auto | discriminate].
Qed.

(** ** A program logic for actions *)

Lemma triple_ret {A : Type} (P : ExposinsShaping -> Prop) (a : A) : preserves P (ret a).
Proof. intros s b s' HP H; inversion H; subst; exact HP. Qed.

Lemma triple_throw {A : Type} (P Q : ExposinsShaping -> Prop) (e : exception) :
  triple P (@throw A e) Q.
Proof. intros s a s' _ H; discriminate H. Qed.

Lemma triple_bind {A B : Type} (P Q T : ExposinsShaping -> Prop)
    (m : Action A) (k : A -> Action B) :
  triple P m Q -> (forall a, triple Q (k a) T) -> triple P (bind m k) T.
Proof.
  intros Hm Hk s b s' HP H. unfold bind in H.
  destruct (m s) as [[a s1]|e] eqn:E; [|discriminate].
  exact (Hk a s1 b s' (Hm s a s1 HP E) H).
Qed.

Lemma triple_query {A : Type} (P : ExposinsShaping -> Prop) (f : ExposinsShaping -> Outcome A) :
  preserves P (query f).
Proof.
  intros s a s' HP H. unfold query in H.
  destruct (f s); inversion H; subst; exact HP.
Qed.

Lemma triple_modify (P Q : ExposinsShaping -> Prop) (f : ExposinsShaping -> ExposinsShaping) :
  (forall s, P s -> Q (f s)) -> triple P (modify f) Q.
Proof. intros Hf s a s' HP H; inversion H; subst; auto. Qed.

Lemma triple_with_object {A : Type} (P Q : ExposinsShaping -> Prop)
    (m : ExposinsShaping -> Action A) :
  (forall s0, triple P (m s0) Q) -> triple P (fun s => m s s) Q.
Proof. intros Hm s a s' HP H; exact (Hm s s a s' HP H). Qed.

(** What every answer of the function keeps, the whole run of the root
    finder keeps. *)
Lemma preserves_execute (P : ExposinsShaping -> Prop)
    (rootFinder : RootFinderCore) (function : R -> Action R) :
  (forall x, preserves P (function x)) -> preserves P (execute rootFinder function).
Proof.
  intros Hf; induction rootFinder as [root|e|x next IH]; simpl.
  - apply triple_ret.
  - apply triple_throw.
  - apply triple_bind with (Q := P); [apply Hf | intros residual; apply IH].
Qed.

Lemma preserves_runObjectiveBody (P : ExposinsShaping -> Prop)
    (f : TimeOfFlightFunction) (body : ObjectiveBody) :
  (forall x, preserves P (resetFreeCoefficientFunction_ f x)) ->
  preserves P (satisfyBoundaryConditionsFunction_ f) ->
  preserves P (computeTimeOfFlightFunction_ f) ->
  preserves P (getRequiredTimeOfFlightfunction_ f) ->
  preserves P (runObjectiveBody f body).
Proof.
  intros Hr Hs Hc Hg.
  induction body as [r|e|x k IH|k IH|k IH|k IH]; simpl.
  - apply triple_ret.
  - apply triple_throw.
  - apply triple_bind with (Q := P); [apply Hr | intros _; exact IH].
  - apply triple_bind with (Q := P); [exact Hs | intros _; exact IH].
  - apply triple_bind with (Q := P); [exact Hc | intros t; apply IH].
  - apply triple_bind with (Q := P); [exact Hg | intros t; apply IH].
Qed.

Section Properties.

Context {collaborators : Collaborators}.

(** ** The boundary-value solve *)

(** On an object whose vectors have the sizes of the basis sets,
    [satisfyBoundaryConditions] returns, and this is the object it leaves. *)
Lemma satisfyBoundaryConditions_returns (s : ExposinsShaping) :
  length (coefficientsRadialDistanceFunction_ s) = 7%nat ->
  length (coefficientsElevationAngleFunction_ s) = 4%nat ->
  let c := compositeFunctionCoefficients s in
  let radial :=
    [coeff c 0; coeff c 1; initialValueFreeCoefficient_ s;
     coeff c 2; coeff c 3; coeff c 4; coeff c 5] in
  let elevation := [coeff c 6; coeff c 7; coeff c 8; coeff c 9] in
  satisfyBoundaryConditions s
  = Returns (tt,
             set_elevationAngleCompositeFunction_ (makeCompositeFunction elevation)
               (set_radialDistanceCompositeFunction_ (makeCompositeFunction radial)
                  (set_coefficientsElevationAngleFunction_ elevation
                     (set_coefficientsRadialDistanceFunction_ radial s)))).
Proof.
  intros Hr He.
  unfold satisfyBoundaryConditions.
  generalize (compositeFunctionCoefficients s); intros c.
  destruct (coefficientsRadialDistanceFunction_ s)
    as [|r0 [|r1 [|r2 [|r3 [|r4 [|r5 [|r6 [|r7 tl]]]]]]]]; try discriminate Hr.
  destruct (coefficientsElevationAngleFunction_ s)
    as [|e0 [|e1 [|e2 [|e3 [|e4 tl]]]]]; try discriminate He.
  reflexivity.
Qed.

Lemma satisfyBoundaryConditions_sizes :
  preserves coefficientSizesMatch satisfyBoundaryConditions.
Proof.
  intros s a s' HP H.
  rewrite (satisfyBoundaryConditions_returns s (proj1 HP) (proj1 (proj2 HP))) in H.
  inversion H; subst; clear H.
  repeat split; reflexivity.
Qed.

Lemma satisfyBoundaryConditions_frame (P : ExposinsShaping -> Prop) :
  independentOfCoefficients P -> preserves P satisfyBoundaryConditions.
Proof.
  intros (Hcr & Hce & Hfr & Hfe) s a s' HP H.
  unfold satisfyBoundaryConditions in H.
  apply andThen_Returns in H; destruct H as (radial & _ & H).
  apply andThen_Returns in H; destruct H as (elevation & _ & H).
  inversion H; subst; clear H.
  apply Hfe, Hfr, Hce, Hcr, HP.
Qed.

(** ** Quadratures *)

Lemma getQuadrature_returns (integrand : R -> Outcome R) (nodes : list (R * R)) :
  (forall abscissa weight,
      In (abscissa, weight) nodes -> exists value, integrand abscissa = Returns value) ->
  exists value, getQuadrature integrand nodes = Returns value.
Proof.
  induction nodes as [|[abscissa weight] rest IH]; intros Hnodes; simpl.
  - eexists; reflexivity.
  - destruct (Hnodes abscissa weight (or_introl eq_refl)) as (value & E).
    destruct IH as (sum & E').
    { intros a w Hin; apply (Hnodes a w); right; exact Hin. }
    rewrite E, E'; simpl. eexists; reflexivity.
Qed.

(** ** The objective of the first loop *)

Lemma evaluate_timeOfFlightFunction
    (trial : R) (s : ExposinsShaping) :
  evaluate timeOfFlightFunction trial s
  = match computeNormalizedTimeOfFlight s with
    | Returns timeOfFlight =>
        Returns (getNormalizedRequiredTimeOfFlight s - timeOfFlight,
                 set_initialValueFreeCoefficient_ trial s)
    | Throws e => Throws e
    end.
Proof.
  unfold evaluate, timeOfFlightFunction, bind, resetValueFreeCoefficient, modify, query, ret;
    cbn [resetFreeCoefficientFunction_ computeTimeOfFlightFunction_
         getRequiredTimeOfFlightfunction_].
  change (computeNormalizedTimeOfFlight (set_initialValueFreeCoefficient_ trial s))
    with (computeNormalizedTimeOfFlight s).
  destruct (computeNormalizedTimeOfFlight s); reflexivity.
Qed.

(** ** The two root-finding loops and the constructor *)

Lemma iterateToMatchRequiredTimeOfFlight_frame (P : ExposinsShaping -> Prop)
    (settings : RootFinderSettings) (lowerBound upperBound initialGuess : R) :
  (forall x s, P s -> P (set_initialValueFreeCoefficient_ x s)) ->
  preserves P satisfyBoundaryConditions ->
  preserves P (iterateToMatchRequiredTimeOfFlight settings lowerBound upperBound initialGuess).
Proof.
  intros Hfree Hsatisfy. unfold iterateToMatchRequiredTimeOfFlight.
  apply triple_bind with (Q := P); [|intros root; apply triple_ret].
  apply preserves_execute; intros x.
  apply preserves_runObjectiveBody; simpl.
  - intros y; apply triple_modify; intros s; apply Hfree.
  - exact Hsatisfy.
  - apply triple_query.
  - apply triple_query.
Qed.

Lemma iterateToMatchRequiredTimeOfFlightExposins_frame (P : ExposinsShaping -> Prop)
    (settings : RootFinderSettings) (lowerBound upperBound initialGuess : R) :
  (forall x s, P s -> P (set_requiredGamma_ x s)) ->
  preserves P satisfyBoundaryConditions ->
  preserves P
    (iterateToMatchRequiredTimeOfFlightExposins settings lowerBound upperBound initialGuess).
Proof.
  intros Hgamma Hsatisfy. unfold iterateToMatchRequiredTimeOfFlightExposins.
  apply triple_bind with (Q := P); [|intros root; apply triple_ret].
  apply preserves_execute; intros x.
  apply preserves_runObjectiveBody; simpl.
  - intros y; apply triple_modify; intros s; apply Hgamma.
  - exact Hsatisfy.
  - apply triple_query.
  - apply triple_query.
Qed.

Lemma createInterpolator_frame (P : ExposinsShaping -> Prop) (initialStepSize : R) :
  (forall x s, P s -> P (set_interpolator_ x s)) ->
  preserves P (createInterpolator initialStepSize).
Proof.
  intros Hinterpolator s a s' HP H.
  unfold createInterpolator in H.
  apply andThen_Returns in H; destruct H as (timeOfFlight & _ & H).
  apply andThen_Returns in H; destruct H as (data & _ & H).
  apply andThen_Returns in H; destruct H as (interpolator & _ & H).
  inversion H; subst; clear H.
  apply Hinterpolator, HP.
Qed.

(** The rest of the constructor establishes whatever holds once the
    travelled azimuth angle is assigned and does not depend on the members
    assigned later. *)
Lemma completeConstruction_triple (P Q : ExposinsShaping -> Prop) (initialStepSize : R) :
  (forall x s, P s -> P (set_initialValueFreeCoefficient_ x s)) ->
  preserves P satisfyBoundaryConditions ->
  (forall s, P s -> Q (set_travelledAzimuthAngle_ (PI / 2 + 2 * PI * 2) s)) ->
  independentOfSetup Q ->
  preserves Q satisfyBoundaryConditions ->
  triple P (completeConstruction initialStepSize) Q.
Proof.
  intros Hfree Hfirst Htravelled (_ & Hw & Hi & Hf & Hl & Hu & Hg & Hq & Hp) Hsatisfy.
  unfold completeConstruction.
  intros s0 a s' HP H.
  refine (triple_bind P P Q _ _ _ _ s0 a s' HP H); clear HP H a s'.
  { apply iterateToMatchRequiredTimeOfFlight_frame; assumption. }
  intros _.
  apply triple_bind with (Q := Q); [apply triple_modify, Htravelled | intros _].
  repeat (apply triple_bind with (Q := Q);
          [apply triple_modify; intros s; auto | intros _]).
  apply triple_bind with (Q := Q); [|intros _].
  { apply (triple_with_object Q Q
             (fun s => iterateToMatchRequiredTimeOfFlightExposins (rootFinderSettings_ s)
                         (lowerBoundGamma_ s) (upperBoundGamma_ s) (requiredGamma_ s))).
    intros s; apply iterateToMatchRequiredTimeOfFlightExposins_frame; assumption. }
  repeat (apply triple_bind with (Q := Q);
          [apply triple_modify; intros s; auto | intros _]).
  apply createInterpolator_frame, Hp.
Qed.

End Properties.

(** ** The stand-in collaborators at work *)

Lemma standIn_time_equation (s : ExposinsShaping) (currentAzimuthAngle : R) :
  @computeScalarFunctionTimeEquation standIn s currentAzimuthAngle
  = 2 - coeff (compositeFunctionCoefficients_ (radialDistanceCompositeFunction_ s)) 2.
Proof.
  unfold computeScalarFunctionTimeEquation, evaluateCompositeFunction,
    evaluateCompositeFunctionFirstDerivative, evaluateCompositeFunctionSecondDerivative,
    radialFunction, elevationFunction, std.pow; simpl.
  rewrite cos_0, sin_0. field.
Qed.

Lemma returning_ret {A : Type} (P : ExposinsShaping -> Prop) (a : A) :
  returning P (ret a) P.
Proof. intros s HP; exists a, s; split; [reflexivity | exact HP]. Qed.

Lemma returning_bind {A B : Type} (P Q T : ExposinsShaping -> Prop)
    (m : Action A) (k : A -> Action B) :
  returning P m Q -> (forall a, returning Q (k a) T) -> returning P (bind m k) T.
Proof.
  intros Hm Hk s HP.
  destruct (Hm s HP) as (a & s1 & E & HQ).
  destruct (Hk a s1 HQ) as (b & s2 & E' & HT).
  exists b, s2; split; [|exact HT].
  unfold bind; rewrite E; exact E'.
Qed.

Lemma returning_modify (P Q : ExposinsShaping -> Prop)
    (f : ExposinsShaping -> ExposinsShaping) :
  (forall s, P s -> Q (f s)) -> returning P (modify f) Q.
Proof. intros Hf s HP; exists tt, (f s); split; [reflexivity | auto]. Qed.

Lemma returning_query {A : Type} (P : ExposinsShaping -> Prop)
    (f : ExposinsShaping -> Outcome A) :
  (forall s, P s -> exists a, f s = Returns a) -> returning P (query f) P.
Proof.
  intros Hf s HP. destruct (Hf s HP) as (a & E).
  exists a, s; split; [unfold query; rewrite E; reflexivity | exact HP].
Qed.

Lemma standIn_time_quadrature_returns (s : ExposinsShaping) (upperBound : R) :
  standInFeasible s ->
  exists time, @integrate standIn s (@derivativeTimeFunction standIn s) upperBound = Returns time.
Proof.
  intros (_ & _ & Hfree & _). unfold integrate.
  apply getQuadrature_returns; intros abscissa weight _.
  unfold derivativeTimeFunction. rewrite standIn_time_equation.
  match goal with
  | |- context [Rlt_dec ?x 0] => destruct (Rlt_dec x 0) as [Hneg|_]
  end; [lra | eexists; reflexivity].
Qed.

Lemma standIn_associated_epochs_return (s : ExposinsShaping) (azimuthAngles : list R)
    (dataToInterpolate : list (R * R)) :
  standInFeasible s ->
  exists data, @computeAssociatedEpochs standIn s azimuthAngles dataToInterpolate = Returns data.
Proof.
  intros H; revert dataToInterpolate.
  induction azimuthAngles as [|angle rest IH]; intros dataToInterpolate; simpl.
  - eexists; reflexivity.
  - unfold computeCurrentTimeFromAzimuthAngle.
    destruct (standIn_time_quadrature_returns s angle H) as (time & E).
    rewrite E; simpl. apply IH.
Qed.

Lemma standIn_createInterpolator_returns (initialStepSize : R) :
  returning standInFeasible (@createInterpolator standIn initialStepSize) (fun _ => True).
Proof.
  intros s H. unfold createInterpolator, computeNormalizedTimeOfFlight.
  destruct (standIn_time_quadrature_returns s (finalAzimuthAngle_ s) H) as (time & E).
  rewrite E; cbn [andThen].
  match goal with
  | |- context [@computeAssociatedEpochs standIn s ?angles ?data] =>
      destruct (standIn_associated_epochs_return s angles data H) as (table & E')
  end.
  rewrite E'; cbn [andThen createOneDimensionalInterpolator standIn].
  do 2 eexists; split; [reflexivity | exact I].
Qed.

(** The first loop: one evaluation, at a feasible guess, of an objective
    that satisfies the boundary conditions. *)
Lemma standIn_first_loop_returns (settings : RootFinderSettings)
    (lowerBound upperBound initialGuess : R) :
  initialGuess <= 2 ->
  returning standInFeasible
    (@iterateToMatchRequiredTimeOfFlight standIn settings lowerBound upperBound initialGuess)
    standInFeasible.
Proof.
  intros Hguess.
  unfold iterateToMatchRequiredTimeOfFlight, objectiveOfTheFirstLoop.
  cbn [createRootFinder standIn execute TimeOfFlightFunction_evaluate
       evaluateWithBoundarySolve runObjectiveBody timeOfFlightFunction
       resetFreeCoefficientFunction_ satisfyBoundaryConditionsFunction_
       computeTimeOfFlightFunction_ getRequiredTimeOfFlightfunction_].
  apply returning_bind with (Q := standInFeasible); [|intros _; apply returning_ret].
  apply returning_bind with (Q := standInFeasible); [|intros _; apply returning_ret].
  apply returning_bind
    with (Q := fun s => standInFeasible s /\ initialValueFreeCoefficient_ s = initialGuess).
  { apply returning_modify; intros s (Hr & He & Hfree & _).
    split; [repeat split; assumption | reflexivity]. }
  intros _.
  apply returning_bind with (Q := standInFeasible); [|intros _].
  { intros s ((Hr & He & _ & Hobject) & _).
    do 2 eexists; split.
    - apply satisfyBoundaryConditions_returns; assumption.
    - split; [reflexivity | split; [reflexivity | split; exact Hobject]]. }
  apply returning_bind with (Q := standInFeasible); [|intros timeOfFlight].
  { apply returning_query; intros s H.
    exact (standIn_time_quadrature_returns s (finalAzimuthAngle_ s) H). }
  apply returning_bind with (Q := standInFeasible); [|intros required; apply returning_ret].
  apply returning_query; intros s _; eexists; reflexivity.
Qed.

(** The second loop: one evaluation of an objective that satisfies the
    boundary conditions. *)
Lemma standIn_second_loop_returns (settings : RootFinderSettings)
    (lowerBound upperBound initialGuess : R) :
  returning standInFeasible
    (@iterateToMatchRequiredTimeOfFlightExposins standIn settings lowerBound upperBound
       initialGuess)
    standInFeasible.
Proof.
  unfold iterateToMatchRequiredTimeOfFlightExposins.
  cbn [createRootFinder standIn execute TimeOfFlightFunctionExposins_evaluate
       runObjectiveBody timeOfFlightFunctionExposins resetFreeCoefficientFunction_
       satisfyBoundaryConditionsFunction_ computeTimeOfFlightFunction_
       getRequiredTimeOfFlightfunction_].
  apply returning_bind with (Q := standInFeasible); [|intros _; apply returning_ret].
  apply returning_bind with (Q := standInFeasible); [|intros _; apply returning_ret].
  apply returning_bind with (Q := standInFeasible);
    [apply returning_modify; intros s H; exact H | intros _].
  apply returning_bind with (Q := standInFeasible); [|intros _].
  { intros s (Hr & He & Hfree & Hobject).
    do 2 eexists; split.
    - apply satisfyBoundaryConditions_returns; assumption.
    - split; [reflexivity | split; [reflexivity | split; exact Hobject]]. }
  apply returning_bind with (Q := standInFeasible); [|intros timeOfFlight].
  { apply returning_query; intros s _.
    unfold computeNormalizedTimeOfFlightExposins, integrate.
    apply getQuadrature_returns; intros; eexists; reflexivity. }
  apply returning_bind with (Q := standInFeasible); [|intros required; apply returning_ret].
  apply returning_query; intros s _; eexists; reflexivity.
Qed.

Lemma standIn_completeConstruction_returns (initialStepSize : R) :
  returning standInFeasible (@completeConstruction standIn initialStepSize) (fun _ => True).
Proof.
  unfold completeConstruction.
  intros s0 HP.
  refine (returning_bind standInFeasible standInFeasible (fun _ => True) _ _ _ _ s0 HP).
  { apply standIn_first_loop_returns. destruct HP as (_ & _ & _ & H); exact H. }
  clear HP. intros _.
  repeat (apply returning_bind with (Q := standInFeasible);
          [apply returning_modify; intros s H; exact H | intros _]).
  apply returning_bind with (Q := standInFeasible); [|intros _].
  { intros s; apply standIn_second_loop_returns. }
  repeat (apply returning_bind with (Q := standInFeasible);
          [apply returning_modify; intros s H; exact H | intros _]).
  apply standIn_createInterpolator_returns.
Qed.

Lemma exampleObject_feasible (numberOfRevolutions : Z) :
  standInFeasible (exampleObject numberOfRevolutions).
Proof. repeat split; unfold coeff; simpl; lra. Qed.

Lemma standIn_construct_returns (numberOfRevolutions : Z) :
  exists s,
    @construct standIn departureState arrivalState 63115200 numberOfRevolutions
      132712440018000000000 0 someRootFinderSettings (-1) 1 someIntegratorSettings
    = Returns s.
Proof.
  unfold construct.
  destruct (standIn_completeConstruction_returns (initialTimeStep_ someIntegratorSettings)
              (exampleObject numberOfRevolutions)
              (exampleObject_feasible numberOfRevolutions))
    as ([] & s & E & _).
  exists s. unfold exampleObject in E. rewrite E. reflexivity.
Qed.

(** ** Azimuth angles *)

Lemma coeff_assign_azimuth (x : R) (v : VectorXd) :
  coeff v 1 < 0 -> coeff (assign 1 x v) 1 = x.
Proof.
  destruct v as [|a [|b tl]]; unfold coeff; simpl; intros H; try lra; reflexivity.
Qed.

Lemma wrapAzimuthAngle_range (sphericalState : Vector6d) :
  - PI < coeff sphericalState 1 <= PI ->
  0 <= coeff (wrapAzimuthAngle sphericalState) 1 < 2 * PI.
Proof.
  intros [Hlow Hhigh]. pose proof PI_RGT_0 as Hpi.
  unfold wrapAzimuthAngle.
  destruct (Rlt_dec (coeff sphericalState 1) 0) as [Hneg|Hpos].
  - rewrite coeff_assign_azimuth by exact Hneg. lra.
  - lra.
Qed.

Lemma wrapAzimuthAngle_not_negative (sphericalState : Vector6d) :
  0 <= coeff sphericalState 1 -> wrapAzimuthAngle sphericalState = sphericalState.
Proof.
  intros H. unfold wrapAzimuthAngle.
  destruct (Rlt_dec (coeff sphericalState 1) 0) as [Hneg|_]; [lra | reflexivity].
Qed.

Lemma computeFinalAzimuthAngle_next_revolution
    (initialSpherical finalSpherical : Vector6d) (numberOfRevolutions : Z) :
  computeFinalAzimuthAngle initialSpherical finalSpherical (numberOfRevolutions + 1)
  = computeFinalAzimuthAngle initialSpherical finalSpherical numberOfRevolutions + 2 * PI.
Proof.
  unfold computeFinalAzimuthAngle.
  destruct (Rlt_dec (coeff finalSpherical 1 - coeff initialSpherical 1) 0);
    rewrite plus_IZR; simpl; lra.
Qed.

Lemma computeFinalAzimuthAngle_not_below
    (initialSpherical finalSpherical : Vector6d) (numberOfRevolutions : Z) :
  0 <= coeff initialSpherical 1 < 2 * PI ->
  0 <= coeff finalSpherical 1 < 2 * PI ->
  (0 <= numberOfRevolutions)%Z ->
  coeff initialSpherical 1
  <= computeFinalAzimuthAngle initialSpherical finalSpherical numberOfRevolutions
  /\ ((0 < numberOfRevolutions)%Z \/ coeff finalSpherical 1 <> coeff initialSpherical 1 ->
      coeff initialSpherical 1
      < computeFinalAzimuthAngle initialSpherical finalSpherical numberOfRevolutions).
Proof.
  intros Hi Hf Hn. pose proof PI_RGT_0 as Hpi.
  assert (Hrev : 0 <= IZR numberOfRevolutions) by (apply IZR_le; exact Hn).
  assert (Hturns : 0 <= 2 * PI * IZR numberOfRevolutions) by nra.
  unfold computeFinalAzimuthAngle.
  destruct (Rlt_dec (coeff finalSpherical 1 - coeff initialSpherical 1) 0) as [Hneg|Hpos].
  - split; [|intros _]; nra.
  - split; [lra|].
    intros [Hone|Hdiff].
    + assert (1 <= IZR numberOfRevolutions) by (apply IZR_le; lia). nra.
    + lra.
Qed.

(** Splits a conjunction of frame conditions and closes each of them by
    conversion. *)
Ltac frame :=
  repeat match goal with |- _ /\ _ => split end;
  let H := fresh in intros ? ? H; exact H.

Section Construction.

Context {collaborators : Collaborators}.

Variables (initialState finalState : Vector6d) (requiredTimeOfFlight : R).
Variables (centralBodyGravitationalParameter initialValueFreeCoefficient : R).
Variables (rootFinderSettings : RootFinderSettings).
Variables (lowerBoundFreeCoefficient upperBoundFreeCoefficient : R).
Variables (integratorSettings : IntegratorSettings).

Local Abbreviation firstCall numberOfRevolutions :=
  (initialise initialState finalState requiredTimeOfFlight numberOfRevolutions
     centralBodyGravitationalParameter initialValueFreeCoefficient rootFinderSettings
     lowerBoundFreeCoefficient upperBoundFreeCoefficient integratorSettings).

Local Abbreviation constructed numberOfRevolutions :=
  (construct initialState finalState requiredTimeOfFlight numberOfRevolutions
     centralBodyGravitationalParameter initialValueFreeCoefficient rootFinderSettings
     lowerBoundFreeCoefficient upperBoundFreeCoefficient integratorSettings).

(** What holds at the first method call of the constructor and depends on
    none of the members assigned later holds for the constructed object. *)
Lemma construct_establishes (P : ExposinsShaping -> Prop) (numberOfRevolutions : Z)
    (s : ExposinsShaping) :
  P (firstCall numberOfRevolutions) ->
  (forall x s, P s -> P (set_travelledAzimuthAngle_ x s)) ->
  independentOfSetup P ->
  preserves P satisfyBoundaryConditions ->
  constructed numberOfRevolutions = Returns s ->
  P s.
Proof.
  intros Hfirst Htravelled Hsetup Hsatisfy H.
  unfold construct in H.
  apply andThen_Returns in H; destruct H as ([[] s'] & H & E).
  inversion E; subst; clear E.
  refine (completeConstruction_triple P P _ _ Hsatisfy _ Hsetup Hsatisfy _ tt _ Hfirst H).
  - destruct Hsetup as (Hfree & _); exact Hfree.
  - intros s0; apply Htravelled.
Qed.

Lemma construct_keeps_boundary_angles (numberOfRevolutions : Z) (s : ExposinsShaping) :
  constructed numberOfRevolutions = Returns s ->
  sameBoundaryAngles (firstCall numberOfRevolutions) s.
Proof.
  apply construct_establishes with (P := sameBoundaryAngles (firstCall numberOfRevolutions)).
  - repeat split.
  - frame.
  - unfold independentOfSetup; frame.
  - apply satisfyBoundaryConditions_frame; unfold independentOfCoefficients; frame.
Qed.

Lemma construct_travelled_azimuth_angle (numberOfRevolutions : Z) (s : ExposinsShaping) :
  constructed numberOfRevolutions = Returns s ->
  travelledAzimuthAngle_ s = PI / 2 + 2 * PI * 2.
Proof.
  intros H. unfold construct in H.
  apply andThen_Returns in H; destruct H as ([[] s'] & H & E).
  inversion E; subst; clear E.
  refine (completeConstruction_triple (fun _ => True)
            (fun s => travelledAzimuthAngle_ s = PI / 2 + 2 * PI * 2)
            _ _ _ _ _ _ _ tt _ I H).
  - auto.
  - intros s1 a1 s1' _ _; exact I.
  - reflexivity.
  - unfold independentOfSetup; frame.
  - apply satisfyBoundaryConditions_frame; unfold independentOfCoefficients; frame.
Qed.

Lemma initialise_sizes (numberOfRevolutions : Z) :
  coefficientSizesMatch (firstCall numberOfRevolutions).
Proof. repeat split. Qed.

Lemma construct_sizes (numberOfRevolutions : Z) (s : ExposinsShaping) :
  constructed numberOfRevolutions = Returns s -> coefficientSizesMatch s.
Proof.
  apply construct_establishes with (P := coefficientSizesMatch).
  - apply initialise_sizes.
  - frame.
  - unfold independentOfSetup; frame.
  - apply satisfyBoundaryConditions_sizes.
Qed.

End Construction.

Lemma triple_anything {A : Type} (P : ExposinsShaping -> Prop) (m : Action A) :
  triple P m (fun _ => True).
Proof. intros s a s' _ _; exact I. Qed.

(** What the last two assignments of the constructor establish, and the
    construction of the interpolator keeps, holds when the constructor is
    done. *)
Lemma completeConstruction_last_steps {collaborators : Collaborators}
    (Q1 Q2 Q : ExposinsShaping -> Prop) (initialStepSize : R) :
  (forall s, Q1 (set_requiredGamma_ (- 25 * PI / 180) s)) ->
  (forall s, Q1 s ->
     Q2 (set_quadratureSettings_
           {| quadratureLowerBound := initialAzimuthAngle_ s; numberOfNodes := 16 |} s)) ->
  triple Q2 (createInterpolator initialStepSize) Q ->
  triple (fun _ => True) (completeConstruction initialStepSize) Q.
Proof.
  intros Hgamma Hquadrature Hinterpolator.
  unfold completeConstruction.
  intros s0 a s' HP H.
  refine (triple_bind (fun _ => True) (fun _ => True) Q _ _ _ _ s0 a s' HP H);
    clear HP H a s'; [apply triple_anything | intros _].
  do 11 (apply triple_bind with (Q := fun _ : ExposinsShaping => True);
         [apply triple_anything | intros _]).
  apply triple_bind with (Q := Q1); [apply triple_modify; intros s _; apply Hgamma | intros _].
  apply triple_bind with (Q := Q2); [apply triple_modify; exact Hquadrature | intros _].
  exact Hinterpolator.
Qed.

Lemma construct_last_steps {collaborators : Collaborators}
    (Q1 Q2 Q : ExposinsShaping -> Prop)
    (initialState finalState : Vector6d) (requiredTimeOfFlight : R)
    (numberOfRevolutions : Z)
    (centralBodyGravitationalParameter initialValueFreeCoefficient : R)
    (rootFinderSettings : RootFinderSettings)
    (lowerBoundFreeCoefficient upperBoundFreeCoefficient : R)
    (integratorSettings : IntegratorSettings) (s : ExposinsShaping) :
  (forall s, Q1 (set_requiredGamma_ (- 25 * PI / 180) s)) ->
  (forall s, Q1 s ->
     Q2 (set_quadratureSettings_
           {| quadratureLowerBound := initialAzimuthAngle_ s; numberOfNodes := 16 |} s)) ->
  triple Q2 (createInterpolator (initialTimeStep_ integratorSettings)) Q ->
  construct initialState finalState requiredTimeOfFlight numberOfRevolutions
    centralBodyGravitationalParameter initialValueFreeCoefficient rootFinderSettings
    lowerBoundFreeCoefficient upperBoundFreeCoefficient integratorSettings
  = Returns s ->
  Q s.
Proof.
  intros Hgamma Hquadrature Hinterpolator H.
  unfold construct in H.
  apply andThen_Returns in H; destruct H as ([[] s'] & H & E).
  inversion E; subst; clear E.
  exact (completeConstruction_last_steps Q1 Q2 Q _ Hgamma Hquadrature Hinterpolator
           _ tt _ I H).
Qed.

Lemma computeAssociatedEpochs_same_times {collaborators : Collaborators}
    (s s' : ExposinsShaping) (azimuthAngles : list R) (data : list (R * R)) :
  (forall angle,
     computeCurrentTimeFromAzimuthAngle s' angle = computeCurrentTimeFromAzimuthAngle s angle) ->
  computeAssociatedEpochs s' azimuthAngles data = computeAssociatedEpochs s azimuthAngles data.
Proof.
  intros Htimes. revert data.
  induction azimuthAngles as [|angle rest IH]; intros data; simpl; [reflexivity|].
  rewrite Htimes.
  destruct (computeCurrentTimeFromAzimuthAngle s angle) as [time|e]; simpl;
    [apply IH | reflexivity].
Qed.

(** The constructed object went through the last statements of the
    constructor: its quadrature settings are back at the initial azimuth
    angle, its time of flight was computed, and its interpolator was created
    from the table of the grid. *)
Lemma construct_interpolator {collaborators : Collaborators}
    (initialState finalState : Vector6d) (requiredTimeOfFlight : R)
    (numberOfRevolutions : Z)
    (centralBodyGravitationalParameter initialValueFreeCoefficient : R)
    (rootFinderSettings : RootFinderSettings)
    (lowerBoundFreeCoefficient upperBoundFreeCoefficient : R)
    (integratorSettings : IntegratorSettings) (s : ExposinsShaping) :
  construct initialState finalState requiredTimeOfFlight numberOfRevolutions
    centralBodyGravitationalParameter initialValueFreeCoefficient rootFinderSettings
    lowerBoundFreeCoefficient upperBoundFreeCoefficient integratorSettings
  = Returns s ->
  quadratureSettings_ s
  = {| quadratureLowerBound := initialAzimuthAngle_ s; numberOfNodes := 16 |}
  /\ exists (timeOfFlight : R) (table : list (R * R))
       (interpolator : OneDimensionalInterpolator),
       computeNormalizedTimeOfFlight s = Returns timeOfFlight
       /\ computeAssociatedEpochs s
            (LinSpaced
               (std.ceil (timeOfFlight * JULIAN_YEAR / initialTimeStep_ integratorSettings))
               (initialAzimuthAngle_ s) (finalAzimuthAngle_ s)) []
          = Returns table
       /\ createOneDimensionalInterpolator table 10 = Returns interpolator.
Proof.
  intros E. pattern s.
  refine (construct_last_steps (fun _ => True)
            (fun s' => quadratureSettings_ s'
                       = {| quadratureLowerBound := initialAzimuthAngle_ s';
                            numberOfNodes := 16 |})
            _ _ _ _ _ _ _ _ _ _ _ _ _ _ _ E).
  - intros; exact I.
  - intros; reflexivity.
  - clear E s. intros s [] s' Hquadrature H.
    unfold createInterpolator in H.
    apply andThen_Returns in H; destruct H as (timeOfFlight & Etime & H).
    apply andThen_Returns in H; destruct H as (table & Etable & H).
    apply andThen_Returns in H; destruct H as (interpolator & Einterpolator & H).
    inversion H; subst s'; clear H.
    split; [exact Hquadrature|].
    exists timeOfFlight, table, interpolator.
    split; [exact Etime | split; [|exact Einterpolator]].
    rewrite <- Etable. apply computeAssociatedEpochs_same_times. reflexivity.
Qed.

Lemma standIn_azimuthFromAtan2 : azimuthFromAtan2 standIn.
Proof.
  intros v; cbn [convertCartesianToSphericalState standIn].
  pose proof PI_RGT_0 as Hpi.
  assert (E : coeff (assign 1 0 v) 1 = 0)
    by (destruct v as [|a [|b tl]]; reflexivity).
  rewrite E; lra.
Qed.

Lemma exampleObject_azimuth_angles (numberOfRevolutions : Z) :
  initialAzimuthAngle_ (exampleObject numberOfRevolutions) = 0
  /\ finalAzimuthAngle_ (exampleObject numberOfRevolutions)
     = 2 * PI * IZR numberOfRevolutions.
Proof.
  assert (Hwrap : forall v : Vector6d, coeff v 1 = 0 -> wrapAzimuthAngle v = v).
  { intros v E; unfold wrapAzimuthAngle; rewrite E.
    destruct (Rlt_dec 0 0) as [H|_]; [lra | reflexivity]. }
  unfold exampleObject, initialise; simpl.
  rewrite !Hwrap by reflexivity.
  unfold computeFinalAzimuthAngle.
  unfold coeff; simpl.
  destruct (Rlt_dec (0 - 0) 0) as [H|_]; split; lra.
Qed.

(** ** A leg that sweeps no angle *)

(** A quadrature whose weights all vanish returns 0. *)
Lemma getQuadrature_on_an_empty_interval (integrand : R -> Outcome R)
    (nodes : list (R * R)) (result : R) :
  (forall abscissa weight, In (abscissa, weight) nodes -> weight = 0) ->
  getQuadrature integrand nodes = Returns result ->
  result = 0.
Proof.
  intros Hweights. revert result.
  induction nodes as [|[abscissa weight] rest IH]; simpl; intros result H.
  - inversion H; reflexivity.
  - apply andThen_Returns in H; destruct H as (value & _ & H).
    apply andThen_Returns in H; destruct H as (sum & Esum & H).
    inversion H; subst result; clear H.
    rewrite (Hweights abscissa weight (or_introl eq_refl)).
    rewrite (IH (fun a w Hin => Hweights a w (or_intror Hin)) sum Esum).
    ring.
Qed.

Lemma ceil_0 : std.ceil 0 = 0%Z.
Proof.
  unfold std.ceil. rewrite Ropp_0.
  rewrite <- (up_tech 0 0); [reflexivity | simpl; lra | simpl; lra].
Qed.

Lemma ceil_positive (x : R) : 0 < x -> (0 < std.ceil x)%Z.
Proof.
  intros Hx. unfold std.ceil.
  destruct (archimed (- x)) as (_ & Hup).
  assert (H : (up (- x) < 1)%Z) by (apply lt_IZR; lra).
  lia.
Qed.

(** ** The third stand-in at work *)

Lemma keepAzimuthInRange_range (state : Vector6d) :
  - PI < coeff (keepAzimuthInRange state) 1 <= PI.
Proof.
  pose proof PI_RGT_0 as Hpi.
  assert (E : coeff (assign 1 0 state) 1 = 0)
    by (destruct state as [|a [|b tl]]; reflexivity).
  unfold keepAzimuthInRange.
  destruct (Rlt_dec (- PI) (coeff state 1)) as [Hlow|_];
    [destruct (Rle_dec (coeff state 1) PI) as [Hhigh|_]|];
    [split; assumption | rewrite E; lra | rewrite E; lra].
Qed.

Lemma keepAzimuthInRange_keeps (state : Vector6d) :
  - PI < coeff state 1 <= PI -> keepAzimuthInRange state = state.
Proof.
  intros (Hlow & Hhigh). unfold keepAzimuthInRange.
  destruct (Rlt_dec (- PI) (coeff state 1)) as [_|Hnot]; [|contradiction].
  destruct (Rle_dec (coeff state 1) PI) as [_|Hnot]; [reflexivity | contradiction].
Qed.

Lemma strictBasis_azimuthFromAtan2 : azimuthFromAtan2 strictBasis.
Proof. intros state. apply keepAzimuthInRange_range. Qed.

Lemma strictBasis_refusesAnEmptyLeg : refusesAnEmptyLeg strictBasis.
Proof.
  split; [|split].
  - intros nodes bound abscissa weight [Hin|[]].
    apply (f_equal snd) in Hin; cbn [snd] in Hin. lra.
  - intros low high. reflexivity.
  - intros order. eexists. reflexivity.
Qed.

Lemma strictBasis_time_equation (s : ExposinsShaping) (currentAzimuthAngle : R) :
  @computeScalarFunctionTimeEquation strictBasis s currentAzimuthAngle = 1.
Proof.
  unfold computeScalarFunctionTimeEquation, evaluateCompositeFunction,
    evaluateCompositeFunctionFirstDerivative, evaluateCompositeFunctionSecondDerivative,
    radialFunction, elevationFunction, std.pow; simpl.
  rewrite cos_0, sin_0. field.
Qed.

(** Under the third stand-in, the elapsed time is the swept angle times a
    positive rate. *)
Lemma strictBasis_elapsed_time (s : ExposinsShaping) (upperBound : R) :
  0 < centralBodyGravitationalParameter_ s ->
  exists rate,
    0 < rate
    /\ @computeCurrentTimeFromAzimuthAngle strictBasis s upperBound
       = Returns ((upperBound - quadratureLowerBound (quadratureSettings_ s)) * rate + 0).
Proof.
  intros Hmu.
  unfold computeCurrentTimeFromAzimuthAngle, integrate, derivativeTimeFunction.
  cbn [gaussianQuadratureNodes strictBasis getQuadrature].
  rewrite strictBasis_time_equation.
  destruct (Rlt_dec 1 0) as [Hneg|_]; [lra|].
  cbn [andThen].
  eexists; split; [|reflexivity].
  apply sqrt_lt_R0.
  unfold evaluateCompositeFunction, radialFunction, std.pow; simpl.
  apply Rdiv_lt_0_compat; lra.
Qed.

Lemma mapAssign_not_empty (key value : R) (data : list (R * R)) :
  mapAssign key value data <> [].
Proof.
  destruct data as [|[k v] rest]; simpl; [discriminate|].
  destruct (Rlt_dec key k); [discriminate|].
  destruct (Rlt_dec k key); discriminate.
Qed.

Lemma strictBasis_createInterpolator_returns (initialStepSize : R) (s : ExposinsShaping) :
  0 < initialStepSize ->
  strictLeg s ->
  quadratureLowerBound (quadratureSettings_ s) = initialAzimuthAngle_ s ->
  exists s', @createInterpolator strictBasis initialStepSize s = Returns (tt, s').
Proof.
  intros Hstep (Hleg & Hmu) Hlower.
  unfold createInterpolator.
  destruct (strictBasis_elapsed_time s (finalAzimuthAngle_ s) Hmu) as (rate & Hrate & Etime).
  change (@computeNormalizedTimeOfFlight strictBasis s)
    with (@computeCurrentTimeFromAzimuthAngle strictBasis s (finalAzimuthAngle_ s)).
  rewrite Etime, Hlower. cbn [andThen].
  cbn [LinSpaced strictBasis].
  match goal with
  | |- context [(std.ceil ?x <=? 0)%Z] =>
      assert (Hsize : (std.ceil x <=? 0)%Z = false)
  end.
  { apply Z.leb_gt, ceil_positive.
    cbn [JULIAN_YEAR strictBasis].
    apply Rdiv_lt_0_compat; [nra | exact Hstep]. }
  rewrite Hsize.
  cbn [computeAssociatedEpochs].
  destruct (strictBasis_elapsed_time s (initialAzimuthAngle_ s) Hmu) as (r1 & _ & E1).
  destruct (strictBasis_elapsed_time s (finalAzimuthAngle_ s) Hmu) as (r2 & _ & E2).
  rewrite E1; cbn [andThen]. rewrite E2; cbn [andThen].
  cbn [createOneDimensionalInterpolator strictBasis].
  match goal with
  | |- context [match ?table with [] => _ | _ :: _ => _ end] =>
      destruct table as [|entry rest] eqn:Etable
  end.
  - exfalso. exact (mapAssign_not_empty _ _ _ Etable).
  - cbn [andThen]. eexists; reflexivity.
Qed.

Lemma strictBasis_completeConstruction_returns (initialStepSize : R) (s : ExposinsShaping) :
  0 < initialStepSize ->
  strictLeg s ->
  exists s', @completeConstruction strictBasis initialStepSize s = Returns (tt, s').
Proof.
  intros Hstep Hleg.
  assert (Hall : returning strictLeg (@completeConstruction strictBasis initialStepSize)
                   (fun _ => True)).
  { unfold completeConstruction.
    intros s0 HP.
    refine (returning_bind strictLeg strictLeg (fun _ => True) _ _ _ _ s0 HP).
    { intros s1 H1. do 2 eexists; split; [reflexivity | exact H1]. }
    clear HP. intros _.
    do 12 (apply returning_bind with (Q := strictLeg);
           [intros s1 H1; do 2 eexists; split; [reflexivity | exact H1] | intros _]).
    apply returning_bind
      with (Q := fun s1 => strictLeg s1
                           /\ quadratureLowerBound (quadratureSettings_ s1)
                              = initialAzimuthAngle_ s1).
    { intros s1 H1. do 2 eexists; split; [reflexivity | split; [exact H1 | reflexivity]]. }
    intros _ s1 (H1 & Hlower).
    destruct (strictBasis_createInterpolator_returns initialStepSize s1 Hstep H1 Hlower)
      as (s' & E).
    exists tt, s'; split; [exact E | exact I]. }
  destruct (Hall s Hleg) as ([] & s' & E & _).
  exists s'; exact E.
Qed.

Lemma strictBasis_construct_returns (numberOfRevolutions : Z) :
  (0 <= numberOfRevolutions)%Z ->
  exists s,
    @construct strictBasis stateAtAzimuthZero stateAtAzimuthOne 1 numberOfRevolutions 4 0
      someRootFinderSettings (-1) 1 someIntegratorSettings
    = Returns s.
Proof.
  intros Hn.
  unfold construct.
  destruct (strictBasis_completeConstruction_returns
              (initialTimeStep_ someIntegratorSettings)
              (@initialise strictBasis stateAtAzimuthZero stateAtAzimuthOne 1
                 numberOfRevolutions 4 0
                 someRootFinderSettings (-1) 1 someIntegratorSettings))
    as (s & E).
  - simpl; lra.
  - pose proof PI_RGT_0 as Hpi. pose proof PI2_1 as Hone.
    pose proof (IZR_le _ _ Hn) as Hrevolutions.
    unfold strictLeg, initialise.
    cbn [initialAzimuthAngle_ finalAzimuthAngle_ centralBodyGravitationalParameter_
         convertCartesianToSphericalState strictBasis ASTRONOMICAL_UNIT JULIAN_YEAR].
    rewrite !keepAzimuthInRange_keeps by (unfold coeff; simpl; lra).
    rewrite !wrapAzimuthAngle_not_negative by (unfold coeff; simpl; lra).
    unfold computeFinalAzimuthAngle.
    match goal with
    | |- context [Rlt_dec ?x 0] => destruct (Rlt_dec x 0) as [Hneg|_]
    end.
    + exfalso; revert Hneg; unfold coeff; simpl; lra.
    + unfold coeff, std.pow; cbn [nth stateAtAzimuthZero stateAtAzimuthOne divide scale
                                   fromSegments segment map app].
      split; [|apply Rdiv_lt_0_compat; simpl; lra].
      revert Hrevolutions. generalize (IZR numberOfRevolutions). intros revolutions H.
      simpl in *. nra.
  - exists s. rewrite E. reflexivity.
Qed.

(** * The claims *)

(** C4: take collaborators whose coordinate conversion returns azimuth
    angles in the range of atan2 and which refuse a leg that sweeps no
    angle: the weights of the quadrature rule vanish on an interval of
    length 0, [LinSpaced] returns an empty grid for a size of 0, and the
    interpolator factory throws on an empty table.  Then, for every pair of
    boundary states and every requested number of revolutions that is not
    negative, every object that the constructor returns has a final azimuth
    angle strictly greater than its initial azimuth angle; and whenever the
    constructor returns for one more requested revolution, the final azimuth
    angle of that object is greater by exactly 2 pi. *)
Theorem final_azimuth_angle_exceeds_the_initial_one
    (collaborators : Collaborators)
    (initialState finalState : Vector6d) (requiredTimeOfFlight : R)
    (numberOfRevolutions : Z)
    (centralBodyGravitationalParameter initialValueFreeCoefficient : R)
    (rootFinderSettings : RootFinderSettings)
    (lowerBoundFreeCoefficient upperBoundFreeCoefficient : R)
    (integratorSettings : IntegratorSettings) (s : ExposinsShaping) :
  azimuthFromAtan2 collaborators ->
  refusesAnEmptyLeg collaborators ->
  (0 <= numberOfRevolutions)%Z ->
  construct initialState finalState requiredTimeOfFlight numberOfRevolutions
    centralBodyGravitationalParameter initialValueFreeCoefficient rootFinderSettings
    lowerBoundFreeCoefficient upperBoundFreeCoefficient integratorSettings
  = Returns s ->
  getInitialAzimuthAngle s < getFinalAzimuthAngle s
  /\ forall s' : ExposinsShaping,
       construct initialState finalState requiredTimeOfFlight (numberOfRevolutions + 1)
         centralBodyGravitationalParameter initialValueFreeCoefficient rootFinderSettings
         lowerBoundFreeCoefficient upperBoundFreeCoefficient integratorSettings
       = Returns s' ->
       getFinalAzimuthAngle s' = getFinalAzimuthAngle s + 2 * PI.
Proof.
  intros Hrange (Hweights & Hgrid & Hrefuses) Hn E.
  destruct (construct_keeps_boundary_angles _ _ _ _ _ _ _ _ _ _ _ E)
    as (Hi & Hf & _ & _).
  unfold getInitialAzimuthAngle, getFinalAzimuthAngle.
  split.
  - assert (Hle : initialAzimuthAngle_ s <= finalAzimuthAngle_ s).
    { rewrite Hi, Hf.
      unfold initialise; cbn [initialAzimuthAngle_ finalAzimuthAngle_].
      apply computeFinalAzimuthAngle_not_below;
        [apply wrapAzimuthAngle_range, Hrange | apply wrapAzimuthAngle_range, Hrange
        | exact Hn]. }
    destruct (Rlt_dec (initialAzimuthAngle_ s) (finalAzimuthAngle_ s)) as [Hlt|Hnot];
      [exact Hlt | exfalso].
    assert (Hsame : finalAzimuthAngle_ s = initialAzimuthAngle_ s) by lra.
    destruct (construct_interpolator _ _ _ _ _ _ _ _ _ _ _ E)
      as (Hquadrature & timeOfFlight & table & interpolator & Etime & Etable & Ecreate).
    unfold computeNormalizedTimeOfFlight, integrate in Etime.
    rewrite Hquadrature, Hsame in Etime.
    cbn [quadratureLowerBound numberOfNodes] in Etime.
    assert (Hzero : timeOfFlight = 0).
    { refine (getQuadrature_on_an_empty_interval _ _ _ _ Etime).
      intros abscissa weight Hin. exact (Hweights _ _ _ _ Hin). }
    rewrite Hzero in Etable.
    replace (0 * JULIAN_YEAR / initialTimeStep_ integratorSettings) with 0 in Etable
      by (unfold Rdiv; ring).
    rewrite ceil_0, Hgrid in Etable.
    inversion Etable; subst table.
    destruct (Hrefuses 10%nat) as (e & Hthrows).
    rewrite Hthrows in Ecreate. discriminate Ecreate.
  - intros s' E'.
    destruct (construct_keeps_boundary_angles _ _ _ _ _ _ _ _ _ _ _ E')
      as (_ & Hf' & _ & _).
    rewrite Hf, Hf'.
    unfold initialise; cbn [finalAzimuthAngle_].
    apply computeFinalAzimuthAngle_next_revolution.
Qed.

Lemma final_azimuth_angle_exceeds_the_initial_one_witness :
  exists s s',
    @construct strictBasis stateAtAzimuthZero stateAtAzimuthOne 1 0 4 0
      someRootFinderSettings (-1) 1 someIntegratorSettings
    = Returns s
    /\ @construct strictBasis stateAtAzimuthZero stateAtAzimuthOne 1 (0 + 1) 4 0
         someRootFinderSettings (-1) 1 someIntegratorSettings
       = Returns s'
    /\ getInitialAzimuthAngle s < getFinalAzimuthAngle s
    /\ getFinalAzimuthAngle s' = getFinalAzimuthAngle s + 2 * PI.
Proof.
  destruct (strictBasis_construct_returns 0 (Z.le_refl 0)) as (s & E).
  destruct (strictBasis_construct_returns (0 + 1) (Z.le_0_1)) as (s' & E').
  exists s, s'; split; [exact E | split; [exact E'|]].
  destruct (final_azimuth_angle_exceeds_the_initial_one strictBasis stateAtAzimuthZero
              stateAtAzimuthOne 1 0 4 0 someRootFinderSettings (-1) 1
              someIntegratorSettings s strictBasis_azimuthFromAtan2
              strictBasis_refusesAnEmptyLeg (Z.le_refl 0) E)
    as (Hstrict & Hnext).
  split; [exact Hstrict | exact (Hnext s' E')].
Defined.

(** C10: whatever the boundary states and the requested number of
    revolutions, the constructed object returns pi/2 + 4 pi as travelled
    azimuth angle. *)
Theorem travelled_azimuth_angle_is_hard_coded
    (collaborators : Collaborators)
    (initialState finalState : Vector6d) (requiredTimeOfFlight : R)
    (numberOfRevolutions : Z)
    (centralBodyGravitationalParameter initialValueFreeCoefficient : R)
    (rootFinderSettings : RootFinderSettings)
    (lowerBoundFreeCoefficient upperBoundFreeCoefficient : R)
    (integratorSettings : IntegratorSettings) (s : ExposinsShaping) :
  construct initialState finalState requiredTimeOfFlight numberOfRevolutions
    centralBodyGravitationalParameter initialValueFreeCoefficient rootFinderSettings
    lowerBoundFreeCoefficient upperBoundFreeCoefficient integratorSettings
  = Returns s ->
  getTravelledAzimuthAngle s = PI / 2 + 4 * PI.
Proof.
  intros E. unfold getTravelledAzimuthAngle.
  rewrite (construct_travelled_azimuth_angle _ _ _ _ _ _ _ _ _ _ _ E). lra.
Qed.

Lemma travelled_azimuth_angle_is_hard_coded_witness :
  exists s,
    @construct standIn departureState arrivalState 63115200 0
      132712440018000000000 0 someRootFinderSettings (-1) 1 someIntegratorSettings
    = Returns s
    /\ getTravelledAzimuthAngle s = PI / 2 + 4 * PI.
Proof.
  destruct (standIn_construct_returns 0) as (s & E).
  exists s; split; [exact E|].
  exact (travelled_azimuth_angle_is_hard_coded standIn departureState arrivalState
           63115200 0 132712440018000000000 0 someRootFinderSettings (-1) 1
           someIntegratorSettings s E).
Defined.

(** ** Singular boundary matrices *)

Lemma equal_rows_singular (m : MatrixXd) :
  nth 0 m [] = nth 1 m [] -> singular 10 m.
Proof.
  intros Hrows (b & Hb).
  pose (rowTimes := fun row : list R => map (fun j => dot row (column b j)) (seq 0 10)).
  assert (E : nth 0 (matrixProduct m b 10) (rowTimes [])
              = nth 1 (matrixProduct m b 10) (rowTimes [])).
  { change (matrixProduct m b 10) with (map rowTimes m).
    rewrite !(map_nth rowTimes), Hrows. reflexivity. }
  rewrite Hb in E. simpl in E.
  inversion E; lra.
Qed.

Lemma coincident_angles_singular {collaborators : Collaborators} (s : ExposinsShaping) :
  initialAzimuthAngle_ s = finalAzimuthAngle_ s -> singular 10 (boundaryMatrixOf s).
Proof.
  intros E. apply equal_rows_singular.
  unfold boundaryMatrixOf, matrixBoundaryConditions, forLoop.
  rewrite E. reflexivity.
Qed.

(** C3: for every value of the free coefficient,
    [satisfyBoundaryConditions] returns on an object whose two coefficient
    vectors have the sizes 7 and 4 that the constructor gives them.  The ten
    dependent coefficients are the inverse of the boundary matrix times the
    vector of boundary values minus the free coefficient times the column of
    basis term 2, each of the three written out below entry by entry; the
    radial vector holds the first six of them around the free coefficient,
    which sits at index 2; the elevation vector holds the last four; and both
    composite functions are reset with these vectors. *)
Theorem satisfyBoundaryConditions_solves_the_linear_system
    (collaborators : Collaborators) (freeCoefficient : R) (s : ExposinsShaping) :
  length (coefficientsRadialDistanceFunction_ s) = 7%nat ->
  length (coefficientsElevationAngleFunction_ s) = 4%nat ->
  let radial := CompositeRadialFunctionExposinsShaping in
  let elevation := CompositeElevationFunctionExposinsShaping in
  let mu := centralBodyGravitationalParameter_ s in
  let initial := initialStateParametrizedByAzimuthAngle_ s in
  let final := finalStateParametrizedByAzimuthAngle_ s in
  let initialSpherical := initialStateSphericalCoordinates_ s in
  let finalSpherical := finalStateSphericalCoordinates_ s in
  let initialAngle := initialAzimuthAngle_ s in
  let finalAngle := finalAzimuthAngle_ s in
  let alpha := fun state : Vector6d =>
    - (coeff state 3 * coeff state 5 / coeff state 0)
    / ((coeff state 5 / coeff state 0) ^ 2 + cos (coeff state 2) ^ 2) in
  let constant := fun state spherical : Vector6d =>
    - mu * (coeff state 0 * cos (coeff state 2) / coeff spherical 4) ^ 2
      / coeff state 0 ^ 2
    + 2 * coeff state 3 ^ 2 / coeff state 0
    + coeff state 0 * ((coeff state 5 / coeff state 0) ^ 2 + cos (coeff state 2) ^ 2)
    - coeff state 3 * (coeff state 5 / coeff state 0)
      * (sin (coeff state 2) * cos (coeff state 2))
      / ((coeff state 5 / coeff state 0) ^ 2 + cos (coeff state 2) ^ 2) in
  let boundaryValues :=
    [ 1 / coeff initial 0;
      1 / coeff final 0;
      - coeff initial 3 / coeff initial 0 ^ 2;
      - coeff final 3 / coeff final 0 ^ 2;
      constant initial initialSpherical - 2 * coeff initial 3 ^ 2 / coeff initial 0;
      constant final finalSpherical - 2 * coeff final 3 ^ 2 / coeff final 0;
      coeff initial 2;
      coeff final 2;
      coeff initial 5 / coeff initial 0;
      coeff final 5 / coeff final 0 ] in
  let columnOfTerm2 :=
    [ componentCurrentValue radial 2 initialAngle;
      componentCurrentValue radial 2 finalAngle;
      componentFirstDerivative radial 2 initialAngle;
      componentFirstDerivative radial 2 finalAngle;
      - coeff initial 0 ^ 2 * componentSecondDerivative radial 2 initialAngle;
      - coeff final 0 ^ 2 * componentSecondDerivative radial 2 finalAngle;
      0; 0; 0; 0 ] in
  let dependentRadialTerms := [0; 1; 3; 4; 5; 6]%nat in
  let elevationTerms := [0; 1; 2; 3]%nat in
  let boundaryMatrix :=
    [ map (fun k => componentCurrentValue radial k initialAngle) dependentRadialTerms
        ++ [0; 0; 0; 0];
      map (fun k => componentCurrentValue radial k finalAngle) dependentRadialTerms
        ++ [0; 0; 0; 0];
      map (fun k => componentFirstDerivative radial k initialAngle) dependentRadialTerms
        ++ [0; 0; 0; 0];
      map (fun k => componentFirstDerivative radial k finalAngle) dependentRadialTerms
        ++ [0; 0; 0; 0];
      map (fun k => - coeff initialSpherical 0 ^ 2
                    * componentSecondDerivative radial k initialAngle) dependentRadialTerms
        ++ map (fun k => alpha initial * componentSecondDerivative elevation k initialAngle)
             elevationTerms;
      map (fun k => - coeff finalSpherical 0 ^ 2
                    * componentSecondDerivative radial k finalAngle) dependentRadialTerms
        ++ map (fun k => alpha final * componentSecondDerivative elevation k finalAngle)
             elevationTerms;
      [0; 0; 0; 0; 0; 0]
        ++ map (fun k => componentCurrentValue elevation k initialAngle) elevationTerms;
      [0; 0; 0; 0; 0; 0]
        ++ map (fun k => componentCurrentValue elevation k finalAngle) elevationTerms;
      [0; 0; 0; 0; 0; 0]
        ++ map (fun k => componentFirstDerivative elevation k initialAngle) elevationTerms;
      [0; 0; 0; 0; 0; 0]
        ++ map (fun k => componentFirstDerivative elevation k finalAngle) elevationTerms ] in
  let dependent :=
    matrixVector (inverse boundaryMatrix)
      (vectorSubtract boundaryValues (map (fun x => x * freeCoefficient) columnOfTerm2)) in
  exists s',
    satisfyBoundaryConditions (set_initialValueFreeCoefficient_ freeCoefficient s)
    = Returns (tt, s')
    /\ coefficientsRadialDistanceFunction_ s'
       = [coeff dependent 0; coeff dependent 1; freeCoefficient; coeff dependent 2;
          coeff dependent 3; coeff dependent 4; coeff dependent 5]
    /\ coefficientsElevationAngleFunction_ s'
       = [coeff dependent 6; coeff dependent 7; coeff dependent 8; coeff dependent 9]
    /\ compositeFunctionCoefficients_ (radialDistanceCompositeFunction_ s')
       = coefficientsRadialDistanceFunction_ s'
    /\ compositeFunctionCoefficients_ (elevationAngleCompositeFunction_ s')
       = coefficientsElevationAngleFunction_ s'.
Proof.
  intros Hradial Helevation.
  intros radial elevation mu initial final initialSpherical finalSpherical
    initialAngle finalAngle alpha constant boundaryValues columnOfTerm2
    dependentRadialTerms elevationTerms boundaryMatrix dependent.
  eexists; split.
  - apply satisfyBoundaryConditions_returns; assumption.
  - repeat split.
Qed.

Lemma satisfyBoundaryConditions_solves_the_linear_system_witness :
  exists s',
    @satisfyBoundaryConditions standIn (set_initialValueFreeCoefficient_ 3 (exampleObject 0))
    = Returns (tt, s')
    /\ coeff (coefficientsRadialDistanceFunction_ s') 2 = 3
    /\ compositeFunctionCoefficients_ (radialDistanceCompositeFunction_ s')
       = coefficientsRadialDistanceFunction_ s'.
Proof.
  destruct (satisfyBoundaryConditions_solves_the_linear_system standIn 3 (exampleObject 0)
              eq_refl eq_refl)
    as (s' & E & Hradial & _ & Hcomposite & _).
  exists s'; split; [exact E | split; [|exact Hcomposite]].
  rewrite Hradial. reflexivity.
Defined.

(** C6, as stated, fails: the object at the first method call of the
    constructor, for a departure and an arrival on the same ray and no
    revolution, has a singular boundary matrix, and
    [satisfyBoundaryConditions] returns on it without any error. *)
Lemma singular_boundary_matrix_raises_no_error :
  singular 10 (@boundaryMatrixOf standIn (exampleObject 0))
  /\ exists s', @satisfyBoundaryConditions standIn (exampleObject 0) = Returns (tt, s').
Proof.
  split.
  - apply coincident_angles_singular.
    destruct (exampleObject_azimuth_angles 0) as (Hi & Hf). rewrite Hi, Hf. lra.
  - eexists. apply satisfyBoundaryConditions_returns; reflexivity.
Qed.

(** C6, amended: when the assembled 10 x 10 matrix is singular, the
    boundary-value solve does not fail.  [computeInverseMatrixBoundaryConditions]
    returns what the inversion routine of Eigen yields for the matrix,
    unchecked, and [satisfyBoundaryConditions] returns after installing the
    coefficients computed from it. *)
Theorem singular_boundary_matrix_is_not_detected
    (collaborators : Collaborators) (s : ExposinsShaping) :
  coefficientSizesMatch s ->
  singular 10 (boundaryMatrixOf s) ->
  let fromUncheckedInverse :=
    matrixVector (inverse (boundaryMatrixOf s))
      (vectorSubtract (vectorBoundaryValues s)
         (scale (initialValueFreeCoefficient_ s) (freeCoefficientColumn s))) in
  computeInverseMatrixBoundaryConditions s = inverse (boundaryMatrixOf s)
  /\ exists s',
       satisfyBoundaryConditions s = Returns (tt, s')
       /\ coefficientsRadialDistanceFunction_ s'
          = [coeff fromUncheckedInverse 0; coeff fromUncheckedInverse 1;
             initialValueFreeCoefficient_ s; coeff fromUncheckedInverse 2;
             coeff fromUncheckedInverse 3; coeff fromUncheckedInverse 4;
             coeff fromUncheckedInverse 5]
       /\ coefficientsElevationAngleFunction_ s'
          = [coeff fromUncheckedInverse 6; coeff fromUncheckedInverse 7;
             coeff fromUncheckedInverse 8; coeff fromUncheckedInverse 9].
Proof.
  intros Hs _ fromUncheckedInverse. split; [reflexivity|].
  eexists; split.
  - apply satisfyBoundaryConditions_returns; apply Hs.
  - split; reflexivity.
Qed.

Lemma singular_boundary_matrix_is_not_detected_witness :
  singular 10 (@boundaryMatrixOf standIn (exampleObject 0))
  /\ exists s', @satisfyBoundaryConditions standIn (exampleObject 0) = Returns (tt, s').
Proof.
  assert (Hsingular : singular 10 (@boundaryMatrixOf standIn (exampleObject 0))).
  { apply coincident_angles_singular.
    destruct (exampleObject_azimuth_angles 0) as (Hi & Hf). rewrite Hi, Hf. lra. }
  split; [exact Hsingular|].
  destruct (singular_boundary_matrix_is_not_detected standIn (exampleObject 0)
              (initialise_sizes _ _ _ _ _ _ _ _ _ _) Hsingular)
    as (_ & s' & E & _).
  exists s'; exact E.
Defined.

(** ** Sizes of the coefficient vectors *)

(** C7: the object at the first method call of the constructor holds a
    radial coefficient vector of length 7 and an elevation coefficient vector
    of length 4, in its members and in its two composite functions;
    [satisfyBoundaryConditions] returns on every object with these lengths
    and leaves an object with these lengths; and every object that the
    constructor returns has them. *)
Theorem coefficient_vectors_have_the_sizes_of_the_basis_sets
    (collaborators : Collaborators)
    (initialState finalState : Vector6d) (requiredTimeOfFlight : R)
    (numberOfRevolutions : Z)
    (centralBodyGravitationalParameter initialValueFreeCoefficient : R)
    (rootFinderSettings : RootFinderSettings)
    (lowerBoundFreeCoefficient upperBoundFreeCoefficient : R)
    (integratorSettings : IntegratorSettings) :
  let sizes := fun s : ExposinsShaping =>
    length (compositeFunctionCoefficients_ (radialDistanceCompositeFunction_ s)) = 7%nat
    /\ length (compositeFunctionCoefficients_ (elevationAngleCompositeFunction_ s)) = 4%nat
    /\ length (coefficientsRadialDistanceFunction_ s) = 7%nat
    /\ length (coefficientsElevationAngleFunction_ s) = 4%nat in
  sizes (initialise initialState finalState requiredTimeOfFlight numberOfRevolutions
           centralBodyGravitationalParameter initialValueFreeCoefficient rootFinderSettings
           lowerBoundFreeCoefficient upperBoundFreeCoefficient integratorSettings)
  /\ (forall s : ExposinsShaping,
        sizes s -> exists s', satisfyBoundaryConditions s = Returns (tt, s') /\ sizes s')
  /\ (forall s : ExposinsShaping,
        construct initialState finalState requiredTimeOfFlight numberOfRevolutions
          centralBodyGravitationalParameter initialValueFreeCoefficient rootFinderSettings
          lowerBoundFreeCoefficient upperBoundFreeCoefficient integratorSettings
        = Returns s ->
        sizes s).
Proof.
  intros sizes. split; [|split].
  - repeat split.
  - intros s (_ & _ & Hradial & Helevation).
    eexists; split.
    + apply satisfyBoundaryConditions_returns; assumption.
    + repeat split.
  - intros s E.
    destruct (construct_sizes _ _ _ _ _ _ _ _ _ _ _ E) as (Hr & He & Hcr & Hce).
    repeat split; assumption.
Qed.

Lemma coefficient_vectors_have_the_sizes_of_the_basis_sets_witness :
  exists s',
    @satisfyBoundaryConditions standIn (exampleObject 0) = Returns (tt, s')
    /\ length (compositeFunctionCoefficients_ (radialDistanceCompositeFunction_ s')) = 7%nat
    /\ length (compositeFunctionCoefficients_ (elevationAngleCompositeFunction_ s')) = 4%nat.
Proof.
  destruct (coefficient_vectors_have_the_sizes_of_the_basis_sets standIn departureState
              arrivalState 63115200 0 132712440018000000000 0 someRootFinderSettings
              (-1) 1 someIntegratorSettings)
    as (Hfirst & Hsolve & _).
  destruct (Hsolve (exampleObject 0) Hfirst) as (s' & E & Hradial & Helevation & _).
  exists s'; split; [exact E | split; [exact Hradial | exact Helevation]].
Defined.

(** ** Feasibility *)

Lemma derivativeTimeFunction_throws_infeasible
    {collaborators : Collaborators} (s : ExposinsShaping) (angle : R) (e : exception) :
  derivativeTimeFunction s angle = Throws e -> e = infeasibleTrajectory.
Proof.
  unfold derivativeTimeFunction.
  destruct (Rlt_dec (computeScalarFunctionTimeEquation s angle) 0); intros H;
    inversion H; reflexivity.
Qed.

(** A quadrature of the time integrand with a node at which the radicand is
    negative raises the infeasible-trajectory error. *)
Lemma time_quadrature_throws_when_infeasible
    {collaborators : Collaborators} (s : ExposinsShaping) (nodes : list (R * R))
    (angle weight : R) :
  In (angle, weight) nodes ->
  computeScalarFunctionTimeEquation s angle < 0 ->
  getQuadrature (derivativeTimeFunction s) nodes = Throws infeasibleTrajectory.
Proof.
  intros Hin Hneg.
  induction nodes as [|[abscissa w] rest IH]; [contradiction|].
  simpl.
  destruct (derivativeTimeFunction s abscissa) as [value|e] eqn:E; simpl.
  - destruct Hin as [Hhere|Hrest].
    + inversion Hhere; subst.
      unfold derivativeTimeFunction in E.
      destruct (Rlt_dec (computeScalarFunctionTimeEquation s angle) 0);
        [discriminate | contradiction].
    + rewrite (IH Hrest). reflexivity.
  - rewrite (derivativeTimeFunction_throws_infeasible s abscissa e E). reflexivity.
Qed.




(** ** The objective of the root finder *)

(** The boundary solve leaves an object on which a further solve changes
    nothing. *)
Lemma satisfyBoundaryConditions_fixed_point {collaborators : Collaborators}
    (s s' : ExposinsShaping) :
  length (coefficientsRadialDistanceFunction_ s) = 7%nat ->
  length (coefficientsElevationAngleFunction_ s) = 4%nat ->
  satisfyBoundaryConditions s = Returns (tt, s') ->
  coefficientSizesMatch s'
  /\ satisfyBoundaryConditions s' = Returns (tt, s')
  /\ coeff (coefficientsRadialDistanceFunction_ s') 2 = initialValueFreeCoefficient_ s'
  /\ initialValueFreeCoefficient_ s' = initialValueFreeCoefficient_ s.
Proof.
  intros Hr He E.
  rewrite (satisfyBoundaryConditions_returns s Hr He) in E.
  inversion E; subst s'; clear E.
  split; [repeat split | split; [|split; reflexivity]].
  rewrite satisfyBoundaryConditions_returns by reflexivity. reflexivity.
Qed.





(** C5: for every trial value, when the three callables return, [evaluate]
    returns the required time of flight minus the time of flight computed
    after the free coefficient was reset to the trial value, and the root
    finder goes on from exactly this residual. *)
Theorem evaluate_returns_the_residual
    (f : TimeOfFlightFunction)
    (trial : R) (next : R -> RootFinderCore)
    (s afterReset afterCompute afterRequired : ExposinsShaping)
    (computed required : R) :
  resetFreeCoefficientFunction_ f trial s = Returns (tt, afterReset) ->
  computeTimeOfFlightFunction_ f afterReset = Returns (computed, afterCompute) ->
  getRequiredTimeOfFlightfunction_ f afterCompute = Returns (required, afterRequired) ->
  evaluate f trial s = Returns (required - computed, afterRequired)
  /\ execute (Trial trial next) (evaluate f) s
     = execute (next (required - computed)) (evaluate f) afterRequired.
Proof.
  intros Hreset Hcompute Hrequired.
  assert (E : evaluate f trial s = Returns (required - computed, afterRequired)).
  { unfold evaluate, bind. rewrite Hreset, Hcompute, Hrequired. reflexivity. }
  split; [exact E|].
  simpl. unfold bind at 1. rewrite E. reflexivity.
Qed.

Lemma evaluate_returns_the_residual_witness :
  exists computed,
    @evaluate (@timeOfFlightFunction standIn) 2 (exampleObject 0)
    = Returns (63115200 / 31557600 - computed,
               set_initialValueFreeCoefficient_ 2 (exampleObject 0)).
Proof.
  assert (Hfeasible : standInFeasible (set_initialValueFreeCoefficient_ 2 (exampleObject 0)))
    by (repeat split; unfold coeff; simpl; lra).
  destruct (standIn_time_quadrature_returns
              (set_initialValueFreeCoefficient_ 2 (exampleObject 0))
              (finalAzimuthAngle_ (exampleObject 0)) Hfeasible) as (computed & E).
  exists computed.
  refine (proj1 (evaluate_returns_the_residual (@timeOfFlightFunction standIn)
                   2 (fun _ => Converged 2) (exampleObject 0)
                   (set_initialValueFreeCoefficient_ 2 (exampleObject 0))
                   (set_initialValueFreeCoefficient_ 2 (exampleObject 0))
                   (set_initialValueFreeCoefficient_ 2 (exampleObject 0))
                   computed (63115200 / 31557600) eq_refl _ eq_refl)).
  cbn [computeTimeOfFlightFunction_ timeOfFlightFunction].
  unfold query, computeNormalizedTimeOfFlight.
  cbn [finalAzimuthAngle_ set_initialValueFreeCoefficient_].
  fold (finalAzimuthAngle_ (exampleObject 0)).
  rewrite E. reflexivity.
Defined.

(** ** Physical units *)

Lemma coeff_map (f : R -> R) (v : VectorXd) (i : nat) :
  f 0 = 0 -> coeff (map f v) i = f (coeff v i).
Proof.
  intros Hf. unfold coeff.
  rewrite <- Hf at 1. apply map_nth.
Qed.

(** C8, as stated, fails for queries that the claim does not name:
    [convertIndependentVariableToTime] and, in exposinsShaping.h,
    [computeCurrentTimeFromAzimuthAngle] are public and return the elapsed
    time in normalized units.  At the final azimuth angle of an object with
    one revolution they return the number that [computeTimeOfFlight]
    multiplies by one Julian year, and the two differ. *)
Lemma time_queries_are_not_rescaled :
  exists time,
    @computeCurrentTimeFromAzimuthAngle standIn (exampleObject 1)
      (getFinalAzimuthAngle (exampleObject 1))
    = Returns time
    /\ @convertIndependentVariableToTime standIn (exampleObject 1)
         (getFinalAzimuthAngle (exampleObject 1))
       = Returns time
    /\ @computeTimeOfFlight standIn (exampleObject 1) = Returns (time * 31557600)
    /\ time * 31557600 <> time.
Proof.
  destruct (exampleObject_azimuth_angles 1) as (Hi & Hf).
  pose proof PI_RGT_0 as Hpi.
  unfold computeTimeOfFlight, computeNormalizedTimeOfFlight,
    computeCurrentTimeFromAzimuthAngle, convertIndependentVariableToTime,
    getFinalAzimuthAngle, integrate.
  cbn [gaussianQuadratureNodes standIn getQuadrature].
  unfold derivativeTimeFunction.
  rewrite standIn_time_equation.
  change (coeff (compositeFunctionCoefficients_
                   (radialDistanceCompositeFunction_ (exampleObject 1))) 2) with 1.
  destruct (Rlt_dec (2 - 1) 0) as [Hneg|_]; [lra|].
  cbn [andThen].
  eexists; split; [reflexivity | split; [reflexivity | split; [reflexivity|]]].
  change (quadratureLowerBound (quadratureSettings_ (exampleObject 1)))
    with (initialAzimuthAngle_ (exampleObject 1)).
  rewrite Hi, Hf.
  match goal with |- context [std.sqrt ?x] => assert (Hroot : 0 < std.sqrt x) end.
  { apply sqrt_lt_R0.
    unfold evaluateCompositeFunction, radialFunction, std.pow; simpl.
    apply Rdiv_lt_0_compat; [lra|].
    apply Rdiv_lt_0_compat; lra. }
  nra.
Qed.

(** C8, amended to the three queries it names: [computeTimeOfFlight] is the
    normalized time of flight times one Julian year; the first three entries
    of [computeCurrentStateVector] are those of the normalized state times
    one astronomical unit, the last three those of the normalized state
    times one astronomical unit per Julian year; every entry of
    [computeCurrentThrustAccelerationVector] is that of the normalized
    acceleration times one astronomical unit per Julian year squared. *)
Theorem public_queries_rescale_to_physical_units
    (collaborators : Collaborators) (s : ExposinsShaping) (currentAzimuthAngle : R) :
  length (computeNormalizedStateVector s currentAzimuthAngle) = 6%nat ->
  computeTimeOfFlight s
  = match computeNormalizedTimeOfFlight s with
    | Returns normalized => Returns (normalized * JULIAN_YEAR)
    | Throws e => Throws e
    end
  /\ (forall i, (i < 3)%nat ->
        coeff (computeCurrentStateVector s currentAzimuthAngle) i
        = coeff (computeNormalizedStateVector s currentAzimuthAngle) i * ASTRONOMICAL_UNIT
        /\ coeff (computeCurrentStateVector s currentAzimuthAngle) (i + 3)
           = coeff (computeNormalizedStateVector s currentAzimuthAngle) (i + 3)
             * ASTRONOMICAL_UNIT / JULIAN_YEAR)
  /\ (forall i,
        coeff (computeCurrentThrustAccelerationVector s currentAzimuthAngle) i
        = coeff (computeNormalizedThrustAccelerationVector s currentAzimuthAngle) i
          * ASTRONOMICAL_UNIT / (JULIAN_YEAR * JULIAN_YEAR)).
Proof.
  intros Hsix. split; [reflexivity | split].
  - unfold computeCurrentStateVector.
    destruct (computeNormalizedStateVector s currentAzimuthAngle)
      as [|x [|y [|z [|vx [|vy [|vz [|extra tl]]]]]]]; try discriminate Hsix.
    intros i Hi.
    destruct i as [|[|[|i]]]; try lia; split; reflexivity.
  - intros i. unfold computeCurrentThrustAccelerationVector, divide, scale.
    rewrite map_map.
    rewrite coeff_map by (unfold std.pow, Rdiv; ring).
    unfold std.pow, Rdiv; simpl. rewrite Rmult_1_r. reflexivity.
Qed.

Lemma public_queries_rescale_to_physical_units_witness :
  coeff (@computeCurrentStateVector standIn (exampleObject 0) 0) 0
  = coeff (@computeNormalizedStateVector standIn (exampleObject 0) 0) 0 * 149597870691.
Proof.
  exact (proj1 (proj1 (proj2 (public_queries_rescale_to_physical_units standIn
                                (exampleObject 0) 0 eq_refl)) 0%nat (Nat.lt_0_succ 2))).
Defined.

(** ** Queries *)

Lemma ReadOnly_returns {A : Type} (m : Action A) :
  ReadOnly m -> forall s, exists a, m s = Returns (a, s).
Proof.
  induction 1 as [A get|A a|A B m k Hm IHm Hk IHk]; intros s.
  - eexists; reflexivity.
  - eexists; reflexivity.
  - destruct (IHm s) as (a & E). destruct (IHk a s) as (b & E').
    exists b. unfold bind. rewrite E. exact E'.
Qed.

(** Two calls in succession of a member function that assigns no member
    return the same value and leave the object as it was. *)
Lemma ReadOnly_twice {A : Type} (m : Action A) (s : ExposinsShaping) :
  ReadOnly m -> exists a, m s = Returns (a, s) /\ twice m s = Returns ((a, a), s).
Proof.
  intros Hm. destruct (ReadOnly_returns m Hm s) as (a & E).
  exists a; split; [exact E|].
  unfold twice, bind. rewrite E, E. reflexivity.
Qed.

Create HintDb methods.
#[local] Hint Constructors ReadOnly : methods.

Ltac read_only :=
  cbv zeta;
  repeat first
    [ apply ReadOnly_member
    | apply ReadOnly_ret
    | solve [auto with methods]
    | apply ReadOnly_bind; [|intros ?] ].

Section Queries.

Context {collaborators : Collaborators}.

Lemma onRadialFunction_ReadOnly
    (evaluation : CompositeFunctionClass -> CompositeFunction -> R -> R) (angle : R) :
  ReadOnly (Method.onRadialFunction evaluation angle).
Proof. unfold Method.onRadialFunction. read_only. Qed.

Lemma onElevationFunction_ReadOnly
    (evaluation : CompositeFunctionClass -> CompositeFunction -> R -> R) (angle : R) :
  ReadOnly (Method.onElevationFunction evaluation angle).
Proof. unfold Method.onElevationFunction. read_only. Qed.

#[local] Hint Resolve onRadialFunction_ReadOnly onElevationFunction_ReadOnly : methods.

Lemma computeScalarFunctionTimeEquation_ReadOnly (currentAzimuthAngle : R) :
  ReadOnly (Method.computeScalarFunctionTimeEquation currentAzimuthAngle).
Proof. unfold Method.computeScalarFunctionTimeEquation. read_only. Qed.

Lemma computeDerivativeScalarFunctionTimeEquation_ReadOnly (currentAzimuthAngle : R) :
  ReadOnly (Method.computeDerivativeScalarFunctionTimeEquation currentAzimuthAngle).
Proof. unfold Method.computeDerivativeScalarFunctionTimeEquation. read_only. Qed.

#[local] Hint Resolve computeScalarFunctionTimeEquation_ReadOnly
  computeDerivativeScalarFunctionTimeEquation_ReadOnly : methods.

Lemma computePositionVectorInSphericalCoordinates_ReadOnly (currentAzimuthAngle : R) :
  ReadOnly (Method.computePositionVectorInSphericalCoordinates currentAzimuthAngle).
Proof. unfold Method.computePositionVectorInSphericalCoordinates. read_only. Qed.

Lemma computeFirstDerivativeAzimuthAngleWrtTime_ReadOnly (currentAzimuthAngle : R) :
  ReadOnly (Method.computeFirstDerivativeAzimuthAngleWrtTime currentAzimuthAngle).
Proof. unfold Method.computeFirstDerivativeAzimuthAngleWrtTime. read_only. Qed.

#[local] Hint Resolve computePositionVectorInSphericalCoordinates_ReadOnly
  computeFirstDerivativeAzimuthAngleWrtTime_ReadOnly : methods.

Lemma computeSecondDerivativeAzimuthAngleWrtTime_ReadOnly (currentAzimuthAngle : R) :
  ReadOnly (Method.computeSecondDerivativeAzimuthAngleWrtTime currentAzimuthAngle).
Proof. unfold Method.computeSecondDerivativeAzimuthAngleWrtTime. read_only. Qed.

Lemma computeCurrentVelocityParametrizedByAzimuthAngle_ReadOnly (currentAzimuthAngle : R) :
  ReadOnly (Method.computeCurrentVelocityParametrizedByAzimuthAngle currentAzimuthAngle).
Proof. unfold Method.computeCurrentVelocityParametrizedByAzimuthAngle. read_only. Qed.

Lemma computeCurrentAccelerationParametrizedByAzimuthAngle_ReadOnly
    (currentAzimuthAngle : R) :
  ReadOnly (Method.computeCurrentAccelerationParametrizedByAzimuthAngle currentAzimuthAngle).
Proof. unfold Method.computeCurrentAccelerationParametrizedByAzimuthAngle. read_only. Qed.

#[local] Hint Resolve computeSecondDerivativeAzimuthAngleWrtTime_ReadOnly
  computeCurrentVelocityParametrizedByAzimuthAngle_ReadOnly
  computeCurrentAccelerationParametrizedByAzimuthAngle_ReadOnly : methods.

Lemma computeVelocityVectorInSphericalCoordinates_ReadOnly (currentAzimuthAngle : R) :
  ReadOnly (Method.computeVelocityVectorInSphericalCoordinates currentAzimuthAngle).
Proof. unfold Method.computeVelocityVectorInSphericalCoordinates. read_only. Qed.

#[local] Hint Resolve computeVelocityVectorInSphericalCoordinates_ReadOnly : methods.

Lemma computeStateVectorInSphericalCoordinates_ReadOnly (currentAzimuthAngle : R) :
  ReadOnly (Method.computeStateVectorInSphericalCoordinates currentAzimuthAngle).
Proof. unfold Method.computeStateVectorInSphericalCoordinates. read_only. Qed.

#[local] Hint Resolve computeStateVectorInSphericalCoordinates_ReadOnly : methods.

Lemma computeNormalizedStateVector_ReadOnly (currentAzimuthAngle : R) :
  ReadOnly (Method.computeNormalizedStateVector currentAzimuthAngle).
Proof. unfold Method.computeNormalizedStateVector. read_only. Qed.

#[local] Hint Resolve computeNormalizedStateVector_ReadOnly : methods.

Lemma computeCurrentStateVector_ReadOnly (currentAzimuthAngle : R) :
  ReadOnly (Method.computeCurrentStateVector currentAzimuthAngle).
Proof. unfold Method.computeCurrentStateVector. read_only. Qed.

Lemma computeThrustAccelerationInSphericalCoordinates_ReadOnly (currentAzimuthAngle : R) :
  ReadOnly (Method.computeThrustAccelerationInSphericalCoordinates currentAzimuthAngle).
Proof. unfold Method.computeThrustAccelerationInSphericalCoordinates. read_only. Qed.

#[local] Hint Resolve computeThrustAccelerationInSphericalCoordinates_ReadOnly : methods.

Lemma derivativeFunctionDeltaV_ReadOnly (currentAzimuthAngle : R) :
  ReadOnly (Method.derivativeFunctionDeltaV currentAzimuthAngle).
Proof. unfold Method.derivativeFunctionDeltaV. read_only. Qed.

Lemma getQuadrature_ReadOnly (integrand : R -> Action R) (nodes : list (R * R)) :
  (forall abscissa, ReadOnly (integrand abscissa)) ->
  ReadOnly (Method.getQuadrature integrand nodes).
Proof.
  intros Hintegrand.
  induction nodes as [|[abscissa weight] rest IH]; simpl.
  - apply ReadOnly_ret.
  - apply ReadOnly_bind; [apply Hintegrand | intros value].
    apply ReadOnly_bind; [exact IH | intros sum]. apply ReadOnly_ret.
Qed.

Lemma computeDeltaV_ReadOnly : ReadOnly Method.computeDeltaV.
Proof.
  unfold Method.computeDeltaV.
  apply ReadOnly_bind; [apply ReadOnly_member | intros settings].
  apply ReadOnly_bind; [apply ReadOnly_member | intros upperBound].
  apply ReadOnly_bind; [|intros quadrature; apply ReadOnly_ret].
  apply getQuadrature_ReadOnly, derivativeFunctionDeltaV_ReadOnly.
Qed.

(** The value that the member function returns is the one that the
    function of the object gives. *)
Lemma computeCurrentStateVector_value (currentAzimuthAngle : R) (s : ExposinsShaping) :
  Method.computeCurrentStateVector currentAzimuthAngle s
  = Returns (computeCurrentStateVector s currentAzimuthAngle, s).
Proof. reflexivity. Qed.

Lemma getQuadrature_value (s : ExposinsShaping) (nodes : list (R * R)) :
  Method.getQuadrature Method.derivativeFunctionDeltaV nodes s
  = andThen (getQuadrature (derivativeFunctionDeltaV s) nodes)
      (fun quadrature => Returns (quadrature, s)).
Proof.
  induction nodes as [|[abscissa weight] rest IH]; [reflexivity|].
  cbn [Method.getQuadrature getQuadrature].
  unfold bind at 1.
  change (Method.derivativeFunctionDeltaV abscissa s)
    with (andThen (derivativeFunctionDeltaV s abscissa) (fun value => Returns (value, s))).
  unfold derivativeFunctionDeltaV at 1 2. cbn [andThen].
  unfold bind at 1. rewrite IH.
  destruct (getQuadrature (derivativeFunctionDeltaV s) rest); reflexivity.
Qed.

Lemma computeDeltaV_value (s : ExposinsShaping) :
  Method.computeDeltaV s = andThen (computeDeltaV s) (fun deltaV => Returns (deltaV, s)).
Proof.
  unfold Method.computeDeltaV, computeDeltaV, integrate.
  unfold bind at 1 2 3. cbn [Method.member].
  rewrite getQuadrature_value.
  destruct (getQuadrature _ _); reflexivity.
Qed.

End Queries.

(** C9: [computeCurrentStateVector] and [computeDeltaV], as the member
    functions that exposinsShapingWorking.cpp defines, consist of reads of
    members and of calls of member functions that consist of such reads and
    calls: no statement of theirs assigns a member.  Hence two calls in
    succession of [computeCurrentStateVector] at the same angle, or of
    [computeDeltaV], return the same value twice and leave the object as it
    was. *)
Theorem queries_do_not_change_the_object
    (collaborators : Collaborators) (s : ExposinsShaping) (currentAzimuthAngle : R) :
  ReadOnly (Method.computeCurrentStateVector currentAzimuthAngle)
  /\ ReadOnly Method.computeDeltaV
  /\ twice (Method.computeCurrentStateVector currentAzimuthAngle) s
     = Returns ((computeCurrentStateVector s currentAzimuthAngle,
                 computeCurrentStateVector s currentAzimuthAngle), s)
  /\ exists deltaV,
       computeDeltaV s = Returns deltaV
       /\ twice Method.computeDeltaV s = Returns ((deltaV, deltaV), s).
Proof.
  split; [apply computeCurrentStateVector_ReadOnly|].
  split; [apply computeDeltaV_ReadOnly|].
  split.
  - destruct (ReadOnly_twice _ s (computeCurrentStateVector_ReadOnly currentAzimuthAngle))
      as (state & E & Htwice).
    rewrite computeCurrentStateVector_value in E.
    inversion E as [Hstate]. rewrite Hstate. exact Htwice.
  - destruct (ReadOnly_twice _ s computeDeltaV_ReadOnly) as (deltaV & E & Htwice).
    exists deltaV; split; [|exact Htwice].
    rewrite computeDeltaV_value in E.
    destruct (computeDeltaV s) as [value|e]; [|discriminate E].
    inversion E; reflexivity.
Qed.

Lemma queries_do_not_change_the_object_witness :
  twice (@Method.computeCurrentStateVector standIn 0) (exampleObject 1)
  = Returns ((@computeCurrentStateVector standIn (exampleObject 1) 0,
              @computeCurrentStateVector standIn (exampleObject 1) 0), exampleObject 1).
Proof.
  exact (proj1 (proj2 (proj2 (queries_do_not_change_the_object standIn (exampleObject 1) 0)))).
Defined.

(** * Further properties of the code *)

(** ** The azimuth angle swept by the leg *)

Lemma computeFinalAzimuthAngle_swept
    (initialSpherical finalSpherical : Vector6d) (numberOfRevolutions : Z) :
  0 <= coeff initialSpherical 1 < 2 * PI ->
  0 <= coeff finalSpherical 1 < 2 * PI ->
  2 * PI * IZR numberOfRevolutions
  <= computeFinalAzimuthAngle initialSpherical finalSpherical numberOfRevolutions
     - coeff initialSpherical 1
  < 2 * PI * (IZR numberOfRevolutions + 1).
Proof.
  intros Hi Hf. pose proof PI_RGT_0 as Hpi.
  unfold computeFinalAzimuthAngle.
  destruct (Rlt_dec (coeff finalSpherical 1 - coeff initialSpherical 1) 0); lra.
Qed.

(** X1: when the coordinate conversion returns azimuth angles in the range
    of atan2, the constructed object has an initial azimuth angle in
    [0, 2 pi) and a final azimuth angle that exceeds it by the requested
    number of full turns plus a fraction of a turn: the swept angle lies in
    [2 pi n, 2 pi (n + 1)). *)
Theorem final_azimuth_angle_counts_the_revolutions
    (collaborators : Collaborators)
    (initialState finalState : Vector6d) (requiredTimeOfFlight : R)
    (numberOfRevolutions : Z)
    (centralBodyGravitationalParameter initialValueFreeCoefficient : R)
    (rootFinderSettings : RootFinderSettings)
    (lowerBoundFreeCoefficient upperBoundFreeCoefficient : R)
    (integratorSettings : IntegratorSettings) (s : ExposinsShaping) :
  azimuthFromAtan2 collaborators ->
  construct initialState finalState requiredTimeOfFlight numberOfRevolutions
    centralBodyGravitationalParameter initialValueFreeCoefficient rootFinderSettings
    lowerBoundFreeCoefficient upperBoundFreeCoefficient integratorSettings
  = Returns s ->
  0 <= getInitialAzimuthAngle s < 2 * PI
  /\ 2 * PI * IZR numberOfRevolutions
     <= getFinalAzimuthAngle s - getInitialAzimuthAngle s
     < 2 * PI * (IZR numberOfRevolutions + 1).
Proof.
  intros Hrange E.
  destruct (construct_keeps_boundary_angles _ _ _ _ _ _ _ _ _ _ _ E) as (Hi & Hf & _).
  unfold getInitialAzimuthAngle, getFinalAzimuthAngle.
  rewrite Hi, Hf; clear E Hi Hf s.
  unfold initialise; cbn [initialAzimuthAngle_ finalAzimuthAngle_].
  set (initialSpherical := wrapAzimuthAngle (convertCartesianToSphericalState _)).
  set (finalSpherical := wrapAzimuthAngle (convertCartesianToSphericalState _)).
  assert (Hinitial : 0 <= coeff initialSpherical 1 < 2 * PI)
    by (apply wrapAzimuthAngle_range, Hrange).
  assert (Hfinal : 0 <= coeff finalSpherical 1 < 2 * PI)
    by (apply wrapAzimuthAngle_range, Hrange).
  split; [exact Hinitial|].
  apply computeFinalAzimuthAngle_swept; assumption.
Qed.

Lemma final_azimuth_angle_counts_the_revolutions_witness :
  exists s,
    @construct standIn departureState arrivalState 63115200 2
      132712440018000000000 0 someRootFinderSettings (-1) 1 someIntegratorSettings
    = Returns s
    /\ 2 * PI * 2 <= getFinalAzimuthAngle s - getInitialAzimuthAngle s < 2 * PI * (2 + 1).
Proof.
  destruct (standIn_construct_returns 2) as (s & E).
  exists s; split; [exact E|].
  exact (proj2 (final_azimuth_angle_counts_the_revolutions standIn departureState
                  arrivalState 63115200 2 132712440018000000000 0 someRootFinderSettings
                  (-1) 1 someIntegratorSettings s standIn_azimuthFromAtan2 E)).
Defined.

(** ** Sums, and products of matrices with vectors *)

Lemma sumUpTo_ext (f g : nat -> R) (n : nat) :
  (forall k, (k < n)%nat -> f k = g k) -> sumUpTo f n = sumUpTo g n.
Proof.
  revert f g; induction n as [|n IH]; intros f g H; simpl; [reflexivity|].
  rewrite (H O) by lia.
  rewrite (IH (fun k => f (S k)) (fun k => g (S k))); [reflexivity|].
  intros k Hk; apply H; lia.
Qed.

Lemma sumUpTo_zero (n : nat) : sumUpTo (fun _ => 0) n = 0.
Proof. induction n as [|n IH]; simpl; [reflexivity | rewrite IH; ring]. Qed.

Lemma sumUpTo_plus (f g : nat -> R) (n : nat) :
  sumUpTo (fun k => f k + g k) n = sumUpTo f n + sumUpTo g n.
Proof.
  revert f g; induction n as [|n IH]; intros f g; simpl; [ring|].
  rewrite (IH (fun k => f (S k)) (fun k => g (S k))). ring.
Qed.

Lemma sumUpTo_times (c : R) (f : nat -> R) (n : nat) :
  sumUpTo (fun k => c * f k) n = c * sumUpTo f n.
Proof.
  revert f; induction n as [|n IH]; intros f; simpl; [ring|].
  rewrite (IH (fun k => f (S k))). ring.
Qed.

Lemma sumUpTo_exchange (f : nat -> nat -> R) (n m : nat) :
  sumUpTo (fun k => sumUpTo (fun j => f k j) m) n
  = sumUpTo (fun j => sumUpTo (fun k => f k j) n) m.
Proof.
  revert f; induction n as [|n IH]; intros f; simpl.
  - rewrite sumUpTo_zero; reflexivity.
  - rewrite (IH (fun k j => f (S k) j)).
    rewrite <- sumUpTo_plus. reflexivity.
Qed.

Lemma nth_nil (k : nat) : nth k (@nil R) 0 = 0.
Proof. destruct k; reflexivity. Qed.

(** The scalar product of Eigen as a sum over indices. *)
Lemma dot_sumUpTo (u w : VectorXd) (n : nat) :
  (Nat.min (length u) (length w) <= n)%nat ->
  dot u w = sumUpTo (fun k => nth k u 0 * nth k w 0) n.
Proof.
  revert w n; induction u as [|x u IH]; intros w n H.
  - change (dot [] w) with 0.
    rewrite (sumUpTo_ext _ (fun _ => 0)), sumUpTo_zero; [reflexivity|].
    intros k _; rewrite nth_nil; ring.
  - destruct w as [|y w].
    + change (dot (x :: u) []) with 0.
      rewrite (sumUpTo_ext _ (fun _ => 0)), sumUpTo_zero; [reflexivity|].
      intros k _; rewrite (nth_nil k); ring.
    + destruct n as [|n]; [simpl in H; lia|].
      simpl. rewrite (IH w n) by (simpl in H; lia). reflexivity.
Qed.

(** [m * ( b * v )] is [( m * b ) * v], whatever the shapes of [m] and [b]. *)
Lemma matrixVector_matrixVector (m b : MatrixXd) (v : VectorXd) (n : nat) :
  length v = n ->
  matrixVector m (matrixVector b v) = matrixVector (matrixProduct m b n) v.
Proof.
  intros Hv. unfold matrixVector, matrixProduct.
  rewrite map_map. apply map_ext; intros row.
  rewrite (dot_sumUpTo row _ (length row)) by lia.
  rewrite (dot_sumUpTo (map _ (seq 0 n)) v n)
    by (rewrite length_map, length_seq; lia).
  rewrite (sumUpTo_ext _
             (fun k => sumUpTo (fun j => nth k row 0 * (nth j (nth k b []) 0 * nth j v 0)) n)).
  2:{ intros k _.
      replace (nth k (map (fun r => dot r v) b) 0) with (dot (nth k b []) v)
        by (symmetry; exact (map_nth (fun r => dot r v) b [] k)).
      rewrite (dot_sumUpTo (nth k b []) v n) by lia.
      rewrite <- sumUpTo_times. reflexivity. }
  rewrite sumUpTo_exchange.
  apply sumUpTo_ext; intros j Hj.
  replace (nth j (map (fun i => dot row (column b i)) (seq 0 n)) 0)
    with (dot row (column b j)).
  2:{ rewrite (nth_indep _ 0 (dot row (column b 0)))
        by (rewrite length_map, length_seq; exact Hj).
      rewrite (map_nth (fun i => dot row (column b i))), seq_nth by exact Hj.
      reflexivity. }
  rewrite (dot_sumUpTo row (column b j) (length row)) by lia.
  rewrite Rmult_comm, <- sumUpTo_times.
  apply sumUpTo_ext; intros k _.
  replace (nth k (column b j) 0) with (nth j (nth k b []) 0); [ring|].
  unfold column. rewrite <- (nth_nil j) at 2.
  symmetry; exact (map_nth (fun r => nth j r 0) b [] k).
Qed.

Lemma matrixVector_Identity (v : VectorXd) :
  length v = 10%nat -> matrixVector (Identity 10) v = v.
Proof.
  intros Hv.
  destruct v as [|v0 [|v1 [|v2 [|v3 [|v4 [|v5 [|v6 [|v7 [|v8 [|v9 [|v10 tl]]]]]]]]]]];
    try discriminate Hv.
  unfold matrixVector, Identity; simpl.
  repeat (apply (f_equal2 (@cons R)); [ring|]). reflexivity.
Qed.

Lemma vectorAdd_vectorSubtract (b w : VectorXd) :
  length b = length w -> vectorAdd (vectorSubtract b w) w = b.
Proof.
  revert w; induction b as [|x b IH]; intros [|y w] H; simpl in *; try discriminate;
    [reflexivity|].
  rewrite IH by lia. f_equal. ring.
Qed.

(** ** The boundary conditions *)

Lemma boundaryMatrixOf_rows {collaborators : Collaborators} (s : ExposinsShaping)
    (row : VectorXd) :
  In row (boundaryMatrixOf s) -> length row = 10%nat.
Proof.
  unfold boundaryMatrixOf, matrixBoundaryConditions, forLoop. simpl.
  intros H. repeat (destruct H as [<-|H]; [reflexivity|]). contradiction.
Qed.

(** A matrix with rows of ten entries sees the first ten entries of a
    vector only, and zeros where the vector is shorter. *)
Lemma matrixVector_first_ten (m : MatrixXd) (c : VectorXd) :
  (forall row, In row m -> length row = 10%nat) ->
  matrixVector m
    [coeff c 0; coeff c 1; coeff c 2; coeff c 3; coeff c 4; coeff c 5; coeff c 6;
     coeff c 7; coeff c 8; coeff c 9]
  = matrixVector m c.
Proof.
  intros Hrows. unfold matrixVector. apply map_ext_in; intros row Hin.
  rewrite (dot_sumUpTo row _ 10), (dot_sumUpTo row c 10)
    by (rewrite (Hrows row Hin); lia).
  apply sumUpTo_ext; intros k Hk.
  do 10 (destruct k as [|k]; [reflexivity|]). lia.
Qed.

(** X2: when the inversion routine returns a right inverse of the boundary
    matrix, the coefficients that [satisfyBoundaryConditions] installs solve
    the ten boundary equations: the boundary matrix times the dependent
    coefficients, plus the free coefficient times the column of its basis
    term, is the vector of boundary values. *)
Theorem boundary_equations_hold_for_a_right_inverse
    (collaborators : Collaborators) (s : ExposinsShaping) :
  coefficientSizesMatch s ->
  matrixProduct (boundaryMatrixOf s) (inverse (boundaryMatrixOf s)) 10 = Identity 10 ->
  exists s',
    satisfyBoundaryConditions s = Returns (tt, s')
    /\ vectorAdd
         (matrixVector (boundaryMatrixOf s') (dependentCoefficients s'))
         (scale (coeff (coefficientsRadialDistanceFunction_ s') 2)
            (freeCoefficientColumn s'))
       = vectorBoundaryValues s'.
Proof.
  intros Hs Hinverse.
  eexists; split; [apply satisfyBoundaryConditions_returns; apply Hs|].
  set (c := compositeFunctionCoefficients s).
  change (vectorAdd
            (matrixVector (boundaryMatrixOf s)
               [coeff c 0; coeff c 1; coeff c 2; coeff c 3; coeff c 4; coeff c 5;
                coeff c 6; coeff c 7; coeff c 8; coeff c 9])
            (scale (initialValueFreeCoefficient_ s) (freeCoefficientColumn s))
          = vectorBoundaryValues s).
  rewrite matrixVector_first_ten by apply boundaryMatrixOf_rows.
  unfold c, compositeFunctionCoefficients, computeInverseMatrixBoundaryConditions.
  fold (boundaryMatrixOf s).
  rewrite (matrixVector_matrixVector _ _ _ 10) by reflexivity.
  rewrite Hinverse, matrixVector_Identity by reflexivity.
  apply vectorAdd_vectorSubtract. reflexivity.
Qed.

Lemma hatObject_boundary :
  initialAzimuthAngle_ hatObject = 0
  /\ finalAzimuthAngle_ hatObject = 1
  /\ coeff (initialStateSphericalCoordinates_ hatObject) 0 = 1
  /\ coeff (finalStateSphericalCoordinates_ hatObject) 0 = 1.
Proof.
  unfold hatObject, initialise.
  cbn [initialAzimuthAngle_ finalAzimuthAngle_ initialStateSphericalCoordinates_
       finalStateSphericalCoordinates_ convertCartesianToSphericalState hatBasis
       ASTRONOMICAL_UNIT JULIAN_YEAR].
  rewrite !wrapAzimuthAngle_not_negative by (unfold coeff; simpl; lra).
  unfold computeFinalAzimuthAngle.
  match goal with
  | |- context [Rlt_dec ?x 0] => destruct (Rlt_dec x 0) as [Hneg|_]
  end.
  - exfalso; revert Hneg; unfold coeff; simpl; lra.
  - unfold coeff; simpl. repeat split; lra.
Qed.

(** Between the azimuth angles 0 and 1 and for boundary radii of 1, the
    boundary matrix of the second stand-in is the identity. *)
Lemma hatBasis_boundary_matrix (s : ExposinsShaping) :
  initialAzimuthAngle_ s = 0 ->
  finalAzimuthAngle_ s = 1 ->
  coeff (initialStateSphericalCoordinates_ s) 0 = 1 ->
  coeff (finalStateSphericalCoordinates_ s) 0 = 1 ->
  @boundaryMatrixOf hatBasis s = Identity 10.
Proof.
  intros Hi Hf Hri Hrf.
  unfold boundaryMatrixOf, matrixBoundaryConditions, forLoop.
  rewrite Hi, Hf, Hri, Hrf.
  generalize (computeInitialAlphaValue s) (computeFinalAlphaValue s).
  intros initialValueAlpha finalValueAlpha.
  unfold Identity, std.pow; simpl.
  repeat (apply (f_equal2 (@cons _)));
    solve [reflexivity | ring].
Qed.

Lemma Identity_squared : matrixProduct (Identity 10) (Identity 10) 10 = Identity 10.
Proof.
  unfold matrixProduct, Identity, column; simpl.
  repeat (apply (f_equal2 (@cons _)));
    solve [reflexivity | ring].
Qed.

Lemma boundary_equations_hold_for_a_right_inverse_witness :
  exists s',
    @satisfyBoundaryConditions hatBasis hatObject = Returns (tt, s')
    /\ vectorAdd
         (matrixVector (@boundaryMatrixOf hatBasis s') (dependentCoefficients s'))
         (scale (coeff (coefficientsRadialDistanceFunction_ s') 2)
            (@freeCoefficientColumn hatBasis s'))
       = vectorBoundaryValues s'.
Proof.
  apply (boundary_equations_hold_for_a_right_inverse hatBasis hatObject).
  - exact (initialise_sizes _ _ _ _ _ _ _ _ _ _).
  - destruct hatObject_boundary as (Hi & Hf & Hri & Hrf).
    rewrite (hatBasis_boundary_matrix hatObject Hi Hf Hri Hrf).
    exact Identity_squared.
Defined.

(** X3: the boundary-value solve is idempotent and forgets the coefficients
    it finds: on the object it has left, and on the object it started from
    with any other entries in the two coefficient vectors, it leaves the
    same object again.  What it installs depends on the boundary states, the
    azimuth angles and the free coefficient only. *)
Theorem satisfyBoundaryConditions_is_idempotent
    (collaborators : Collaborators) (s s' : ExposinsShaping) :
  coefficientSizesMatch s ->
  satisfyBoundaryConditions s = Returns (tt, s') ->
  satisfyBoundaryConditions s' = Returns (tt, s')
  /\ forall radial elevation : VectorXd,
       length radial = 7%nat -> length elevation = 4%nat ->
       satisfyBoundaryConditions
         (set_coefficientsElevationAngleFunction_ elevation
            (set_coefficientsRadialDistanceFunction_ radial s))
       = Returns (tt, s').
Proof.
  intros Hs E.
  split.
  - exact (proj1 (proj2 (satisfyBoundaryConditions_fixed_point s s' (proj1 Hs)
                           (proj1 (proj2 Hs)) E))).
  - rewrite (satisfyBoundaryConditions_returns s (proj1 Hs) (proj1 (proj2 Hs))) in E.
    inversion E; subst s'; clear E.
    intros radial elevation Hr He.
    rewrite satisfyBoundaryConditions_returns by assumption. reflexivity.
Qed.

Lemma satisfyBoundaryConditions_is_idempotent_witness :
  exists s',
    @satisfyBoundaryConditions standIn (exampleObject 0) = Returns (tt, s')
    /\ @satisfyBoundaryConditions standIn s' = Returns (tt, s').
Proof.
  destruct (@satisfyBoundaryConditions standIn (exampleObject 0)) as [[[] s']|e] eqn:E.
  - exists s'; split; [reflexivity|].
    exact (proj1 (satisfyBoundaryConditions_is_idempotent standIn (exampleObject 0) s'
                    (initialise_sizes _ _ _ _ _ _ _ _ _ _) E)).
  - exfalso.
    rewrite (@satisfyBoundaryConditions_returns standIn (exampleObject 0) eq_refl eq_refl) in E.
    discriminate E.
Defined.

(** ** The quadratures of the time integrand *)

(** An exception that leaves a quadrature was raised by the integrand at one
    of the nodes. *)
Lemma getQuadrature_throws (integrand : R -> Outcome R) (nodes : list (R * R))
    (e : exception) :
  getQuadrature integrand nodes = Throws e ->
  exists abscissa weight, In (abscissa, weight) nodes /\ integrand abscissa = Throws e.
Proof.
  induction nodes as [|[abscissa weight] rest IH]; simpl; intros H; [discriminate|].
  destruct (integrand abscissa) as [value|e'] eqn:E; simpl in H.
  - destruct (getQuadrature integrand rest) as [sum|e''] eqn:E'; simpl in H;
      [discriminate|].
    destruct (IH H) as (a & w & Hin & Ha).
    exists a, w; split; [right; exact Hin | exact Ha].
  - inversion H; subst e'.
    exists abscissa, weight; split; [left; reflexivity | exact E].
Qed.

(** X4: the three queries of the elapsed time share one integrand and one
    rule: [convertIndependentVariableToTime] and
    [computeCurrentTimeFromAzimuthAngle] agree at every angle, and
    [computeNormalizedTimeOfFlight] is their value at the final azimuth
    angle.  Such a query returns exactly when the radicand of the time
    equation is not negative at any node of the rule, and the only error it
    raises is the infeasible-trajectory error. *)
Theorem time_queries_return_exactly_when_feasible
    (collaborators : Collaborators) (s : ExposinsShaping) (currentAzimuthAngle : R) :
  convertIndependentVariableToTime s currentAzimuthAngle
  = computeCurrentTimeFromAzimuthAngle s currentAzimuthAngle
  /\ computeNormalizedTimeOfFlight s
     = computeCurrentTimeFromAzimuthAngle s (getFinalAzimuthAngle s)
  /\ ((exists time, computeCurrentTimeFromAzimuthAngle s currentAzimuthAngle = Returns time)
      <-> (forall angle weight,
             In (angle, weight) (quadratureNodes s currentAzimuthAngle) ->
             0 <= computeScalarFunctionTimeEquation s angle))
  /\ (forall e,
        computeCurrentTimeFromAzimuthAngle s currentAzimuthAngle = Throws e ->
        e = infeasibleTrajectory).
Proof.
  split; [reflexivity | split; [reflexivity | split; [split|]]].
  - intros (time & E) angle weight Hin.
    destruct (Rlt_dec (computeScalarFunctionTimeEquation s angle) 0) as [Hneg|Hpos];
      [|lra].
    unfold computeCurrentTimeFromAzimuthAngle, integrate in E.
    unfold quadratureNodes in Hin.
    rewrite (time_quadrature_throws_when_infeasible s _ angle weight Hin Hneg) in E.
    discriminate E.
  - intros Hfeasible.
    unfold computeCurrentTimeFromAzimuthAngle, integrate.
    apply getQuadrature_returns; intros angle weight Hin.
    unfold derivativeTimeFunction.
    destruct (Rlt_dec (computeScalarFunctionTimeEquation s angle) 0) as [Hneg|_].
    + pose proof (Hfeasible angle weight Hin). lra.
    + eexists; reflexivity.
  - intros e E.
    unfold computeCurrentTimeFromAzimuthAngle, integrate in E.
    destruct (getQuadrature_throws _ _ _ E) as (angle & weight & _ & Ha).
    exact (derivativeTimeFunction_throws_infeasible s angle e Ha).
Qed.

Lemma getQuadrature_not_negative_on_the_nodes (integrand : R -> Outcome R)
    (nodes : list (R * R)) (result : R) :
  (forall abscissa weight, In (abscissa, weight) nodes -> 0 <= weight) ->
  (forall abscissa weight value,
     In (abscissa, weight) nodes -> integrand abscissa = Returns value -> 0 <= value) ->
  getQuadrature integrand nodes = Returns result ->
  0 <= result.
Proof.
  intros Hweights Hvalues. revert result.
  induction nodes as [|[abscissa weight] rest IH]; simpl; intros result H.
  - inversion H; lra.
  - destruct (integrand abscissa) as [value|e] eqn:E; simpl in H; [|discriminate].
    destruct (getQuadrature integrand rest) as [sum|e] eqn:E'; simpl in H; [|discriminate].
    inversion H; subst result.
    assert (0 <= weight) by (apply (Hweights abscissa); left; reflexivity).
    assert (0 <= value) by (apply (Hvalues abscissa weight); [left; reflexivity | exact E]).
    assert (0 <= sum).
    { apply IH; [| |reflexivity].
      - intros a w Hin; apply (Hweights a); right; exact Hin.
      - intros a w v Hin; apply (Hvalues a w); right; exact Hin. }
    nra.
Qed.

Lemma norm_not_negative (v : VectorXd) : 0 <= norm v.
Proof. unfold norm, std.sqrt. apply sqrt_pos. Qed.

Lemma exampleObject_gravitational_parameter (numberOfRevolutions : Z) :
  0 < centralBodyGravitationalParameter_ (exampleObject numberOfRevolutions).
Proof.
  unfold exampleObject, initialise, std.pow; simpl.
  apply Rdiv_lt_0_compat; lra.
Qed.

(** X5: take positive values of the astronomical unit, of the Julian year
    and of the gravitational parameter, and an object for which, at every
    node of the quadrature rule up to the final azimuth angle, the weight is
    not negative, the radicand of the time equation is positive and the
    radial distance is not zero.  Then [computeTimeOfFlight] and
    [computeDeltaV] return, and the values they return are not negative. *)
Theorem time_of_flight_and_deltaV_are_not_negative
    (collaborators : Collaborators) (s : ExposinsShaping) :
  0 < ASTRONOMICAL_UNIT ->
  0 < JULIAN_YEAR ->
  0 < centralBodyGravitationalParameter_ s ->
  (forall angle weight,
     In (angle, weight) (quadratureNodes s (getFinalAzimuthAngle s)) ->
     0 <= weight
     /\ 0 < computeScalarFunctionTimeEquation s angle
     /\ evaluateCompositeFunction radialFunction (radialDistanceCompositeFunction_ s) angle
        <> 0) ->
  (exists timeOfFlight, computeTimeOfFlight s = Returns timeOfFlight /\ 0 <= timeOfFlight)
  /\ (exists deltaV, computeDeltaV s = Returns deltaV /\ 0 <= deltaV).
Proof.
  intros Hau Hyear Hmu Hnodes.
  assert (Hweights : forall angle weight,
             In (angle, weight) (quadratureNodes s (getFinalAzimuthAngle s)) -> 0 <= weight)
    by (intros angle weight Hin; apply (Hnodes angle weight Hin)).
  assert (Hroot : forall angle weight,
             In (angle, weight) (quadratureNodes s (getFinalAzimuthAngle s)) ->
             0 < computeScalarFunctionTimeEquation s angle
                 * std.pow (evaluateCompositeFunction radialFunction
                              (radialDistanceCompositeFunction_ s) angle) 2
                 / centralBodyGravitationalParameter_ s).
  { intros angle weight Hin. destruct (Hnodes angle weight Hin) as (_ & Hpos & Hradius).
    apply Rdiv_lt_0_compat; [|exact Hmu].
    apply Rmult_lt_0_compat; [exact Hpos|].
    unfold std.pow; simpl. rewrite Rmult_1_r. exact (Rsqr_pos_lt _ Hradius). }
  split.
  - destruct (getQuadrature_returns (derivativeTimeFunction s)
                (quadratureNodes s (getFinalAzimuthAngle s))) as (normalized & E).
    { intros angle weight Hin. unfold derivativeTimeFunction.
      destruct (Rlt_dec (computeScalarFunctionTimeEquation s angle) 0) as [Hneg|_];
        [|eexists; reflexivity].
      destruct (Hnodes angle weight Hin) as (_ & Hpos & _). lra. }
    exists (normalized * JULIAN_YEAR). split.
    + unfold computeTimeOfFlight, computeNormalizedTimeOfFlight,
        computeCurrentTimeFromAzimuthAngle, integrate.
      unfold quadratureNodes, getFinalAzimuthAngle in E. rewrite E. reflexivity.
    + assert (0 <= normalized); [|nra].
      refine (getQuadrature_not_negative_on_the_nodes _ _ _ Hweights _ E).
      intros angle weight value Hin. unfold derivativeTimeFunction.
      destruct (Rlt_dec (computeScalarFunctionTimeEquation s angle) 0); intros Hv;
        inversion Hv.
      unfold std.sqrt. apply Rlt_le, sqrt_lt_R0, (Hroot angle weight Hin).
  - destruct (getQuadrature_returns (derivativeFunctionDeltaV s)
                (quadratureNodes s (getFinalAzimuthAngle s))) as (quadrature & E).
    { intros angle weight _. eexists; reflexivity. }
    exists (quadrature * ASTRONOMICAL_UNIT / JULIAN_YEAR). split.
    + unfold computeDeltaV, integrate.
      unfold quadratureNodes, getFinalAzimuthAngle in E. rewrite E. reflexivity.
    + assert (Hq : 0 <= quadrature).
      { refine (getQuadrature_not_negative_on_the_nodes _ _ _ Hweights _ E).
        intros angle weight value Hin Hv. unfold derivativeFunctionDeltaV in Hv.
        inversion Hv.
        apply Rmult_le_pos; [apply norm_not_negative|].
        unfold std.sqrt. apply Rlt_le, sqrt_lt_R0, (Hroot angle weight Hin). }
      apply Rmult_le_pos; [nra|].
      apply Rlt_le, Rinv_0_lt_compat, Hyear.
Qed.

Lemma time_of_flight_and_deltaV_are_not_negative_witness :
  (exists timeOfFlight,
     @computeTimeOfFlight standIn (exampleObject 1) = Returns timeOfFlight
     /\ 0 <= timeOfFlight)
  /\ (exists deltaV,
        @computeDeltaV standIn (exampleObject 1) = Returns deltaV /\ 0 <= deltaV).
Proof.
  apply (time_of_flight_and_deltaV_are_not_negative standIn (exampleObject 1)).
  - simpl; lra.
  - simpl; lra.
  - apply exampleObject_gravitational_parameter.
  - intros angle weight Hin.
    destruct (exampleObject_azimuth_angles 1) as (Hi & Hf).
    unfold quadratureNodes, getFinalAzimuthAngle in Hin.
    cbn [gaussianQuadratureNodes standIn] in Hin.
    destruct Hin as [Hin|[]].
    apply (f_equal snd) in Hin; cbn [snd] in Hin. rewrite <- Hin.
    change (quadratureLowerBound (quadratureSettings_ (exampleObject 1)))
      with (initialAzimuthAngle_ (exampleObject 1)).
    rewrite Hi, Hf. pose proof PI_RGT_0.
    split; [lra | split].
    + rewrite standIn_time_equation.
      change (coeff (compositeFunctionCoefficients_
                       (radialDistanceCompositeFunction_ (exampleObject 1))) 2) with 1.
      lra.
    + unfold evaluateCompositeFunction, radialFunction; simpl. lra.
Defined.

(** ** Kinematics *)

(** X6: where the radicand of the time equation and the gravitational
    parameter are positive and the radial distance is not zero, the time
    integrand is the reciprocal of the rate of the azimuth angle: the product
    of [computeFirstDerivativeAzimuthAngleWrtTime] and of the integrand of
    the time quadratures is 1. *)
Theorem azimuth_rate_times_time_integrand_is_one
    (collaborators : Collaborators) (s : ExposinsShaping) (currentAzimuthAngle : R) :
  0 < centralBodyGravitationalParameter_ s ->
  0 < computeScalarFunctionTimeEquation s currentAzimuthAngle ->
  evaluateCompositeFunction radialFunction (radialDistanceCompositeFunction_ s)
    currentAzimuthAngle <> 0 ->
  exists derivativeOfTime,
    derivativeTimeFunction s currentAzimuthAngle = Returns derivativeOfTime
    /\ computeFirstDerivativeAzimuthAngleWrtTime s currentAzimuthAngle * derivativeOfTime = 1.
Proof.
  intros Hmu Hradicand Hradius.
  unfold derivativeTimeFunction, computeFirstDerivativeAzimuthAngleWrtTime.
  destruct (Rlt_dec (computeScalarFunctionTimeEquation s currentAzimuthAngle) 0) as [Hneg|_];
    [lra|].
  eexists; split; [reflexivity|].
  set (radicand := computeScalarFunctionTimeEquation s currentAzimuthAngle) in *.
  set (radius := evaluateCompositeFunction radialFunction
                   (radialDistanceCompositeFunction_ s) currentAzimuthAngle) in *.
  set (mu := centralBodyGravitationalParameter_ s) in *.
  assert (Hsquare : 0 < radicand * std.pow radius 2).
  { unfold std.pow; simpl. apply Rmult_lt_0_compat; [exact Hradicand | nra]. }
  set (square := radicand * std.pow radius 2) in *.
  unfold std.sqrt. rewrite <- sqrt_mult.
  - replace (mu / square * (square / mu)) with 1 by (field; split; lra).
    apply sqrt_1.
  - apply Rlt_le, Rdiv_lt_0_compat; assumption.
  - apply Rlt_le, Rdiv_lt_0_compat; assumption.
Qed.

Lemma exampleObject_time_equation (numberOfRevolutions : Z) (currentAzimuthAngle : R) :
  @computeScalarFunctionTimeEquation standIn (exampleObject numberOfRevolutions)
    currentAzimuthAngle = 1.
Proof.
  rewrite standIn_time_equation.
  change (coeff (compositeFunctionCoefficients_
                   (radialDistanceCompositeFunction_ (exampleObject numberOfRevolutions))) 2)
    with 1.
  lra.
Qed.

Lemma azimuth_rate_times_time_integrand_is_one_witness :
  exists derivativeOfTime,
    @derivativeTimeFunction standIn (exampleObject 0) 0 = Returns derivativeOfTime
    /\ @computeFirstDerivativeAzimuthAngleWrtTime standIn (exampleObject 0) 0
       * derivativeOfTime = 1.
Proof.
  apply (azimuth_rate_times_time_integrand_is_one standIn (exampleObject 0) 0).
  - apply exampleObject_gravitational_parameter.
  - rewrite exampleObject_time_equation. lra.
  - unfold evaluateCompositeFunction, radialFunction; simpl. lra.
Defined.

Lemma dot_self_not_negative (v : VectorXd) : 0 <= dot v v.
Proof. induction v as [|x v IH]; simpl; [lra | nra]. Qed.

Lemma dot_map_times (c : R) (v : VectorXd) :
  dot (map (fun x => x * c) v) (map (fun x => x * c) v) = c * c * dot v v.
Proof. induction v as [|x v IH]; simpl; [ring | rewrite IH; ring]. Qed.

Lemma norm_map_times (c : R) (v : VectorXd) :
  0 <= c -> norm (map (fun x => x * c) v) = c * norm v.
Proof.
  intros Hc. unfold norm, std.sqrt.
  rewrite dot_map_times, sqrt_mult by (try apply dot_self_not_negative; nra).
  rewrite sqrt_square by exact Hc. reflexivity.
Qed.

(** X7: for positive values of the astronomical unit and of the Julian
    year, [computeCurrentThrustAccelerationMagnitude] is the Euclidean norm
    of [computeCurrentThrustAccelerationVector]. *)
Theorem thrust_magnitude_is_the_norm_of_the_thrust_vector
    (collaborators : Collaborators) (s : ExposinsShaping) (currentAzimuthAngle : R) :
  0 < ASTRONOMICAL_UNIT ->
  0 < JULIAN_YEAR ->
  computeCurrentThrustAccelerationMagnitude s currentAzimuthAngle
  = norm (computeCurrentThrustAccelerationVector s currentAzimuthAngle).
Proof.
  intros Hau Hyear.
  unfold computeCurrentThrustAccelerationMagnitude, computeCurrentThrustAccelerationVector,
    divide, scale.
  rewrite map_map.
  assert (Hsquare : 0 < std.pow JULIAN_YEAR 2) by (unfold std.pow; simpl; nra).
  rewrite (map_ext _ (fun x => x * (ASTRONOMICAL_UNIT / std.pow JULIAN_YEAR 2)))
    by (intros x; unfold Rdiv; ring).
  rewrite norm_map_times.
  - unfold Rdiv; ring.
  - apply Rlt_le, Rdiv_lt_0_compat; assumption.
Qed.

Lemma thrust_magnitude_is_the_norm_of_the_thrust_vector_witness :
  @computeCurrentThrustAccelerationMagnitude standIn (exampleObject 0) 0
  = norm (@computeCurrentThrustAccelerationVector standIn (exampleObject 0) 0).
Proof.
  apply (thrust_magnitude_is_the_norm_of_the_thrust_vector standIn (exampleObject 0) 0);
    simpl; lra.
Defined.

(** X8: where the normalized thrust acceleration is not zero,
    [computeCurrentThrustAccelerationDirection] is a unit vector, and scaled
    by [computeCurrentThrustAccelerationMagnitude] it gives
    [computeCurrentThrustAccelerationVector]. *)
Theorem thrust_direction_times_magnitude_is_the_thrust_vector
    (collaborators : Collaborators) (s : ExposinsShaping) (currentAzimuthAngle : R) :
  norm (computeNormalizedThrustAccelerationVector s currentAzimuthAngle) <> 0 ->
  norm (computeCurrentThrustAccelerationDirection s currentAzimuthAngle) = 1
  /\ scale (computeCurrentThrustAccelerationMagnitude s currentAzimuthAngle)
       (computeCurrentThrustAccelerationDirection s currentAzimuthAngle)
     = computeCurrentThrustAccelerationVector s currentAzimuthAngle.
Proof.
  intros Hnorm.
  unfold computeCurrentThrustAccelerationDirection, computeCurrentThrustAccelerationMagnitude,
    computeCurrentThrustAccelerationVector, normalized, divide, scale.
  set (v := computeNormalizedThrustAccelerationVector s currentAzimuthAngle) in *.
  assert (Hpositive : 0 < norm v) by (pose proof (norm_not_negative v); lra).
  split.
  - rewrite (map_ext _ (fun x => x * / norm v)) by (intros x; reflexivity).
    rewrite norm_map_times by (apply Rlt_le, Rinv_0_lt_compat, Hpositive).
    apply Rinv_l, Hnorm.
  - rewrite !map_map. apply map_ext; intros x.
    unfold Rdiv.
    replace (x * / norm v * (norm v * ASTRONOMICAL_UNIT * / std.pow JULIAN_YEAR 2))
      with (x * ASTRONOMICAL_UNIT * / std.pow JULIAN_YEAR 2 * (/ norm v * norm v)) by ring.
    rewrite Rinv_l by exact Hnorm. ring.
Qed.

Lemma hatObject_azimuth_rate :
  0 < @computeFirstDerivativeAzimuthAngleWrtTime hatBasis hatObject 0.
Proof.
  unfold computeFirstDerivativeAzimuthAngleWrtTime, std.sqrt.
  apply sqrt_lt_R0.
  unfold computeScalarFunctionTimeEquation, evaluateCompositeFunction,
    evaluateCompositeFunctionFirstDerivative, evaluateCompositeFunctionSecondDerivative,
    radialFunction, elevationFunction, std.pow; simpl.
  rewrite sin_0, cos_0.
  match goal with |- 0 < ?x => replace x with 4 by field end.
  lra.
Qed.

Lemma hatObject_thrust_not_zero :
  norm (@computeNormalizedThrustAccelerationVector hatBasis hatObject 0) <> 0.
Proof.
  pose proof hatObject_azimuth_rate as Hrate.
  unfold computeNormalizedThrustAccelerationVector.
  cbn [convertSphericalToCartesianState hatBasis].
  unfold computeThrustAccelerationInSphericalCoordinates,
    computePositionVectorInSphericalCoordinates,
    computeCurrentVelocityParametrizedByAzimuthAngle,
    computeCurrentAccelerationParametrizedByAzimuthAngle,
    evaluateCompositeFunction, evaluateCompositeFunctionFirstDerivative,
    evaluateCompositeFunctionSecondDerivative, radialFunction, elevationFunction.
  cbn [CompositeRadialFunctionExposinsShaping CompositeElevationFunctionExposinsShaping
       hatBasis compositeValue compositeFirstDerivative compositeSecondDerivative
       hatRadialFunction hatElevationFunction].
  unfold fromSegments, assignSegment, segment, scalarTimes; simpl.
  rewrite sin_0, cos_0.
  set (rate := @computeFirstDerivativeAzimuthAngleWrtTime hatBasis hatObject 0) in *.
  match goal with
  | |- norm [?a; ?b; ?c] <> 0 =>
      assert (Hc : 0 < c) by nra; generalize dependent c; generalize a b
  end.
  intros a b c Hc.
  apply Rgt_not_eq. unfold norm, std.sqrt. apply sqrt_lt_R0. simpl. nra.
Qed.

Lemma thrust_direction_times_magnitude_is_the_thrust_vector_witness :
  norm (@computeCurrentThrustAccelerationDirection hatBasis hatObject 0) = 1
  /\ scale (@computeCurrentThrustAccelerationMagnitude hatBasis hatObject 0)
       (@computeCurrentThrustAccelerationDirection hatBasis hatObject 0)
     = @computeCurrentThrustAccelerationVector hatBasis hatObject 0.
Proof.
  exact (thrust_direction_times_magnitude_is_the_thrust_vector hatBasis hatObject 0
           hatObject_thrust_not_zero).
Defined.

(** X9: the spherical state that the object computes at an azimuth angle,
    parametrized by the azimuth angle in the way the constructor parametrizes
    the two boundary states, is the position followed by the derivatives of
    the shape with respect to the azimuth angle; the rate of the azimuth
    angle that the constructor's formula reads off the state is
    [computeFirstDerivativeAzimuthAngleWrtTime].  This holds where that rate
    is not zero and the state is not on the polar axis. *)
Theorem shaped_state_parametrized_by_azimuth_angle
    (collaborators : Collaborators) (s : ExposinsShaping) (currentAzimuthAngle : R) :
  computeFirstDerivativeAzimuthAngleWrtTime s currentAzimuthAngle <> 0 ->
  evaluateCompositeFunction radialFunction (radialDistanceCompositeFunction_ s)
    currentAzimuthAngle
  * cos (evaluateCompositeFunction elevationFunction (elevationAngleCompositeFunction_ s)
           currentAzimuthAngle) <> 0 ->
  let state := computeStateVectorInSphericalCoordinates s currentAzimuthAngle in
  coeff state 4 / (coeff state 0 * cos (coeff state 2))
  = computeFirstDerivativeAzimuthAngleWrtTime s currentAzimuthAngle
  /\ parametrizeByAzimuthAngle state
     = fromSegments (computePositionVectorInSphericalCoordinates s currentAzimuthAngle)
         (computeCurrentVelocityParametrizedByAzimuthAngle s currentAzimuthAngle).
Proof.
  intros Hrate Hplane state. unfold state; clear state.
  unfold parametrizeByAzimuthAngle, computeStateVectorInSphericalCoordinates,
    computeVelocityVectorInSphericalCoordinates,
    computePositionVectorInSphericalCoordinates,
    computeCurrentVelocityParametrizedByAzimuthAngle.
  set (rate := computeFirstDerivativeAzimuthAngleWrtTime s currentAzimuthAngle) in *.
  set (radius := evaluateCompositeFunction radialFunction _ _) in *.
  set (elevation := evaluateCompositeFunction elevationFunction _ _) in *.
  set (radiusDerivative := evaluateCompositeFunctionFirstDerivative radialFunction _ _).
  set (elevationDerivative := evaluateCompositeFunctionFirstDerivative elevationFunction _ _).
  assert (Hradius : radius <> 0) by (intros E; apply Hplane; rewrite E; ring).
  assert (Hcos : cos elevation <> 0) by (intros E; apply Hplane; rewrite E; ring).
  unfold fromSegments, assignSegment, segment, scalarTimes, coeff; simpl.
  split; [field; split; assumption|].
  repeat (apply (f_equal2 (@cons R));
          [try reflexivity; field; repeat split; assumption|]).
  reflexivity.
Qed.

Lemma exampleObject_azimuth_rate :
  0 < @computeFirstDerivativeAzimuthAngleWrtTime standIn (exampleObject 0) 0.
Proof.
  unfold computeFirstDerivativeAzimuthAngleWrtTime, std.sqrt.
  apply sqrt_lt_R0.
  rewrite exampleObject_time_equation.
  apply Rdiv_lt_0_compat; [apply exampleObject_gravitational_parameter|].
  unfold evaluateCompositeFunction, radialFunction, std.pow; simpl. lra.
Qed.

Lemma shaped_state_parametrized_by_azimuth_angle_witness :
  @parametrizeByAzimuthAngle
    (@computeStateVectorInSphericalCoordinates standIn (exampleObject 0) 0)
  = fromSegments (@computePositionVectorInSphericalCoordinates standIn (exampleObject 0) 0)
      (@computeCurrentVelocityParametrizedByAzimuthAngle standIn (exampleObject 0) 0).
Proof.
  refine (proj2 (shaped_state_parametrized_by_azimuth_angle standIn (exampleObject 0) 0
                   _ _)).
  - apply Rgt_not_eq, exampleObject_azimuth_rate.
  - unfold evaluateCompositeFunction, radialFunction, elevationFunction; simpl.
    rewrite cos_0. lra.
Defined.

(** ** Physical and normalized units *)

(** The constructed object holds the normalized inputs that the
    constructor computes before its first method call. *)
Lemma construct_keeps_normalized_inputs {collaborators : Collaborators}
    (initialState finalState : Vector6d) (requiredTimeOfFlight : R)
    (numberOfRevolutions : Z)
    (centralBodyGravitationalParameter initialValueFreeCoefficient : R)
    (rootFinderSettings : RootFinderSettings)
    (lowerBoundFreeCoefficient upperBoundFreeCoefficient : R)
    (integratorSettings : IntegratorSettings) (s : ExposinsShaping) :
  construct initialState finalState requiredTimeOfFlight numberOfRevolutions
    centralBodyGravitationalParameter initialValueFreeCoefficient rootFinderSettings
    lowerBoundFreeCoefficient upperBoundFreeCoefficient integratorSettings
  = Returns s ->
  let first :=
    initialise initialState finalState requiredTimeOfFlight numberOfRevolutions
      centralBodyGravitationalParameter initialValueFreeCoefficient rootFinderSettings
      lowerBoundFreeCoefficient upperBoundFreeCoefficient integratorSettings in
  initialState_ s = initialState_ first
  /\ finalState_ s = finalState_ first
  /\ requiredTimeOfFlight_ s = requiredTimeOfFlight / JULIAN_YEAR
  /\ centralBodyGravitationalParameter_ s = centralBodyGravitationalParameter_ first.
Proof.
  intros E first.
  refine (construct_establishes _ _ _ _ _ _ _ _ _
            (fun s' => initialState_ s' = initialState_ first
                       /\ finalState_ s' = finalState_ first
                       /\ requiredTimeOfFlight_ s' = requiredTimeOfFlight / JULIAN_YEAR
                       /\ centralBodyGravitationalParameter_ s'
                          = centralBodyGravitationalParameter_ first)
            _ _ _ _ _ _ E).
  - repeat split.
  - frame.
  - unfold independentOfSetup; frame.
  - apply satisfyBoundaryConditions_frame; unfold independentOfCoefficients; frame.
Qed.

(** X10: the queries undo the normalization of the constructor.  For
    non-zero values of the astronomical unit and of the Julian year and
    boundary states of six entries, at an azimuth angle where the normalized
    state of the shape is the normalized departure state that the object
    holds, [computeCurrentStateVector] returns the departure state that was
    given to the constructor, in its units; likewise for the arrival state. *)
Theorem boundary_states_come_back_in_physical_units
    (collaborators : Collaborators)
    (initialState finalState : Vector6d) (requiredTimeOfFlight : R)
    (numberOfRevolutions : Z)
    (centralBodyGravitationalParameter initialValueFreeCoefficient : R)
    (rootFinderSettings : RootFinderSettings)
    (lowerBoundFreeCoefficient upperBoundFreeCoefficient : R)
    (integratorSettings : IntegratorSettings) (s : ExposinsShaping)
    (currentAzimuthAngle : R) :
  ASTRONOMICAL_UNIT <> 0 ->
  JULIAN_YEAR <> 0 ->
  length initialState = 6%nat ->
  length finalState = 6%nat ->
  construct initialState finalState requiredTimeOfFlight numberOfRevolutions
    centralBodyGravitationalParameter initialValueFreeCoefficient rootFinderSettings
    lowerBoundFreeCoefficient upperBoundFreeCoefficient integratorSettings
  = Returns s ->
  (computeNormalizedStateVector s currentAzimuthAngle = initialState_ s ->
   computeCurrentStateVector s currentAzimuthAngle = initialState)
  /\ (computeNormalizedStateVector s currentAzimuthAngle = finalState_ s ->
      computeCurrentStateVector s currentAzimuthAngle = finalState).
Proof.
  intros Hau Hyear Hinitial Hfinal E.
  destruct (construct_keeps_normalized_inputs _ _ _ _ _ _ _ _ _ _ _ E) as (Hi & Hf & _).
  unfold computeCurrentStateVector.
  split; intros Hstate; rewrite Hstate.
  - rewrite Hi. clear - Hau Hyear Hinitial.
    destruct initialState as [|x [|y [|z [|vx [|vy [|vz [|extra tl]]]]]]];
      try discriminate Hinitial.
    unfold initialise; cbn [initialState_].
    unfold fromSegments, assignSegment, segment, scale, divide; simpl.
    repeat (apply (f_equal2 (@cons R)); [field; try split; assumption|]).
    reflexivity.
  - rewrite Hf. clear - Hau Hyear Hfinal.
    destruct finalState as [|x [|y [|z [|vx [|vy [|vz [|extra tl]]]]]]];
      try discriminate Hfinal.
    unfold initialise; cbn [finalState_].
    unfold fromSegments, assignSegment, segment, scale, divide; simpl.
    repeat (apply (f_equal2 (@cons R)); [field; try split; assumption|]).
    reflexivity.
Qed.

(** *** The second stand-in at work *)

Lemma hatBasis_time_equation (s : ExposinsShaping) (currentAzimuthAngle : R) :
  @computeScalarFunctionTimeEquation hatBasis s currentAzimuthAngle = 1.
Proof.
  unfold computeScalarFunctionTimeEquation, evaluateCompositeFunction,
    evaluateCompositeFunctionFirstDerivative, evaluateCompositeFunctionSecondDerivative,
    radialFunction, elevationFunction, std.pow; simpl.
  rewrite cos_0, sin_0. field.
Qed.

Lemma hatBasis_time_quadrature_returns (s : ExposinsShaping) (upperBound : R) :
  exists time,
    @integrate hatBasis s (@derivativeTimeFunction hatBasis s) upperBound = Returns time.
Proof.
  unfold integrate.
  apply getQuadrature_returns; intros abscissa weight _.
  unfold derivativeTimeFunction. rewrite hatBasis_time_equation.
  destruct (Rlt_dec 1 0) as [Hneg|_]; [lra | eexists; reflexivity].
Qed.

Lemma hatBasis_associated_epochs_return (s : ExposinsShaping) (azimuthAngles : list R)
    (dataToInterpolate : list (R * R)) :
  exists data,
    @computeAssociatedEpochs hatBasis s azimuthAngles dataToInterpolate = Returns data.
Proof.
  revert dataToInterpolate.
  induction azimuthAngles as [|angle rest IH]; intros dataToInterpolate; simpl.
  - eexists; reflexivity.
  - unfold computeCurrentTimeFromAzimuthAngle.
    destruct (hatBasis_time_quadrature_returns s angle) as (time & E).
    rewrite E; simpl. apply IH.
Qed.

Lemma hatBasis_completeConstruction_returns (initialStepSize : R) (s : ExposinsShaping) :
  exists s', @completeConstruction hatBasis initialStepSize s = Returns (tt, s').
Proof.
  assert (Hall : returning (fun _ => True) (@completeConstruction hatBasis initialStepSize)
                   (fun _ => True)).
  { unfold completeConstruction.
    intros s0 HP.
    refine (returning_bind (fun _ => True) (fun _ => True) (fun _ => True) _ _ _ _ s0 HP).
    { intros s1 _. do 2 eexists; split; [reflexivity | exact I]. }
    clear HP. intros _.
    repeat (apply returning_bind with (Q := fun _ : ExposinsShaping => True);
            [intros s1 _; do 2 eexists; split; [reflexivity | exact I] | intros _]).
    intros s1 _. unfold createInterpolator, computeNormalizedTimeOfFlight.
    destruct (hatBasis_time_quadrature_returns s1 (finalAzimuthAngle_ s1)) as (time & E).
    rewrite E; cbn [andThen].
    match goal with
    | |- context [@computeAssociatedEpochs hatBasis s1 ?angles ?data] =>
        destruct (hatBasis_associated_epochs_return s1 angles data) as (table & E')
    end.
    rewrite E'; cbn [andThen createOneDimensionalInterpolator hatBasis].
    do 2 eexists; split; [reflexivity | exact I]. }
  destruct (Hall s I) as ([] & s' & E & _).
  exists s'; exact E.
Qed.

Lemma hatBasis_construct_returns :
  exists s,
    @construct hatBasis stateAtAzimuthZero stateAtAzimuthOne 1 0 4 0
      someRootFinderSettings (-1) 1 someIntegratorSettings
    = Returns s.
Proof.
  unfold construct.
  destruct (hatBasis_completeConstruction_returns (initialTimeStep_ someIntegratorSettings)
              hatObject) as (s & E).
  exists s. unfold hatObject in E. rewrite E. reflexivity.
Qed.

(** At the azimuth angle 0, the normalized state of the circle is the
    normalized departure state. *)
Lemma hatBasis_state_at_departure (s : ExposinsShaping) :
  @construct hatBasis stateAtAzimuthZero stateAtAzimuthOne 1 0 4 0
    someRootFinderSettings (-1) 1 someIntegratorSettings
  = Returns s ->
  @computeNormalizedStateVector hatBasis s 0 = initialState_ s.
Proof.
  intros E.
  destruct (construct_keeps_normalized_inputs _ _ _ _ _ _ _ _ _ _ _ E)
    as (Hi & _ & _ & Hmu).
  rewrite Hi.
  assert (Hrate : @computeFirstDerivativeAzimuthAngleWrtTime hatBasis s 0 = 2).
  { unfold computeFirstDerivativeAzimuthAngleWrtTime.
    rewrite hatBasis_time_equation, Hmu.
    unfold initialise, evaluateCompositeFunction, radialFunction, std.pow, std.sqrt; simpl.
    match goal with |- sqrt ?x = 2 => replace x with (2 * 2) by field end.
    apply sqrt_square; lra. }
  unfold computeNormalizedStateVector, computeStateVectorInSphericalCoordinates,
    computeVelocityVectorInSphericalCoordinates.
  rewrite Hrate.
  unfold computePositionVectorInSphericalCoordinates,
    computeCurrentVelocityParametrizedByAzimuthAngle, evaluateCompositeFunction,
    evaluateCompositeFunctionFirstDerivative, radialFunction, elevationFunction,
    initialise, stateAtAzimuthZero, fromSegments, assignSegment, segment, scalarTimes,
    scale, divide; simpl.
  rewrite cos_0.
  repeat (apply (f_equal2 (@cons R)); [field|]).
  reflexivity.
Qed.

Lemma boundary_states_come_back_in_physical_units_witness :
  exists s,
    @construct hatBasis stateAtAzimuthZero stateAtAzimuthOne 1 0 4 0
      someRootFinderSettings (-1) 1 someIntegratorSettings
    = Returns s
    /\ @computeCurrentStateVector hatBasis s 0 = stateAtAzimuthZero.
Proof.
  destruct hatBasis_construct_returns as (s & E).
  exists s; split; [exact E|].
  refine (proj1 (boundary_states_come_back_in_physical_units hatBasis stateAtAzimuthZero
                   stateAtAzimuthOne 1 0 4 0 someRootFinderSettings (-1) 1
                   someIntegratorSettings s 0 _ _ eq_refl eq_refl E)
            (hatBasis_state_at_departure s E)).
  - simpl; lra.
  - simpl; lra.
Defined.

(** *** The first stand-in: the constructed object is feasible *)

Lemma standIn_createInterpolator_keeps_feasible (initialStepSize : R) :
  returning standInFeasible (@createInterpolator standIn initialStepSize) standInFeasible.
Proof.
  intros s H. unfold createInterpolator, computeNormalizedTimeOfFlight.
  destruct (standIn_time_quadrature_returns s (finalAzimuthAngle_ s) H) as (time & E).
  rewrite E; cbn [andThen].
  match goal with
  | |- context [@computeAssociatedEpochs standIn s ?angles ?data] =>
      destruct (standIn_associated_epochs_return s angles data H) as (table & E')
  end.
  rewrite E'; cbn [andThen createOneDimensionalInterpolator standIn].
  do 2 eexists; split; [reflexivity | exact H].
Qed.

Lemma standIn_completeConstruction_keeps_feasible (initialStepSize : R) :
  returning standInFeasible (@completeConstruction standIn initialStepSize) standInFeasible.
Proof.
  unfold completeConstruction.
  intros s0 HP.
  refine (returning_bind standInFeasible standInFeasible standInFeasible _ _ _ _ s0 HP).
  { apply standIn_first_loop_returns. destruct HP as (_ & _ & _ & H); exact H. }
  clear HP. intros _.
  repeat (apply returning_bind with (Q := standInFeasible);
          [apply returning_modify; intros s H; exact H | intros _]).
  apply returning_bind with (Q := standInFeasible); [|intros _].
  { intros s; apply standIn_second_loop_returns. }
  repeat (apply returning_bind with (Q := standInFeasible);
          [apply returning_modify; intros s H; exact H | intros _]).
  apply standIn_createInterpolator_keeps_feasible.
Qed.

Lemma standIn_construct_feasible (numberOfRevolutions : Z) :
  exists s,
    @construct standIn departureState arrivalState 63115200 numberOfRevolutions
      132712440018000000000 0 someRootFinderSettings (-1) 1 someIntegratorSettings
    = Returns s
    /\ standInFeasible s.
Proof.
  unfold construct.
  destruct (standIn_completeConstruction_keeps_feasible
              (initialTimeStep_ someIntegratorSettings)
              (exampleObject numberOfRevolutions)
              (exampleObject_feasible numberOfRevolutions))
    as ([] & s & E & H).
  exists s. unfold exampleObject in E. rewrite E. split; [reflexivity | exact H].
Qed.

(** X11: the residual that the objective of the first loop hands to the
    root finder is the error of the time of flight in Julian years: when a
    trial on the constructed object gives the residual [r], the time of
    flight that [computeTimeOfFlight] returns on the object the trial leaves
    is the required time of flight given to the constructor minus [r] Julian
    years.  At a root it is the required time of flight. *)
Theorem residual_is_the_error_of_the_time_of_flight
    (collaborators : Collaborators)
    (initialState finalState : Vector6d) (requiredTimeOfFlight : R)
    (numberOfRevolutions : Z)
    (centralBodyGravitationalParameter initialValueFreeCoefficient : R)
    (rootFinderSettings : RootFinderSettings)
    (lowerBoundFreeCoefficient upperBoundFreeCoefficient : R)
    (integratorSettings : IntegratorSettings) (s afterTrial : ExposinsShaping)
    (trial residual : R) :
  JULIAN_YEAR <> 0 ->
  construct initialState finalState requiredTimeOfFlight numberOfRevolutions
    centralBodyGravitationalParameter initialValueFreeCoefficient rootFinderSettings
    lowerBoundFreeCoefficient upperBoundFreeCoefficient integratorSettings
  = Returns s ->
  evaluate timeOfFlightFunction trial s = Returns (residual, afterTrial) ->
  computeTimeOfFlight afterTrial
  = Returns (requiredTimeOfFlight - residual * JULIAN_YEAR)
  /\ (residual = 0 -> computeTimeOfFlight afterTrial = Returns requiredTimeOfFlight).
Proof.
  intros Hyear E Hevaluate.
  destruct (construct_keeps_normalized_inputs _ _ _ _ _ _ _ _ _ _ _ E)
    as (_ & _ & Hrequired & _).
  rewrite evaluate_timeOfFlightFunction in Hevaluate.
  destruct (computeNormalizedTimeOfFlight s) as [timeOfFlight|e] eqn:Etime; [|discriminate].
  inversion Hevaluate as [[Hresidual Hobject]]; clear Hevaluate.
  unfold computeTimeOfFlight.
  change (computeNormalizedTimeOfFlight (set_initialValueFreeCoefficient_ trial s))
    with (computeNormalizedTimeOfFlight s).
  rewrite Etime.
  unfold getNormalizedRequiredTimeOfFlight. rewrite Hrequired.
  assert (Hvalue : timeOfFlight * JULIAN_YEAR
                   = requiredTimeOfFlight
                     - (requiredTimeOfFlight / JULIAN_YEAR - timeOfFlight) * JULIAN_YEAR)
    by (field; exact Hyear).
  cbn [andThen]. rewrite Hvalue.
  split; [reflexivity|].
  intros Hroot. rewrite Hroot. f_equal. ring.
Qed.

Lemma residual_is_the_error_of_the_time_of_flight_witness :
  exists s residual afterTrial,
    @construct standIn departureState arrivalState 63115200 0
      132712440018000000000 0 someRootFinderSettings (-1) 1 someIntegratorSettings
    = Returns s
    /\ @evaluate (@timeOfFlightFunction standIn) 1 s = Returns (residual, afterTrial)
    /\ @computeTimeOfFlight standIn afterTrial
       = Returns (63115200 - residual * 31557600).
Proof.
  destruct (standIn_construct_feasible 0) as (s & E & Hfeasible).
  destruct (standIn_time_quadrature_returns s (finalAzimuthAngle_ s) Hfeasible)
    as (timeOfFlight & Etime).
  assert (Hevaluate : @evaluate (@timeOfFlightFunction standIn) 1 s
                      = Returns (@getNormalizedRequiredTimeOfFlight s - timeOfFlight,
                                 set_initialValueFreeCoefficient_ 1 s)).
  { rewrite evaluate_timeOfFlightFunction.
    unfold computeNormalizedTimeOfFlight. rewrite Etime. reflexivity. }
  exists s, (getNormalizedRequiredTimeOfFlight s - timeOfFlight),
    (set_initialValueFreeCoefficient_ 1 s).
  split; [exact E | split; [exact Hevaluate|]].
  refine (proj1 (residual_is_the_error_of_the_time_of_flight standIn departureState
                   arrivalState 63115200 0 132712440018000000000 0 someRootFinderSettings
                   (-1) 1 someIntegratorSettings s (set_initialValueFreeCoefficient_ 1 s)
                   1 _ _ E Hevaluate)).
  simpl; lra.
Defined.

(** ** What the constructor leaves *)

(** X12: whatever the two root-finding loops did, the constructed object
    holds a gamma of -25 degrees, and its quadrature settings, which the
    constructor moves to a lower bound of 0 for the second loop, are back at
    the initial azimuth angle with 16 nodes: the queries of the elapsed time
    integrate from the initial azimuth angle. *)
Theorem constructor_resets_gamma_and_the_quadrature_settings
    (collaborators : Collaborators)
    (initialState finalState : Vector6d) (requiredTimeOfFlight : R)
    (numberOfRevolutions : Z)
    (centralBodyGravitationalParameter initialValueFreeCoefficient : R)
    (rootFinderSettings : RootFinderSettings)
    (lowerBoundFreeCoefficient upperBoundFreeCoefficient : R)
    (integratorSettings : IntegratorSettings) (s : ExposinsShaping) :
  construct initialState finalState requiredTimeOfFlight numberOfRevolutions
    centralBodyGravitationalParameter initialValueFreeCoefficient rootFinderSettings
    lowerBoundFreeCoefficient upperBoundFreeCoefficient integratorSettings
  = Returns s ->
  getRequiredGamma s = - 25 * PI / 180
  /\ quadratureSettings_ s
     = {| quadratureLowerBound := getInitialAzimuthAngle s; numberOfNodes := 16 |}
  /\ forall currentAzimuthAngle,
       quadratureNodes s currentAzimuthAngle
       = gaussianQuadratureNodes 16 (getInitialAzimuthAngle s) currentAzimuthAngle.
Proof.
  intros E.
  assert (H : requiredGamma_ s = - 25 * PI / 180
              /\ quadratureSettings_ s
                 = {| quadratureLowerBound := initialAzimuthAngle_ s;
                      numberOfNodes := 16 |}).
  { refine (construct_last_steps
              (fun s' => requiredGamma_ s' = - 25 * PI / 180)
              (fun s' => requiredGamma_ s' = - 25 * PI / 180
                         /\ quadratureSettings_ s'
                            = {| quadratureLowerBound := initialAzimuthAngle_ s';
                                 numberOfNodes := 16 |})
              (fun s' => requiredGamma_ s' = - 25 * PI / 180
                         /\ quadratureSettings_ s'
                            = {| quadratureLowerBound := initialAzimuthAngle_ s';
                                 numberOfNodes := 16 |})
              _ _ _ _ _ _ _ _ _ _ s _ _ _ E).
    - intros s'; reflexivity.
    - intros s' Hs'; split; [exact Hs' | reflexivity].
    - apply createInterpolator_frame. intros x s' Hs'; exact Hs'. }
  destruct H as (Hgamma & Hquadrature).
  unfold getRequiredGamma, getInitialAzimuthAngle, quadratureNodes.
  rewrite Hquadrature. repeat split; assumption.
Qed.

Lemma constructor_resets_gamma_and_the_quadrature_settings_witness :
  exists s,
    @construct standIn departureState arrivalState 63115200 0
      132712440018000000000 0 someRootFinderSettings (-1) 1 someIntegratorSettings
    = Returns s
    /\ getRequiredGamma s = - 25 * PI / 180.
Proof.
  destruct (standIn_construct_returns 0) as (s & E).
  exists s; split; [exact E|].
  exact (proj1 (constructor_resets_gamma_and_the_quadrature_settings standIn
                  departureState arrivalState 63115200 0 132712440018000000000 0
                  someRootFinderSettings (-1) 1 someIntegratorSettings s E)).
Defined.

Lemma completeConstruction_gamma_bounds {collaborators : Collaborators}
    (initialStepSize : R) :
  triple (fun _ => True) (completeConstruction initialStepSize)
    (fun s => windingParameter_ s = 8333333333 / 100000000000
              /\ lowerBoundGamma_ s = boundGamma (-1) s
              /\ upperBoundGamma_ s = boundGamma 1 s).
Proof.
  pose (W := fun s => windingParameter_ s = 8333333333 / 100000000000).
  pose (L := fun s => W s /\ lowerBoundGamma_ s = boundGamma (-1) s).
  pose (Q := fun s => W s /\ lowerBoundGamma_ s = boundGamma (-1) s
                      /\ upperBoundGamma_ s = boundGamma 1 s).
  change (triple (fun _ => True) (completeConstruction initialStepSize) Q).
  unfold completeConstruction.
  intros s0 a s' HP H.
  refine (triple_bind (fun _ => True) (fun _ => True) Q _ _ _ _ s0 a s' HP H);
    clear HP H a s'; [apply triple_anything | intros _].
  apply triple_bind with (Q := fun _ : ExposinsShaping => True);
    [apply triple_anything | intros _].
  apply triple_bind with (Q := W); [apply triple_modify; intros s _; reflexivity | intros _].
  do 2 (apply triple_bind with (Q := W);
        [apply triple_modify; intros s Hs; exact Hs | intros _]).
  apply triple_bind with (Q := L);
    [apply triple_modify; intros s Hs; split; [exact Hs | reflexivity] | intros _].
  apply triple_bind with (Q := Q);
    [apply triple_modify; intros s (Hw & Hl); split; [exact Hw | split; [exact Hl | reflexivity]]
    | intros _].
  do 4 (apply triple_bind with (Q := Q);
        [apply triple_modify; intros s Hs; exact Hs | intros _]).
  apply triple_bind with (Q := Q); [|intros _].
  { apply (triple_with_object Q Q
             (fun s => iterateToMatchRequiredTimeOfFlightExposins (rootFinderSettings_ s)
                         (lowerBoundGamma_ s) (upperBoundGamma_ s) (requiredGamma_ s))).
    intros s; apply iterateToMatchRequiredTimeOfFlightExposins_frame.
    - intros x s1 Hs1; exact Hs1.
    - apply satisfyBoundaryConditions_frame; unfold independentOfCoefficients; frame. }
  do 2 (apply triple_bind with (Q := Q);
        [apply triple_modify; intros s Hs; exact Hs | intros _]).
  apply createInterpolator_frame. intros x s Hs; exact Hs.
Qed.

(** X13: the two bounds on gamma that the constructor computes, and hands to
    the second root finder as its bracket, are ordered and lie strictly
    between -pi/2 and pi/2. *)
Theorem gamma_bounds_are_ordered
    (collaborators : Collaborators)
    (initialState finalState : Vector6d) (requiredTimeOfFlight : R)
    (numberOfRevolutions : Z)
    (centralBodyGravitationalParameter initialValueFreeCoefficient : R)
    (rootFinderSettings : RootFinderSettings)
    (lowerBoundFreeCoefficient upperBoundFreeCoefficient : R)
    (integratorSettings : IntegratorSettings) (s : ExposinsShaping) :
  construct initialState finalState requiredTimeOfFlight numberOfRevolutions
    centralBodyGravitationalParameter initialValueFreeCoefficient rootFinderSettings
    lowerBoundFreeCoefficient upperBoundFreeCoefficient integratorSettings
  = Returns s ->
  - (PI / 2) < lowerBoundGamma_ s
  /\ lowerBoundGamma_ s <= upperBoundGamma_ s
  /\ upperBoundGamma_ s < PI / 2.
Proof.
  intros H.
  unfold construct in H.
  apply andThen_Returns in H; destruct H as ([[] s'] & H & E).
  inversion E; subst; clear E.
  destruct (completeConstruction_gamma_bounds _ _ tt _ I H) as (Hw & Hl & Hu).
  rewrite Hl, Hu. unfold boundGamma. rewrite Hw.
  set (k := 8333333333 / 100000000000).
  set (A := - ln (initialCylindricalRadius_ s / finalCylindricalRadius_ s)
            * (1 / tan (k * travelledAzimuthAngle_ s / 2))).
  set (B := std.sqrt _).
  assert (HB : 0 <= B) by (unfold B, std.sqrt; apply sqrt_pos).
  assert (Hk : 0 < k) by (unfold k; lra).
  pose proof (atan_bound (k / 2 * (A + -1 * B))) as Hlow.
  pose proof (atan_bound (k / 2 * (A + 1 * B))) as Hhigh.
  split; [lra | split; [|lra]].
  destruct (Req_dec B 0) as [Hzero|Hpositive].
  - rewrite Hzero. right. f_equal. ring.
  - left. apply atan_increasing. nra.
Qed.

Lemma gamma_bounds_are_ordered_witness :
  exists s,
    @construct standIn departureState arrivalState 63115200 0
      132712440018000000000 0 someRootFinderSettings (-1) 1 someIntegratorSettings
    = Returns s
    /\ lowerBoundGamma_ s <= upperBoundGamma_ s.
Proof.
  destruct (standIn_construct_returns 0) as (s & E).
  exists s; split; [exact E|].
  exact (proj1 (proj2 (gamma_bounds_are_ordered standIn departureState arrivalState
                          63115200 0 132712440018000000000 0 someRootFinderSettings
                          (-1) 1 someIntegratorSettings s E))).
Defined.

(** ** The table from epoch to azimuth angle *)

Lemma mapAssign_In (key value epoch angle : R) (data : list (R * R)) :
  In (epoch, angle) (mapAssign key value data) ->
  (epoch, angle) = (key, value) \/ In (epoch, angle) data.
Proof.
  induction data as [|[k v] rest IH]; simpl.
  - intros [H|[]]; left; symmetry; exact H.
  - destruct (Rlt_dec key k) as [Hbefore|_].
    + intros [H|H]; [left; symmetry; exact H | right; exact H].
    + destruct (Rlt_dec k key) as [Hafter|_].
      * intros [H|H]; [right; left; exact H|].
        destruct (IH H) as [Hnew|Hold]; [left; exact Hnew | right; right; exact Hold].
      * intros [H|H]; [left; symmetry; exact H | right; right; exact H].
Qed.

Lemma mapAssign_here (key value : R) (data : list (R * R)) :
  In (key, value) (mapAssign key value data).
Proof.
  induction data as [|[k v] rest IH]; simpl.
  - left; reflexivity.
  - destruct (Rlt_dec key k) as [Hbefore|_]; [left; reflexivity|].
    destruct (Rlt_dec k key) as [Hafter|_]; [right; exact IH | left; reflexivity].
Qed.

(** An assignment removes no key. *)
Lemma mapAssign_keeps_keys (key value epoch angle : R) (data : list (R * R)) :
  In (epoch, angle) data -> exists other, In (epoch, other) (mapAssign key value data).
Proof.
  induction data as [|[k v] rest IH]; simpl; [contradiction|].
  intros [H|H].
  - inversion H; subst k v; clear H.
    destruct (Rlt_dec key epoch) as [Hbefore|Hnot];
      [exists angle; right; left; reflexivity|].
    destruct (Rlt_dec epoch key) as [Hafter|Hnot'];
      [exists angle; left; reflexivity|].
    assert (key = epoch) by lra. subst key.
    exists value; left; reflexivity.
  - destruct (IH H) as (other & Hother).
    destruct (Rlt_dec key k) as [Hbefore|_];
      [exists angle; right; right; exact H|].
    destruct (Rlt_dec k key) as [Hafter|_];
      [exists other; right; exact Hother | exists angle; right; exact H].
Qed.

Lemma mapAssign_length (key value : R) (data : list (R * R)) :
  (length (mapAssign key value data) <= S (length data))%nat.
Proof.
  induction data as [|[k v] rest IH]; simpl; [lia|].
  destruct (Rlt_dec key k); [simpl; lia|].
  destruct (Rlt_dec k key); simpl; lia.
Qed.

Lemma mapAssign_head (key value bound : R) (data : list (R * R)) :
  bound < key ->
  HdRel Rlt bound (map fst data) ->
  HdRel Rlt bound (map fst (mapAssign key value data)).
Proof.
  intros Hkey Hdata.
  destruct data as [|[k v] rest]; simpl; [constructor; exact Hkey|].
  destruct (Rlt_dec key k); [constructor; exact Hkey|].
  destruct (Rlt_dec k key); [|constructor; exact Hkey].
  simpl in Hdata. inversion Hdata; subst. constructor; assumption.
Qed.

(** The keys of a map stay in strictly increasing order. *)
Lemma mapAssign_sorted (key value : R) (data : list (R * R)) :
  Sorted Rlt (map fst data) -> Sorted Rlt (map fst (mapAssign key value data)).
Proof.
  induction data as [|[k v] rest IH]; simpl; intros Hsorted.
  - repeat constructor.
  - inversion Hsorted as [|? ? Hrest Hhead]; subst.
    destruct (Rlt_dec key k) as [Hbefore|Hnot].
    + simpl. constructor; [exact Hsorted | constructor; exact Hbefore].
    + destruct (Rlt_dec k key) as [Hafter|Hnot'].
      * simpl. constructor; [apply IH; exact Hrest|].
        apply mapAssign_head; assumption.
      * assert (key = k) by lra. subst key.
        simpl. constructor; assumption.
Qed.

Lemma computeAssociatedEpochs_table {collaborators : Collaborators}
    (s : ExposinsShaping) (azimuthAngles : list R) (data table : list (R * R)) :
  computeAssociatedEpochs s azimuthAngles data = Returns table ->
  (Sorted Rlt (map fst data) -> Sorted Rlt (map fst table))
  /\ (forall epoch angle,
        In (epoch, angle) table ->
        In (epoch, angle) data
        \/ (In angle azimuthAngles
            /\ exists time,
                 computeCurrentTimeFromAzimuthAngle s angle = Returns time
                 /\ epoch = time * JULIAN_YEAR))
  /\ (forall epoch angle, In (epoch, angle) data -> exists other, In (epoch, other) table)
  /\ (forall angle,
        In angle azimuthAngles ->
        exists time other,
          computeCurrentTimeFromAzimuthAngle s angle = Returns time
          /\ In (time * JULIAN_YEAR, other) table)
  /\ (length table <= length data + length azimuthAngles)%nat.
Proof.
  revert data; induction azimuthAngles as [|first rest IH]; intros data H; simpl in H.
  - inversion H; subst table; clear H.
    split; [auto | split; [auto | split; [eauto | split; [intros angle []|simpl; lia]]]].
  - apply andThen_Returns in H; destruct H as (time & Etime & H).
    destruct (IH _ H) as (Hsorted & Hsound & Hkeys & Hcomplete & Hlength); clear IH.
    split; [|split; [|split; [|split]]].
    + intros Hdata. apply Hsorted, mapAssign_sorted, Hdata.
    + intros epoch angle Hin.
      destruct (Hsound epoch angle Hin) as [Hdata|(Hrest & Hangle)].
      * destruct (mapAssign_In _ _ _ _ _ Hdata) as [Hnew|Hold]; [|left; exact Hold].
        inversion Hnew; subst epoch angle.
        right; split; [left; reflexivity | exists time; split; [exact Etime | reflexivity]].
      * right; split; [right; exact Hrest | exact Hangle].
    + intros epoch angle Hin.
      destruct (mapAssign_keeps_keys (time * JULIAN_YEAR) first epoch angle data Hin)
        as (other & Hother).
      exact (Hkeys epoch other Hother).
    + intros angle [Hfirst|Hrest].
      * subst angle.
        destruct (Hkeys _ _ (mapAssign_here (time * JULIAN_YEAR) first data))
          as (other & Hother).
        exists time, other; split; [exact Etime | exact Hother].
      * exact (Hcomplete angle Hrest).
    + pose proof (mapAssign_length (time * JULIAN_YEAR) first data). simpl. lia.
Qed.

(** X14: the interpolator of the constructed object is the Lagrange
    interpolator of order 10 of a table from epoch to azimuth angle.  The
    epochs of the table increase strictly; every entry pairs an azimuth angle
    of the grid between the initial and the final azimuth angle with the
    elapsed time at this angle, in seconds; the elapsed time at every angle
    of the grid is an epoch of the table; and the table has at most as many
    entries as the grid has angles, two angles with the same elapsed time
    sharing one entry. *)
Theorem interpolation_table_of_the_constructed_object
    (collaborators : Collaborators)
    (initialState finalState : Vector6d) (requiredTimeOfFlight : R)
    (numberOfRevolutions : Z)
    (centralBodyGravitationalParameter initialValueFreeCoefficient : R)
    (rootFinderSettings : RootFinderSettings)
    (lowerBoundFreeCoefficient upperBoundFreeCoefficient : R)
    (integratorSettings : IntegratorSettings) (s : ExposinsShaping) :
  construct initialState finalState requiredTimeOfFlight numberOfRevolutions
    centralBodyGravitationalParameter initialValueFreeCoefficient rootFinderSettings
    lowerBoundFreeCoefficient upperBoundFreeCoefficient integratorSettings
  = Returns s ->
  exists (timeOfFlight : R) (table : list (R * R)) (interpolator : OneDimensionalInterpolator),
    let grid :=
      azimuthAnglesToComputeAssociatedEpochs s timeOfFlight
        (initialTimeStep_ integratorSettings) in
    computeNormalizedTimeOfFlight s = Returns timeOfFlight
    /\ createOneDimensionalInterpolator table 10 = Returns interpolator
    /\ (forall time, convertTimeToIndependentVariable s time = Some (interpolator time))
    /\ StronglySorted Rlt (map fst table)
    /\ (forall epoch angle,
          In (epoch, angle) table ->
          In angle grid
          /\ exists time,
               computeCurrentTimeFromAzimuthAngle s angle = Returns time
               /\ epoch = time * JULIAN_YEAR)
    /\ (forall angle,
          In angle grid ->
          exists time other,
            computeCurrentTimeFromAzimuthAngle s angle = Returns time
            /\ In (time * JULIAN_YEAR, other) table)
    /\ (length table <= length grid)%nat.
Proof.
  intros E. pattern s.
  refine (construct_last_steps (fun _ => True) (fun _ => True) _ _ _ _ _ _ _ _ _ _ _ _
            _ _ _ E).
  - intros; exact I.
  - intros; exact I.
  - clear E s. intros s [] s' _ H.
    unfold createInterpolator in H.
    apply andThen_Returns in H; destruct H as (timeOfFlight & Etime & H).
    apply andThen_Returns in H; destruct H as (table & Etable & H).
    apply andThen_Returns in H; destruct H as (interpolator & Einterpolator & H).
    inversion H; subst s'; clear H.
    destruct (computeAssociatedEpochs_table _ _ _ _ Etable)
      as (Hsorted & Hsound & _ & Hcomplete & Hlength).
    exists timeOfFlight, table, interpolator.
    split; [exact Etime | split; [exact Einterpolator | split; [reflexivity|]]].
    split; [|split; [|split]].
    + apply Sorted_StronglySorted; [exact Rlt_trans | apply Hsorted; constructor].
    + intros epoch angle Hin.
      destruct (Hsound epoch angle Hin) as [[]|Hangle]. exact Hangle.
    + exact Hcomplete.
    + simpl in Hlength. exact Hlength.
Qed.

Lemma interpolation_table_of_the_constructed_object_witness :
  exists s timeOfFlight,
    @construct standIn departureState arrivalState 63115200 0
      132712440018000000000 0 someRootFinderSettings (-1) 1 someIntegratorSettings
    = Returns s
    /\ @computeNormalizedTimeOfFlight standIn s = Returns timeOfFlight.
Proof.
  destruct (standIn_construct_returns 0) as (s & E).
  destruct (interpolation_table_of_the_constructed_object standIn departureState
              arrivalState 63115200 0 132712440018000000000 0 someRootFinderSettings
              (-1) 1 someIntegratorSettings s E)
    as (timeOfFlight & table & interpolator & Etime & _).
  exists s, timeOfFlight; split; [exact E | exact Etime].
Defined.

(** ** The exponential sinusoid and the shape coefficients *)

(** X17: the time of flight and the delta V of the exponential sinusoid read
    none of the shape coefficients: the boundary-value solve, which the
    second loop is given as a callable, leaves both as they were.  Neither of
    the two has a feasibility check, and both return on every object. *)
Theorem exposin_queries_ignore_the_boundary_solve
    (collaborators : Collaborators) (s s' : ExposinsShaping) :
  satisfyBoundaryConditions s = Returns (tt, s') ->
  computeNormalizedTimeOfFlightExposins s' = computeNormalizedTimeOfFlightExposins s
  /\ computeDeltaVExposins s' = computeDeltaVExposins s
  /\ (exists timeOfFlight, computeNormalizedTimeOfFlightExposins s = Returns timeOfFlight)
  /\ (exists deltaV, computeDeltaVExposins s = Returns deltaV).
Proof.
  intros H.
  assert (Hframe : computeNormalizedTimeOfFlightExposins s'
                   = computeNormalizedTimeOfFlightExposins s
                   /\ computeDeltaVExposins s' = computeDeltaVExposins s).
  { refine (satisfyBoundaryConditions_frame
              (fun x => computeNormalizedTimeOfFlightExposins x
                        = computeNormalizedTimeOfFlightExposins s
                        /\ computeDeltaVExposins x = computeDeltaVExposins s)
              _ s tt s' _ H).
    - unfold independentOfCoefficients; frame.
    - split; reflexivity. }
  destruct Hframe as (Htime & HdeltaV).
  split; [exact Htime | split; [exact HdeltaV | split]].
  - unfold computeNormalizedTimeOfFlightExposins, integrate.
    apply getQuadrature_returns; intros; eexists; reflexivity.
  - unfold computeDeltaVExposins, integrate.
    apply getQuadrature_returns; intros; eexists; reflexivity.
Qed.

Lemma exposin_queries_ignore_the_boundary_solve_witness :
  exists s',
    @satisfyBoundaryConditions standIn (exampleObject 0) = Returns (tt, s')
    /\ @computeNormalizedTimeOfFlightExposins standIn s'
       = @computeNormalizedTimeOfFlightExposins standIn (exampleObject 0).
Proof.
  eexists; split.
  - exact (@satisfyBoundaryConditions_returns standIn (exampleObject 0) eq_refl eq_refl).
  - exact (proj1 (exposin_queries_ignore_the_boundary_solve standIn (exampleObject 0) _
                    (@satisfyBoundaryConditions_returns standIn (exampleObject 0)
                       eq_refl eq_refl))).
Defined.

(** ** The origin of time *)

Lemma getQuadrature_zero_weights (integrand : R -> Outcome R) (nodes : list (R * R)) :
  (forall abscissa weight,
     In (abscissa, weight) nodes ->
     weight = 0 /\ exists value, integrand abscissa = Returns value) ->
  getQuadrature integrand nodes = Returns 0.
Proof.
  induction nodes as [|[abscissa weight] rest IH]; intros Hnodes; simpl; [reflexivity|].
  destruct (Hnodes abscissa weight (or_introl eq_refl)) as (Hweight & value & E).
  rewrite E, IH by (intros a w Hin; apply Hnodes; right; exact Hin).
  simpl. f_equal. rewrite Hweight. ring.
Qed.

(** X18: the constructed object counts time from the initial azimuth angle.
    With a rule whose weights vanish on an interval of length 0, as those of
    a Gaussian rule do, and a shape that is feasible at its nodes, the
    elapsed time at the initial azimuth angle is 0. *)
Theorem elapsed_time_at_the_initial_azimuth_angle_is_zero
    (collaborators : Collaborators)
    (initialState finalState : Vector6d) (requiredTimeOfFlight : R)
    (numberOfRevolutions : Z)
    (centralBodyGravitationalParameter initialValueFreeCoefficient : R)
    (rootFinderSettings : RootFinderSettings)
    (lowerBoundFreeCoefficient upperBoundFreeCoefficient : R)
    (integratorSettings : IntegratorSettings) (s : ExposinsShaping) :
  construct initialState finalState requiredTimeOfFlight numberOfRevolutions
    centralBodyGravitationalParameter initialValueFreeCoefficient rootFinderSettings
    lowerBoundFreeCoefficient upperBoundFreeCoefficient integratorSettings
  = Returns s ->
  (forall angle weight,
     In (angle, weight)
       (gaussianQuadratureNodes 16 (getInitialAzimuthAngle s) (getInitialAzimuthAngle s)) ->
     weight = 0 /\ 0 <= computeScalarFunctionTimeEquation s angle) ->
  computeCurrentTimeFromAzimuthAngle s (getInitialAzimuthAngle s) = Returns 0.
Proof.
  intros E Hnodes.
  assert (Hquadrature : quadratureSettings_ s
                        = {| quadratureLowerBound := initialAzimuthAngle_ s;
                             numberOfNodes := 16 |}).
  { pattern s.
    refine (construct_last_steps (fun _ => True)
              (fun s' => quadratureSettings_ s'
                         = {| quadratureLowerBound := initialAzimuthAngle_ s';
                              numberOfNodes := 16 |})
              _ _ _ _ _ _ _ _ _ _ _ _ _ _ _ E).
    - intros; exact I.
    - intros; reflexivity.
    - apply createInterpolator_frame. intros x s' Hs'; exact Hs'. }
  unfold computeCurrentTimeFromAzimuthAngle, integrate, getInitialAzimuthAngle in *.
  rewrite Hquadrature; cbn [quadratureLowerBound numberOfNodes].
  apply getQuadrature_zero_weights; intros angle weight Hin.
  destruct (Hnodes angle weight Hin) as (Hweight & Hfeasible).
  split; [exact Hweight|].
  unfold derivativeTimeFunction.
  destruct (Rlt_dec (computeScalarFunctionTimeEquation s angle) 0) as [Hneg|_];
    [lra | eexists; reflexivity].
Qed.

Lemma elapsed_time_at_the_initial_azimuth_angle_is_zero_witness :
  exists s,
    @construct standIn departureState arrivalState 63115200 0
      132712440018000000000 0 someRootFinderSettings (-1) 1 someIntegratorSettings
    = Returns s
    /\ @computeCurrentTimeFromAzimuthAngle standIn s (getInitialAzimuthAngle s) = Returns 0.
Proof.
  destruct (standIn_construct_feasible 0) as (s & E & (_ & _ & Hfree & _)).
  exists s; split; [exact E|].
  apply (elapsed_time_at_the_initial_azimuth_angle_is_zero standIn departureState
           arrivalState 63115200 0 132712440018000000000 0 someRootFinderSettings (-1) 1
           someIntegratorSettings s E).
  intros angle weight [Hin|[]].
  apply (f_equal snd) in Hin; cbn [snd] in Hin.
  split; [lra|].
  rewrite standIn_time_equation. lra.
Defined.

(** ** A circular orbit *)

(** Where the shape is a circle in the reference plane around a central body
    of positive gravitational parameter, the rate of the azimuth angle is
    that of the circular orbit and the thrust acceleration has three zero
    components. *)
Lemma thrust_of_a_circular_shape {collaborators : Collaborators}
    (s : ExposinsShaping) (currentAzimuthAngle : R) :
  let radial := radialDistanceCompositeFunction_ s in
  let elevation := elevationAngleCompositeFunction_ s in
  0 < centralBodyGravitationalParameter_ s ->
  0 < evaluateCompositeFunction radialFunction radial currentAzimuthAngle ->
  evaluateCompositeFunctionFirstDerivative radialFunction radial currentAzimuthAngle = 0 ->
  evaluateCompositeFunctionSecondDerivative radialFunction radial currentAzimuthAngle = 0 ->
  evaluateCompositeFunctionThirdDerivative radialFunction radial currentAzimuthAngle = 0 ->
  evaluateCompositeFunction elevationFunction elevation currentAzimuthAngle = 0 ->
  evaluateCompositeFunctionFirstDerivative elevationFunction elevation currentAzimuthAngle = 0 ->
  evaluateCompositeFunctionSecondDerivative elevationFunction elevation currentAzimuthAngle = 0 ->
  computeFirstDerivativeAzimuthAngleWrtTime s currentAzimuthAngle
  = std.sqrt (centralBodyGravitationalParameter_ s
              / std.pow (evaluateCompositeFunction radialFunction radial currentAzimuthAngle) 3)
  /\ exists x y z,
       computeThrustAccelerationInSphericalCoordinates s currentAzimuthAngle = [x; y; z]
       /\ x = 0 /\ y = 0 /\ z = 0.
Proof.
  intros radial elevation Hmu Hradius Hr1 Hr2 Hr3 He He1 He2.
  assert (Hradicand : computeScalarFunctionTimeEquation s currentAzimuthAngle
                      = evaluateCompositeFunction radialFunction radial currentAzimuthAngle).
  { unfold computeScalarFunctionTimeEquation. fold radial elevation.
    rewrite Hr1, Hr2, He, He1, He2, cos_0, sin_0. unfold std.pow; simpl. field; lra. }
  assert (Hderivative : computeDerivativeScalarFunctionTimeEquation s currentAzimuthAngle = 0).
  { unfold computeDerivativeScalarFunctionTimeEquation. fold radial elevation.
    rewrite Hr1, Hr2, Hr3, He, He1, He2.
    replace (2 * 0) with 0 by ring. rewrite cos_0, sin_0.
    unfold std.pow; simpl. field; lra. }
  assert (Hrate : computeFirstDerivativeAzimuthAngleWrtTime s currentAzimuthAngle
                  = std.sqrt (centralBodyGravitationalParameter_ s
                              / std.pow (evaluateCompositeFunction radialFunction radial
                                           currentAzimuthAngle) 3)).
  { unfold computeFirstDerivativeAzimuthAngleWrtTime. fold radial.
    rewrite Hradicand. reflexivity. }
  split; [exact Hrate|].
  unfold computeThrustAccelerationInSphericalCoordinates,
    computeSecondDerivativeAzimuthAngleWrtTime,
    computeCurrentVelocityParametrizedByAzimuthAngle,
    computeCurrentAccelerationParametrizedByAzimuthAngle.
  fold radial elevation.
  rewrite Hderivative, Hradicand, Hrate, Hr1, Hr2, He, He1, He2, cos_0, sin_0.
  set (radius := evaluateCompositeFunction radialFunction radial currentAzimuthAngle) in *.
  set (mu := centralBodyGravitationalParameter_ s) in *.
  assert (Hsquare : std.sqrt (mu / std.pow radius 3) * std.sqrt (mu / std.pow radius 3)
                    = mu / std.pow radius 3).
  { unfold std.sqrt. apply sqrt_sqrt, Rlt_le, Rdiv_lt_0_compat; [exact Hmu|].
    unfold std.pow; simpl. repeat apply Rmult_lt_0_compat; lra. }
  unfold scalarTimes; simpl.
  do 3 eexists; split; [reflexivity|].
  unfold std.pow in *; simpl in *.
  rewrite !Rmult_1_r in *.
  repeat split.
  - rewrite Hsquare. field; lra.
  - rewrite Hsquare. field; lra.
  - rewrite Hsquare. field; lra.
Qed.

(** X19: a circular orbit needs no thrust.  At an azimuth angle where the
    shape is a circle in the reference plane (the first three derivatives of
    the radial distance vanish, and so do the elevation angle and its first
    two derivatives), for a positive radius and a positive gravitational
    parameter, [computeFirstDerivativeAzimuthAngleWrtTime] is the angular
    rate of the circular orbit, the square root of the gravitational
    parameter over the cube of the radius, and
    [computeThrustAccelerationInSphericalCoordinates] is the zero vector. *)
Theorem circular_orbit_needs_no_thrust
    (collaborators : Collaborators) (s : ExposinsShaping) (currentAzimuthAngle : R) :
  let radial := radialDistanceCompositeFunction_ s in
  let elevation := elevationAngleCompositeFunction_ s in
  0 < centralBodyGravitationalParameter_ s ->
  0 < evaluateCompositeFunction radialFunction radial currentAzimuthAngle ->
  evaluateCompositeFunctionFirstDerivative radialFunction radial currentAzimuthAngle = 0 ->
  evaluateCompositeFunctionSecondDerivative radialFunction radial currentAzimuthAngle = 0 ->
  evaluateCompositeFunctionThirdDerivative radialFunction radial currentAzimuthAngle = 0 ->
  evaluateCompositeFunction elevationFunction elevation currentAzimuthAngle = 0 ->
  evaluateCompositeFunctionFirstDerivative elevationFunction elevation currentAzimuthAngle = 0 ->
  evaluateCompositeFunctionSecondDerivative elevationFunction elevation currentAzimuthAngle = 0 ->
  computeFirstDerivativeAzimuthAngleWrtTime s currentAzimuthAngle
  = std.sqrt (centralBodyGravitationalParameter_ s
              / std.pow (evaluateCompositeFunction radialFunction radial currentAzimuthAngle) 3)
  /\ computeThrustAccelerationInSphericalCoordinates s currentAzimuthAngle = [0; 0; 0].
Proof.
  intros radial elevation Hmu Hradius Hr1 Hr2 Hr3 He He1 He2.
  destruct (thrust_of_a_circular_shape s currentAzimuthAngle Hmu Hradius Hr1 Hr2 Hr3
              He He1 He2) as (Hrate & x & y & z & E & Hx & Hy & Hz).
  subst x y z. split; [exact Hrate | exact E].
Qed.

(** Under the first stand-in, the object of the example is on a circular
    orbit. *)
Lemma exampleObject_thrust (numberOfRevolutions : Z) (currentAzimuthAngle : R) :
  @computeThrustAccelerationInSphericalCoordinates standIn (exampleObject numberOfRevolutions)
    currentAzimuthAngle
  = [0; 0; 0].
Proof.
  assert (Hradius : 0 < @evaluateCompositeFunction (@radialFunction standIn)
                          (radialDistanceCompositeFunction_ (exampleObject numberOfRevolutions))
                          currentAzimuthAngle)
    by (unfold evaluateCompositeFunction, radialFunction; simpl; lra).
  assert (Hsecond : @evaluateCompositeFunctionSecondDerivative (@radialFunction standIn)
                      (radialDistanceCompositeFunction_ (exampleObject numberOfRevolutions))
                      currentAzimuthAngle = 0)
    by (unfold evaluateCompositeFunctionSecondDerivative, radialFunction; simpl;
        unfold coeff; simpl; lra).
  destruct (@thrust_of_a_circular_shape standIn (exampleObject numberOfRevolutions)
              currentAzimuthAngle (exampleObject_gravitational_parameter numberOfRevolutions)
              Hradius eq_refl Hsecond eq_refl eq_refl eq_refl eq_refl)
    as (_ & x & y & z & E & Hx & Hy & Hz).
  subst x y z. exact E.
Qed.

Lemma circular_orbit_needs_no_thrust_witness :
  @computeThrustAccelerationInSphericalCoordinates standIn (exampleObject 0) 0 = [0; 0; 0].
Proof.
  refine (proj2 (circular_orbit_needs_no_thrust standIn (exampleObject 0) 0
                   (exampleObject_gravitational_parameter 0) _ eq_refl _
                   eq_refl eq_refl eq_refl eq_refl)).
  - unfold evaluateCompositeFunction, radialFunction; simpl; lra.
  - unfold evaluateCompositeFunctionSecondDerivative, radialFunction; simpl;
        unfold coeff; simpl; lra.
Defined.

Lemma getQuadrature_zero_values (integrand : R -> Outcome R) (nodes : list (R * R)) :
  (forall abscissa weight, In (abscissa, weight) nodes -> integrand abscissa = Returns 0) ->
  getQuadrature integrand nodes = Returns 0.
Proof.
  induction nodes as [|[abscissa weight] rest IH]; intros Hnodes; simpl; [reflexivity|].
  rewrite (Hnodes abscissa weight (or_introl eq_refl)).
  rewrite IH by (intros a w Hin; apply (Hnodes a w); right; exact Hin).
  simpl. f_equal. ring.
Qed.

(** X20: a shape that needs no thrust costs no delta V.  When the thrust
    acceleration is the zero vector at every node of the rule up to the final
    azimuth angle, [computeDeltaV] returns 0. *)
Theorem deltaV_of_a_thrust_free_shape_is_zero
    (collaborators : Collaborators) (s : ExposinsShaping) :
  (forall angle weight,
     In (angle, weight) (quadratureNodes s (getFinalAzimuthAngle s)) ->
     computeThrustAccelerationInSphericalCoordinates s angle = [0; 0; 0]) ->
  computeDeltaV s = Returns 0.
Proof.
  intros Hthrust.
  unfold computeDeltaV, integrate.
  rewrite getQuadrature_zero_values.
  - simpl. f_equal. unfold Rdiv. ring.
  - intros angle weight Hin.
    unfold derivativeFunctionDeltaV.
    rewrite (Hthrust angle weight Hin).
    f_equal. unfold norm, std.sqrt; simpl.
    replace (0 * 0 + (0 * 0 + (0 * 0 + 0))) with 0 by ring.
    rewrite sqrt_0. ring.
Qed.

Lemma deltaV_of_a_thrust_free_shape_is_zero_witness :
  @computeDeltaV standIn (exampleObject 1) = Returns 0.
Proof.
  apply (deltaV_of_a_thrust_free_shape_is_zero standIn (exampleObject 1)).
  intros angle weight _. apply exampleObject_thrust.
Defined.

(** ** From the azimuth angle to the time and back *)

Lemma tableLookup_reproduces (data : list (R * R)) :
  StronglySorted Rlt (map fst data) ->
  forall epoch angle, In (epoch, angle) data -> tableLookup data epoch = angle.
Proof.
  induction data as [|[k v] rest IH]; intros Hsorted epoch angle Hin; [contradiction|].
  simpl in Hsorted. apply StronglySorted_inv in Hsorted; destruct Hsorted as (Hrest & Hhead).
  unfold tableLookup; simpl.
  destruct (Req_dec_T k epoch) as [Hsame|Hother].
  - destruct Hin as [Hhere|Hlater]; [inversion Hhere; reflexivity|].
    exfalso. rewrite Forall_forall in Hhead.
    assert (k < epoch) by (apply Hhead; apply (in_map fst _ _ Hlater)).
    lra.
  - destruct Hin as [Hhere|Hlater]; [inversion Hhere; subst; contradiction|].
    exact (IH Hrest epoch angle Hlater).
Qed.

(** X21: on the grid of the interpolation table, the two conversions of the
    constructed object are inverse to each other, up to the unit of time.
    When the interpolator reproduces the entries of a table with increasing
    epochs, and no other angle of the grid has the same elapsed time, the
    azimuth angle that [convertTimeToIndependentVariable] returns for one
    Julian year times the elapsed time of [convertIndependentVariableToTime]
    at an angle of the grid is this angle. *)
Theorem time_and_azimuth_angle_conversions_agree_on_the_grid
    (collaborators : Collaborators)
    (initialState finalState : Vector6d) (requiredTimeOfFlight : R)
    (numberOfRevolutions : Z)
    (centralBodyGravitationalParameter initialValueFreeCoefficient : R)
    (rootFinderSettings : RootFinderSettings)
    (lowerBoundFreeCoefficient upperBoundFreeCoefficient : R)
    (integratorSettings : IntegratorSettings) (s : ExposinsShaping) :
  JULIAN_YEAR <> 0 ->
  (forall table interpolator,
     StronglySorted Rlt (map fst table) ->
     createOneDimensionalInterpolator table 10 = Returns interpolator ->
     forall epoch angle, In (epoch, angle) table -> interpolator epoch = angle) ->
  construct initialState finalState requiredTimeOfFlight numberOfRevolutions
    centralBodyGravitationalParameter initialValueFreeCoefficient rootFinderSettings
    lowerBoundFreeCoefficient upperBoundFreeCoefficient integratorSettings
  = Returns s ->
  exists timeOfFlight,
    let grid :=
      azimuthAnglesToComputeAssociatedEpochs s timeOfFlight
        (initialTimeStep_ integratorSettings) in
    computeNormalizedTimeOfFlight s = Returns timeOfFlight
    /\ forall angle,
         In angle grid ->
         (forall other time,
            In other grid ->
            convertIndependentVariableToTime s angle = Returns time ->
            convertIndependentVariableToTime s other = Returns time ->
            other = angle) ->
         exists time,
           convertIndependentVariableToTime s angle = Returns time
           /\ convertTimeToIndependentVariable s (time * JULIAN_YEAR) = Some angle.
Proof.
  intros Hyear Hreproduces E. pattern s.
  refine (construct_last_steps (fun _ => True) (fun _ => True) _ _ _ _ _ _ _ _ _ _ _ _
            _ _ _ E).
  - intros; exact I.
  - intros; exact I.
  - clear E s. intros s [] s' _ H.
    unfold createInterpolator in H.
    apply andThen_Returns in H; destruct H as (timeOfFlight & Etime & H).
    apply andThen_Returns in H; destruct H as (table & Etable & H).
    apply andThen_Returns in H; destruct H as (interpolator & Einterpolator & H).
    inversion H; subst s'; clear H.
    destruct (computeAssociatedEpochs_table _ _ _ _ Etable)
      as (Hsorted & Hsound & _ & Hcomplete & _).
    assert (Hstrong : StronglySorted Rlt (map fst table))
      by (apply Sorted_StronglySorted; [exact Rlt_trans | apply Hsorted; constructor]).
    exists timeOfFlight. split; [exact Etime|].
    intros angle Hin Hunique.
    destruct (Hcomplete angle Hin) as (time & other & Eangle & Hentry).
    exists time; split; [exact Eangle|].
    destruct (Hsound _ _ Hentry) as [[]|(Hother & time' & Eother & Hepoch)].
    assert (time' = time) by (apply (Rmult_eq_reg_r JULIAN_YEAR); auto).
    subst time'.
    rewrite <- (Hunique other time Hother Eangle Eother).
    unfold convertTimeToIndependentVariable; cbn [interpolator_ set_interpolator_ option_map].
    f_equal. exact (Hreproduces table interpolator Hstrong Einterpolator _ _ Hentry).
Qed.

Lemma hatBasis_elapsed_time (s : ExposinsShaping) (currentAzimuthAngle : R) :
  @construct hatBasis stateAtAzimuthZero stateAtAzimuthOne 1 0 4 0
    someRootFinderSettings (-1) 1 someIntegratorSettings
  = Returns s ->
  @convertIndependentVariableToTime hatBasis s currentAzimuthAngle
  = Returns ((currentAzimuthAngle - quadratureLowerBound (quadratureSettings_ s)) / 2).
Proof.
  intros E.
  destruct (construct_keeps_normalized_inputs _ _ _ _ _ _ _ _ _ _ _ E)
    as (_ & _ & _ & Hmu).
  unfold convertIndependentVariableToTime, integrate, derivativeTimeFunction.
  cbn [gaussianQuadratureNodes hatBasis getQuadrature].
  rewrite hatBasis_time_equation.
  destruct (Rlt_dec 1 0) as [Hneg|_]; [lra|].
  cbn [andThen]. f_equal.
  rewrite Hmu.
  unfold initialise, evaluateCompositeFunction, radialFunction, std.pow, std.sqrt; simpl.
  match goal with
  | |- context [sqrt ?x] => replace x with ((1 / 2) * (1 / 2)) by field
  end.
  rewrite sqrt_square by lra. field.
Qed.

Lemma time_and_azimuth_angle_conversions_agree_on_the_grid_witness :
  exists s time,
    @construct hatBasis stateAtAzimuthZero stateAtAzimuthOne 1 0 4 0
      someRootFinderSettings (-1) 1 someIntegratorSettings
    = Returns s
    /\ @convertIndependentVariableToTime hatBasis s (getFinalAzimuthAngle s) = Returns time
    /\ convertTimeToIndependentVariable s (time * 1) = Some (getFinalAzimuthAngle s).
Proof.
  destruct hatBasis_construct_returns as (s & E).
  destruct (time_and_azimuth_angle_conversions_agree_on_the_grid hatBasis
              stateAtAzimuthZero stateAtAzimuthOne 1 0 4 0 someRootFinderSettings (-1) 1
              someIntegratorSettings s)
    as (timeOfFlight & _ & Hround).
  - simpl; lra.
  - intros table interpolator Hsorted Hcreate.
    inversion Hcreate. apply tableLookup_reproduces, Hsorted.
  - exact E.
  - destruct (Hround (getFinalAzimuthAngle s)) as (time & Etime & Eback).
    + right; left; reflexivity.
    + intros other time _ Hangle Hother.
      rewrite (hatBasis_elapsed_time s _ E) in Hangle.
      rewrite (hatBasis_elapsed_time s other E) in Hother.
      inversion Hangle as [Ha]; inversion Hother as [Ho].
      unfold getFinalAzimuthAngle in *. lra.
    + exists s, time; split; [exact E | split; [exact Etime | exact Eback]].
Defined.

(** ** Boundary values of a circular orbit *)

(** For a boundary state in the reference plane with no radial velocity,
    whose speed is that of the circular orbit, the constant of the boundary
    condition on the second derivative vanishes. *)
Lemma boundariesConstant_of_a_circular_orbit (radius azimuth speed mu : R) :
  0 < radius ->
  0 < speed ->
  speed * speed * radius = mu ->
  let sphericalState := [radius; azimuth; 0; 0; speed; 0] in
  boundariesConstant (parametrizeByAzimuthAngle sphericalState) sphericalState mu = 0
  /\ coeff (parametrizeByAzimuthAngle sphericalState) 0 = radius
  /\ coeff (parametrizeByAzimuthAngle sphericalState) 3 = 0
  /\ coeff (parametrizeByAzimuthAngle sphericalState) 5 = 0.
Proof.
  intros Hradius Hspeed Hmu sphericalState.
  unfold sphericalState, boundariesConstant, parametrizeByAzimuthAngle, coeff, std.pow;
    simpl.
  rewrite cos_0, sin_0. subst mu.
  repeat split; try (field; repeat split; lra).
Qed.

(** X22: the boundary values of a circular orbit.  When the departure state
    held by the object lies in the reference plane, has no radial velocity
    and has the speed of the circular orbit at its radius, the constant
    [computeInitialValueBoundariesConstant] and the factor
    [computeInitialAlphaValue] are 0, and the boundary values that
    [satisfyBoundaryConditions] assembles for the departure are the
    reciprocal of the radius, 0 for the first derivative and 0 for the
    second derivative. *)
Theorem boundary_values_of_a_circular_departure
    (s : ExposinsShaping) (radius azimuth speed : R) :
  0 < radius ->
  0 < speed ->
  initialStateSphericalCoordinates_ s = [radius; azimuth; 0; 0; speed; 0] ->
  initialStateParametrizedByAzimuthAngle_ s
  = parametrizeByAzimuthAngle (initialStateSphericalCoordinates_ s) ->
  speed * speed * radius = centralBodyGravitationalParameter_ s ->
  computeInitialValueBoundariesConstant s = 0
  /\ computeInitialAlphaValue s = 0
  /\ coeff (vectorBoundaryValues s) 0 = 1 / radius
  /\ coeff (vectorBoundaryValues s) 2 = 0
  /\ coeff (vectorBoundaryValues s) 4 = 0.
Proof.
  intros Hradius Hspeed Hspherical Hparametrized Hmu.
  destruct (boundariesConstant_of_a_circular_orbit radius azimuth speed
              (centralBodyGravitationalParameter_ s) Hradius Hspeed Hmu)
    as (Hconstant & H0 & H3 & H5).
  assert (Hc : computeInitialValueBoundariesConstant s = 0).
  { unfold computeInitialValueBoundariesConstant.
    rewrite Hparametrized, Hspherical. exact Hconstant. }
  split; [exact Hc|].
  unfold computeInitialAlphaValue, vectorBoundaryValues.
  change (coeff (?a :: _) 0) with a.
  change (coeff (_ :: _ :: ?a :: _) 2) with a.
  change (coeff (_ :: _ :: _ :: _ :: ?a :: _) 4) with a.
  rewrite Hc, Hparametrized, Hspherical, H0, H3, H5.
  change (coeff (parametrizeByAzimuthAngle [radius; azimuth; 0; 0; speed; 0]) 2) with 0.
  rewrite cos_0.
  unfold std.pow; simpl.
  repeat split; field; lra.
Qed.

Lemma hatObject_departure :
  initialStateSphericalCoordinates_ hatObject = [1; 0; 0; 0; 2; 0].
Proof.
  unfold hatObject, initialise.
  cbn [initialStateSphericalCoordinates_ convertCartesianToSphericalState hatBasis
       ASTRONOMICAL_UNIT JULIAN_YEAR].
  rewrite wrapAzimuthAngle_not_negative by (unfold coeff; simpl; lra).
  unfold stateAtAzimuthZero, fromSegments, assignSegment, segment, scale, divide; simpl.
  repeat (apply (f_equal2 (@cons R)); [field|]).
  reflexivity.
Qed.

Lemma boundary_values_of_a_circular_departure_witness :
  computeInitialValueBoundariesConstant hatObject = 0
  /\ coeff (vectorBoundaryValues hatObject) 4 = 0.
Proof.
  destruct (boundary_values_of_a_circular_departure hatObject 1 0 2)
    as (Hconstant & _ & _ & _ & Hvalue).
  - lra.
  - lra.
  - exact hatObject_departure.
  - reflexivity.
  - unfold hatObject, initialise, std.pow; simpl. field.
  - split; [exact Hconstant | exact Hvalue].
Defined.

(** ** Objects that satisfy the boundary conditions already *)

Lemma vectorSubtract_vectorAdd (x w : VectorXd) :
  length x = length w -> vectorSubtract (vectorAdd x w) w = x.
Proof.
  revert w; induction x as [|a x IH]; intros [|b w] H; simpl in *; try discriminate;
    [reflexivity|].
  rewrite IH by lia. f_equal. ring.
Qed.

Lemma boundaryMatrixOf_length {collaborators : Collaborators} (s : ExposinsShaping) :
  length (boundaryMatrixOf s) = 10%nat.
Proof. reflexivity. Qed.

(** X23: an object that satisfies the boundary conditions is a fixed point
    of the solve.  When the inversion routine returns a left inverse of the
    boundary matrix, the two coefficient vectors of the object solve the ten
    boundary equations for its free coefficient, and the radial vector holds
    the free coefficient at index 2, [satisfyBoundaryConditions] installs the
    coefficients that the object holds already. *)
Theorem satisfyBoundaryConditions_keeps_a_solution
    (collaborators : Collaborators) (s : ExposinsShaping) :
  coefficientSizesMatch s ->
  coeff (coefficientsRadialDistanceFunction_ s) 2 = initialValueFreeCoefficient_ s ->
  matrixProduct (inverse (boundaryMatrixOf s)) (boundaryMatrixOf s) 10 = Identity 10 ->
  vectorAdd
    (matrixVector (boundaryMatrixOf s) (dependentCoefficients s))
    (scale (initialValueFreeCoefficient_ s) (freeCoefficientColumn s))
  = vectorBoundaryValues s ->
  exists s',
    satisfyBoundaryConditions s = Returns (tt, s')
    /\ coefficientsRadialDistanceFunction_ s' = coefficientsRadialDistanceFunction_ s
    /\ coefficientsElevationAngleFunction_ s' = coefficientsElevationAngleFunction_ s.
Proof.
  intros Hs Hfree Hinverse Hsolution.
  eexists; split; [apply satisfyBoundaryConditions_returns; apply Hs|].
  assert (Hc : compositeFunctionCoefficients s = dependentCoefficients s).
  { unfold compositeFunctionCoefficients, computeInverseMatrixBoundaryConditions.
    fold (boundaryMatrixOf s).
    rewrite <- Hsolution.
    rewrite vectorSubtract_vectorAdd
      by (unfold matrixVector; rewrite length_map; reflexivity).
    rewrite (matrixVector_matrixVector _ _ _ 10) by reflexivity.
    rewrite Hinverse. apply matrixVector_Identity. reflexivity. }
  cbn [coefficientsRadialDistanceFunction_ coefficientsElevationAngleFunction_
       set_coefficientsRadialDistanceFunction_ set_coefficientsElevationAngleFunction_
       set_radialDistanceCompositeFunction_ set_elevationAngleCompositeFunction_].
  rewrite Hc, <- Hfree. unfold dependentCoefficients.
  destruct Hs as (Hradial & Helevation & _).
  destruct (coefficientsRadialDistanceFunction_ s)
    as [|r0 [|r1 [|r2 [|r3 [|r4 [|r5 [|r6 [|r7 tl]]]]]]]]; try discriminate Hradial.
  destruct (coefficientsElevationAngleFunction_ s)
    as [|e0 [|e1 [|e2 [|e3 [|e4 tl]]]]]; try discriminate Helevation.
  split; reflexivity.
Qed.

Lemma satisfyBoundaryConditions_keeps_a_solution_witness :
  exists s s',
    @satisfyBoundaryConditions hatBasis hatObject = Returns (tt, s)
    /\ @satisfyBoundaryConditions hatBasis s = Returns (tt, s')
    /\ coefficientsRadialDistanceFunction_ s' = coefficientsRadialDistanceFunction_ s
    /\ coefficientsElevationAngleFunction_ s' = coefficientsElevationAngleFunction_ s.
Proof.
  pose proof (@satisfyBoundaryConditions_returns hatBasis hatObject eq_refl eq_refl) as E.
  cbv zeta in E.
  destruct hatObject_boundary as (Hi & Hf & Hri & Hrf).
  pose proof (hatBasis_boundary_matrix hatObject Hi Hf Hri Hrf) as Hmatrix.
  match type of E with
  | _ = Returns (tt, ?object) =>
      exists object;
      destruct (satisfyBoundaryConditions_keeps_a_solution hatBasis object)
        as (s' & E' & Hradial & Helevation)
  end.
  - repeat split; reflexivity.
  - reflexivity.
  - change (matrixProduct (@boundaryMatrixOf hatBasis hatObject)
              (@boundaryMatrixOf hatBasis hatObject) 10 = Identity 10).
    rewrite Hmatrix. exact Identity_squared.
  - set (c := @compositeFunctionCoefficients hatBasis hatObject).
    change (vectorAdd
              (matrixVector (@boundaryMatrixOf hatBasis hatObject)
                 [coeff c 0; coeff c 1; coeff c 2; coeff c 3; coeff c 4; coeff c 5;
                  coeff c 6; coeff c 7; coeff c 8; coeff c 9])
              (scale (initialValueFreeCoefficient_ hatObject)
                 (@freeCoefficientColumn hatBasis hatObject))
            = vectorBoundaryValues hatObject).
    rewrite matrixVector_first_ten by apply boundaryMatrixOf_rows.
    unfold c, compositeFunctionCoefficients, computeInverseMatrixBoundaryConditions.
    fold (@boundaryMatrixOf hatBasis hatObject).
    change (@inverse hatBasis (@boundaryMatrixOf hatBasis hatObject))
      with (@boundaryMatrixOf hatBasis hatObject).
    rewrite (matrixVector_matrixVector _ _ _ 10) by reflexivity.
    rewrite Hmatrix, Identity_squared, matrixVector_Identity by reflexivity.
    apply vectorAdd_vectorSubtract. reflexivity.
  - exists s'. split; [exact E|]. split; [exact E'|]. split; assumption.
Defined.
